(** * Quick-note AI summarizer: note collection hook and summarization functions

  A shallow embedding of

  - [supabase/functions/summarize-notes/index.ts] (batch summarization),
  - the [summarize-note] function (single-note summarization),
  - [src/hooks/useNotes.tsx] (the note collection hook, and the handlers of
    the [Index] page that the file carries after it),

  together with the properties of the specification that concern them.

  Asynchronous code is embedded as a finite tree of awaited external calls
  ([Prog]); a handler body is a computation over that tree which threads
  its mutable state and may complete abruptly ([M]). *)

From Stdlib Require Import String Ascii List ZArith QArith Bool Lia DecimalString.
Import ListNotations.
Local Close Scope Q_scope.
Local Open Scope list_scope.
Local Open Scope string_scope.
Set Warnings "-register-all".

(** ** JavaScript values *)

Module Js.

(** Values that JSON parsing and property access can produce. A number is
    held as the text the number-to-string conversion gives for it (["0"]
    for both zeros, ["0.5"], ["1e+21"]): the handlers only test numbers
    for zero and print them, and JSON has neither NaN nor the infinities.
    An object is its list of own properties, with distinct keys. *)
Inductive JsVal : Type :=
  | JUndefined
  | JNull
  | JBool (b : bool)
  | JNum (text : string)
  | JStr (s : string)
  | JArr (items : list JsVal)
  | JObj (fields : list (string * JsVal)).

(** A thrown [Error] object: only [name] and [message] are observed. *)
Record JsError : Type := mkError { name : string; message : string }.

Definition Error (msg : string) : JsError := mkError "Error" msg.
Definition TypeError (msg : string) : JsError := mkError "TypeError" msg.

(** How a statement or expression completes. *)
Inductive Completion (A : Type) : Type :=
  | Normal (a : A)
  | Throw (err : JsError).
Arguments Normal {A} a.
Arguments Throw {A} err.

(** How a promise settles. *)
Inductive Settled (A : Type) : Type :=
  | Fulfilled (a : A)
  | Rejected (err : JsError).
Arguments Fulfilled {A} a.
Arguments Rejected {A} err.

(** Sequencing of synchronous evaluation: a throw skips what follows. *)
Definition andThen {A B : Type} (c : Completion A) (f : A -> Completion B)
  : Completion B :=
  match c with
  | Normal a => f a
  | Throw err => Throw err
  end.

Definition nl : string := String (ascii_of_nat 10) EmptyString.
Definition dquote : string := String (ascii_of_nat 34) EmptyString.

(** Own-property lookup in an object literal. *)
Fixpoint lookup (k : string) (fields : list (string * JsVal)) : JsVal :=
  match fields with
  | [] => JUndefined
  | (k', v) :: rest => if String.eqb k' k then v else lookup k rest
  end.

(** [Some n] when [k] is the canonical decimal spelling of the index [n]. *)
Definition index_of_key (k : string) : option nat :=
  match NilEmpty.uint_of_string k with
  | Some u =>
      let n := Nat.of_uint u in
      if String.eqb (NilZero.string_of_uint (Nat.to_uint n)) k then Some n else None
  | None => None
  end.

(** Property read [v[k]] / [v.k], for keys that no prototype defines
    (the handlers read [notes], [title], [content], [choices], [0],
    [message], [summary]).
    Reading a property of [undefined] or [null] throws a [TypeError]
    (message as produced by V8); a missing property reads as [undefined].
    Indexing a string yields the one-character string at that position,
    and its [length] the number of characters (exact for ASCII text, where
    a byte is a code unit). *)
Definition getProp (v : JsVal) (k : string) : Completion JsVal :=
  match v with
  | JUndefined =>
      Throw (TypeError ("Cannot read properties of undefined (reading '" ++ k ++ "')"))
  | JNull =>
      Throw (TypeError ("Cannot read properties of null (reading '" ++ k ++ "')"))
  | JObj fields => Normal (lookup k fields)
  | JArr items =>
      match index_of_key k with
      | Some n => Normal (nth n items JUndefined)
      | None =>
          if String.eqb k "length"
          then Normal (JNum (NilZero.string_of_uint (Nat.to_uint (List.length items))))
          else Normal JUndefined
      end
  | JStr s =>
      match index_of_key k with
      | Some n =>
          if Nat.ltb n (String.length s) then Normal (JStr (String.substring n 1 s))
          else Normal JUndefined
      | None =>
          if String.eqb k "length"
          then Normal (JNum (NilZero.string_of_uint (Nat.to_uint (String.length s))))
          else Normal JUndefined
      end
  | JBool _ | JNum _ => Normal JUndefined
  end.

(** Whether an object has an own property of that name. *)
Definition has_own (k : string) (fields : list (string * JsVal)) : bool :=
  existsb (fun f => String.eqb (fst f) k) fields.

(** The string conversion applied by a template literal [`${v}`], on values
    that come from JSON. An array is converted by [join(",")], which
    converts each element in turn and prints [null] and [undefined] as the
    empty text. An object prints as [[object Object]] through
    [Object.prototype.toString], unless it has an own [toString] property:
    that property, coming from JSON, is not callable, [valueOf] cannot
    give a primitive either, and the conversion throws a [TypeError]
    (message as produced by V8). *)
Fixpoint toStr (v : JsVal) : Completion string :=
  match v with
  | JUndefined => Normal "undefined"
  | JNull => Normal "null"
  | JBool true => Normal "true"
  | JBool false => Normal "false"
  | JNum text => Normal text
  | JStr s => Normal s
  | JArr items =>
      andThen
        ((fix parts (l : list JsVal) : Completion (list string) :=
            match l with
            | [] => Normal []
            | x :: rest =>
                andThen (match x with
                         | JUndefined | JNull => Normal ""
                         | _ => toStr x
                         end)
                        (fun p => andThen (parts rest) (fun ps => Normal (p :: ps)))
            end) items)
        (fun ps => Normal (String.concat "," ps))
  | JObj fields =>
      if has_own "toString" fields
      then Throw (TypeError "Cannot convert object to primitive value")
      else Normal "[object Object]"
  end.

(** The destructuring [const { k } = v]: [null] and [undefined] cannot be
    destructured (message as produced by V8 when [v] is the value of an
    [await] expression); any other value is read as by [v.k]. *)
Definition destructure (v : JsVal) (k : string) : Completion JsVal :=
  match v with
  | JNull =>
      Throw (TypeError ("Cannot destructure property '" ++ k
                        ++ "' of '(intermediate value)' as it is null."))
  | JUndefined =>
      Throw (TypeError ("Cannot destructure property '" ++ k
                        ++ "' of '(intermediate value)' as it is undefined."))
  | _ => getProp v k
  end.

(** Whether a byte continues a UTF-8 sequence. *)
Definition continues (c : ascii) : bool :=
  Nat.leb 128 (nat_of_ascii c) && Nat.ltb (nat_of_ascii c) 192.

(** The characters (code points) of a text held as UTF-8. *)
Fixpoint code_points (s : string) : list string :=
  match s with
  | EmptyString => []
  | String c rest =>
      let starts_inside :=
        match rest with
        | String c' _ => continues c'
        | EmptyString => false
        end in
      match code_points rest with
      | p :: ps =>
          if starts_inside then String c p :: ps
          else String c EmptyString :: p :: ps
      | [] => [String c EmptyString]
      end
  end.

(** The values [for (const x of v)] goes through, [name] being the
    variable that holds [v]: the elements of an array, the characters of a
    string; nothing else that JSON gives is iterable (message as produced
    by V8). *)
Definition iterate (v : JsVal) (name : string) : Completion (list JsVal) :=
  match v with
  | JArr items => Normal items
  | JStr s => Normal (map JStr (code_points s))
  | _ => Throw (TypeError (name ++ " is not iterable"))
  end.

(** [Array.prototype.join] on an array of strings. *)
Definition join (sep : string) (parts : list string) : string :=
  String.concat sep parts.

End Js.
Import Js.

(** ** Asynchronous programs *)

Module Async.

Section Prog.
(** [E A] is an external call whose promise settles with an [A]. *)
Variable E : Type -> Type.

(** A program either returns or awaits an external call and continues
    with the way its promise settled. Calls are therefore issued one
    after the other: the next call is only built from the previous
    outcome. *)
Inductive Prog (R : Type) : Type :=
  | Ret (r : R)
  | Await {A : Type} (e : E A) (k : Settled A -> Prog R).

(** A call that was issued, without its reply. *)
Definition Event : Type := { A : Type & E A }.

(** The outside world: how the [n]-th call of a run settles. *)
Definition Env : Type := forall A : Type, nat -> E A -> Settled A.

(** Runs [p] against [env], [n] calls having been issued before;
    returns the result and the calls issued, in order. *)
Fixpoint exec {R : Type} (env : Env) (n : nat) (p : Prog R) : R * list Event :=
  match p with
  | Ret _ r => (r, [])
  | Await _ e k =>
      let '(r, tr) := exec env (S n) (k (env _ n e)) in
      (r, existT _ _ e :: tr)
  end.

Definition result {R : Type} (env : Env) (p : Prog R) : R := fst (exec env 0 p).
Definition calls {R : Type} (env : Env) (p : Prog R) : list Event := snd (exec env 0 p).

(** Computations over a mutable state [S] that may throw. The state
    reached when an exception is thrown is kept. *)
Definition M (S R : Type) : Type := S -> Prog (Completion R * S).

Section Ops.
Context {S : Type}.

Definition ret {R} (r : R) : M S R := fun s => Ret _ (Normal r, s).

Definition throw {R} (err : JsError) : M S R := fun s => Ret _ (Throw err, s).

Fixpoint bindP {R Q} (p : Prog (Completion R * S)) (f : R -> M S Q)
  : Prog (Completion Q * S) :=
  match p with
  | Ret _ (Normal r, s) => f r s
  | Ret _ (Throw err, s) => Ret _ (Throw err, s)
  | Await _ e k => Await _ e (fun o => bindP (k o) f)
  end.

Definition bind {R Q} (m : M S R) (f : R -> M S Q) : M S Q :=
  fun s => bindP (m s) f.

(** [await] of an external call: a rejected promise throws. *)
Definition await {A} (e : E A) : M S A :=
  fun s => Await _ e (fun o =>
    match o with
    | Fulfilled a => Ret _ (Normal a, s)
    | Rejected err => Ret _ (Throw err, s)
    end).

(** [await] of a promise whose outcome is already determined. *)
Definition await_settled {A} (o : Settled A) : M S A :=
  match o with
  | Fulfilled a => ret a
  | Rejected err => throw err
  end.

(** Lifts the completion of a synchronous expression. *)
Definition lift {A} (c : Completion A) : M S A :=
  match c with
  | Normal a => ret a
  | Throw err => throw err
  end.

Definition get : M S S := fun s => Ret _ (Normal s, s).
Definition modify (f : S -> S) : M S unit := fun s => Ret _ (Normal tt, f s).

Fixpoint catchP {R} (p : Prog (Completion R * S)) (h : JsError -> M S R)
  : Prog (Completion R * S) :=
  match p with
  | Ret _ (Normal r, s) => Ret _ (Normal r, s)
  | Ret _ (Throw err, s) => h err s
  | Await _ e k => Await _ e (fun o => catchP (k o) h)
  end.

(** [try { body } catch (error) { h error }]. *)
Definition try_catch {R} (body : M S R) (h : JsError -> M S R) : M S R :=
  fun s => catchP (body s) h.

Fixpoint finallyP {R} (p : Prog (Completion R * S)) (fin : M S unit)
  : Prog (Completion R * S) :=
  match p with
  | Ret _ (c, s) => bindP (fin s) (fun _ s' => Ret _ (c, s'))
  | Await _ e k => Await _ e (fun o => finallyP (k o) fin)
  end.

(** [try { body } finally { fin }]: [fin] runs however [body]
    completes; the completion of [body] is kept unless [fin] throws. *)
Definition try_finally {R} (body : M S R) (fin : M S unit) : M S R :=
  fun s => finallyP (body s) fin.

(** [for (const x of xs) { body x }]. *)
Fixpoint for_of {A} (xs : list A) (body : A -> M S unit) : M S unit :=
  match xs with
  | [] => ret tt
  | x :: rest => bind (body x) (fun _ => for_of rest body)
  end.

End Ops.
End Prog.

Arguments Ret {E R} r.
Arguments Await {E R A} e k.
Arguments exec {E R} env n p.
Arguments result {E R} env p.
Arguments calls {E R} env p.
Arguments ret {E S R} r.
Arguments throw {E S R} err.
Arguments bind {E S R Q} m f.
Arguments await {E S A} e.
Arguments await_settled {E S A} o.
Arguments lift {E S A} c.
Arguments get {E S}.
Arguments modify {E S} f.
Arguments try_catch {E S R} body h.
Arguments try_finally {E S R} body fin.
Arguments for_of {E S A} xs body.
Arguments bindP {E S R Q} p f.
Arguments catchP {E S R} p h.
Arguments finallyP {E S R} p fin.

Declare Scope async_scope.
Delimit Scope async_scope with async.
Notation "x <- c1 ;; c2" := (bind c1 (fun x => c2))
  (at level 61, c1 at next level, right associativity) : async_scope.
Notation "c1 ;; c2" := (bind c1 (fun _ => c2))
  (at level 61, right associativity) : async_scope.

End Async.
Import Async.

Local Open Scope async_scope.

(** ** HTTP as the functions see it *)

(** The outgoing side: [fetch] and the chat-completion request it carries. *)
Module Http.

Record ChatMessage : Type := mkMessage { role : string; content : string }.

(** The object passed to [JSON.stringify] as the request body. *)
Record ChatBody : Type := mkChatBody {
  model : string;
  messages : list ChatMessage;
  temperature : Q;
  top_p : Q;
  max_tokens : Z
}.

Record RequestInit : Type := mkInit {
  method : string;
  headers : list (string * string);
  body : ChatBody
}.

(** What [fetch] resolves to. [json] is how [response.json()] settles:
    it rejects when the body is not JSON text. *)
Record FetchResponse : Type := mkFetchResponse {
  ok : bool;
  statusText : string;
  json : Settled JsVal
}.

Inductive NetE : Type -> Type :=
  | Fetch (url : string) (init : RequestInit) : NetE FetchResponse.

(** The expression [data.choices[0].message.content]. *)
Definition first_choice_content (data : JsVal) : Completion JsVal :=
  andThen (getProp data "choices") (fun choices =>
  andThen (getProp choices "0") (fun choice =>
  andThen (getProp choice "message") (fun msg =>
  getProp msg "content"))).

End Http.

(** The incoming side: the request handed to the [serve] callback and the
    response it returns. [P] is the type of what [req.json()] gives, a JSON
    value for both functions; [json] is how [req.json()] settles. The body
    of a response is the value given to [JSON.stringify] (which leaves out
    a property whose value is [undefined]), or [None] for a [null] body. *)
Module Serve.

Record Request (P : Type) : Type := mkRequest {
  method : string;
  json : Settled P
}.
Arguments mkRequest {P} method json.
Arguments method {P} r.
Arguments json {P} r.

Record Response : Type := mkResponse {
  status : Z;
  headers : list (string * string);
  body : option JsVal
}.

End Serve.

(** [!v] for a value of type [string | undefined]. *)
Definition not_str (v : option string) : bool :=
  match v with
  | None => true
  | Some s => String.eqb s ""
  end.

(** [`${v}`] for a value of type [string | undefined]. *)
Definition str_of (v : option string) : string :=
  match v with
  | Some s => s
  | None => "undefined"
  end.

(** ** supabase/functions/summarize-notes/index.ts *)

Module SummarizeNotes.

(** The two texts of a note that go into its request and its line:
    [`${note.title}`] and [`${note.content}`]. *)
Record NoteItem : Type := mkItem { title : string; content : string }.

(** The body the client sends, [{ notes: [{ title, content }, ...] }]. *)
Record Payload : Type := mkPayload { notes : list NoteItem }.

(** The JSON value that body arrives as. *)
Definition item_json (note : NoteItem) : JsVal :=
  JObj [("title", JStr (title note)); ("content", JStr (content note))].

Definition payload_json (body : Payload) : JsVal :=
  JObj [("notes", JArr (map item_json (notes body)))].

Definition corsHeaders : list (string * string) :=
  [ ("Access-Control-Allow-Origin", "*");
    ("Access-Control-Allow-Headers", "authorization, x-client-info, apikey, content-type") ].

Definition url : string := "https://integrate.api.nvidia.com/v1/chat/completions".

Definition chat_body (note : NoteItem) : Http.ChatBody :=
  {| Http.model := "nvidia/llama-3.1-nemotron-70b-instruct";
     Http.messages :=
       [ {| Http.role := "system";
            Http.content := "You are a helpful assistant that creates very brief summaries. Provide a concise 1-2 sentence summary in plain text without any formatting or special characters." |};
         {| Http.role := "user";
            Http.content :=
              "Please summarize the following text in 1-2 sentences (not bullet points): "
              ++ dquote ++ title note ++ dquote ++ ":" ++ nl ++ nl ++ content note |} ];
     Http.temperature := 0.2%Q;
     Http.top_p := 0.7%Q;
     Http.max_tokens := 100 |}.

Definition fetch_init (nvidiApiKey : option string) (note : NoteItem) : Http.RequestInit :=
  {| Http.method := "POST";
     Http.headers := [ ("Authorization", "Bearer " ++ str_of nvidiApiKey);
                       ("Content-Type", "application/json") ];
     Http.body := chat_body note |}.

(** [summaries.push(line)]; the state is the [summaries] array. *)
Definition push (line : string) : M Http.NetE (list string) unit :=
  modify (fun summaries => summaries ++ [line])%list.

(** [`${note.title}`]: the property is read, then converted. *)
Definition title_text (note : JsVal) : Completion string :=
  andThen (getProp note "title") toStr.

(** The substitutions of the user message, in the order the template
    literal evaluates them: [note.title], then [note.content]. *)
Definition texts_of (note : JsVal) : Completion NoteItem :=
  andThen (title_text note) (fun title =>
  andThen (andThen (getProp note "content") toStr) (fun content =>
  Normal (mkItem title content))).

(** The body of the [for] loop, [note] being any value the request
    carried. The argument of [fetch] is built before the call, so a note
    whose title or content cannot be read or converted throws before any
    request for it. *)
Definition summarize_item (nvidiApiKey : option string) (note : JsVal)
  : M Http.NetE (list string) unit :=
  item <- lift (texts_of note) ;;
  response <- await (Http.Fetch url (fetch_init nvidiApiKey item)) ;;
  if Http.ok response then
    data <- await_settled (Http.json response) ;;
    summary <- lift (Http.first_choice_content data) ;;
    title <- lift (title_text note) ;;
    text <- lift (toStr summary) ;;
    push ("• " ++ title ++ ": " ++ text)
  else
    title <- lift (title_text note) ;;
    push ("• " ++ title ++ ": Unable to summarize this note.").

(** The callback given to [serve]. [nvidiApiKey] is the module constant read
    from the environment when the function starts; the request body is
    whatever JSON value [req.json()] gives. *)
Definition handler (nvidiApiKey : option string) (req : Serve.Request JsVal)
  : M Http.NetE (list string) Serve.Response :=
  if String.eqb (Serve.method req) "OPTIONS" then
    ret (Serve.mkResponse 200 corsHeaders None)
  else
    try_catch
      (body <- await_settled (Serve.json req) ;;
       notes <- lift (destructure body "notes") ;;
       if not_str nvidiApiKey then
         throw (Error "NVIDIA API key not configured")
       else
         items <- lift (iterate notes "notes") ;;
         for_of items (summarize_item nvidiApiKey) ;;
         summaries <- get ;;
         let combinedSummary := join (nl ++ nl) summaries in
         ret (Serve.mkResponse 200
                (corsHeaders ++ [("Content-Type", "application/json")])%list
                (Some (JObj [("summary", JStr combinedSummary)]))))
      (fun error =>
         ret (Serve.mkResponse 500
                (corsHeaders ++ [("Content-Type", "application/json")])%list
                (Some (JObj [("error", JStr (message error))])))).

(** One invocation of the function: the response it produces and the
    requests it sent to the completion endpoint, in order. *)
Definition serve (nvidiApiKey : option string) (req : Serve.Request JsVal)
  (env : Env Http.NetE) : Completion Serve.Response * list (Event Http.NetE) :=
  let '(c, _, tr) := exec env 0 (handler nvidiApiKey req []) in (c, tr).

(** A [POST] carrying the given notes, as the client sends them. *)
Definition post (items : list NoteItem) : Serve.Request JsVal :=
  Serve.mkRequest "POST" (Fulfilled (payload_json (mkPayload items))).

End SummarizeNotes.

(** ** supabase/functions/summarize-note/index.ts *)

Module SummarizeNote.

(** The body the client sends, [{ content }]. *)
Record Payload : Type := mkPayload { content : string }.

(** The JSON value that body arrives as. *)
Definition payload_json (body : Payload) : JsVal :=
  JObj [("content", JStr (content body))].

Definition corsHeaders : list (string * string) :=
  [ ("Access-Control-Allow-Origin", "*");
    ("Access-Control-Allow-Headers", "authorization, x-client-info, apikey, content-type") ].

Definition url : string := "https://integrate.api.nvidia.com/v1/chat/completions".

(** [content] is the text [`${content}`]. *)
Definition chat_body (content : string) : Http.ChatBody :=
  {| Http.model := "nvidia/llama-3.1-nemotron-70b-instruct";
     Http.messages :=
       [ {| Http.role := "system";
            Http.content := "You are a helpful assistant that creates clear, concise summaries. Provide a summary in plain text format with bullet points for key information. Use simple language and avoid any formatting like bold, italics, or markdown. Focus on capturing the main points in 2-3 sentences followed by bullet points for details." |};
         {| Http.role := "user";
            Http.content :=
              "Please summarize the following text in 1-2 sentences (not bullet points):"
              ++ nl ++ nl ++ content |} ];
     Http.temperature := 0.2%Q;
     Http.top_p := 0.7%Q;
     Http.max_tokens := 200 |}.

Definition fetch_init (nvidiApiKey : option string) (content : string) : Http.RequestInit :=
  {| Http.method := "POST";
     Http.headers := [ ("Authorization", "Bearer " ++ str_of nvidiApiKey);
                       ("Content-Type", "application/json") ];
     Http.body := chat_body content |}.

(** The callback given to [serve]; the request body is whatever JSON value
    [req.json()] gives. *)
Definition handler (nvidiApiKey : option string) (req : Serve.Request JsVal)
  : M Http.NetE unit Serve.Response :=
  if String.eqb (Serve.method req) "OPTIONS" then
    ret (Serve.mkResponse 200 corsHeaders None)
  else
    try_catch
      (body <- await_settled (Serve.json req) ;;
       content <- lift (destructure body "content") ;;
       if not_str nvidiApiKey then
         throw (Error "NVIDIA API key not configured")
       else
         text <- lift (toStr content) ;;
         response <- await (Http.Fetch url (fetch_init nvidiApiKey text)) ;;
         if negb (Http.ok response) then
           throw (Error ("NVIDIA API error: " ++ Http.statusText response))
         else
           data <- await_settled (Http.json response) ;;
           summary <- lift (Http.first_choice_content data) ;;
           ret (Serve.mkResponse 200
                  (corsHeaders ++ [("Content-Type", "application/json")])%list
                  (Some (JObj [("summary", summary)]))))
      (fun error =>
         ret (Serve.mkResponse 500
                (corsHeaders ++ [("Content-Type", "application/json")])%list
                (Some (JObj [("error", JStr (message error))])))).

Definition serve (nvidiApiKey : option string) (req : Serve.Request JsVal)
  (env : Env Http.NetE) : Completion Serve.Response * list (Event Http.NetE) :=
  let '(c, _, tr) := exec env 0 (handler nvidiApiKey req tt) in (c, tr).

End SummarizeNote.

(** ** src/hooks/useAuth: the current user *)

Module Auth.

Record User : Type := mkUser { id : string }.

End Auth.

(** ** src/hooks/useNotes.tsx *)

Module UseNotes.

Record Note : Type := mkNote {
  id : string;
  title : string;
  content : string;
  summary : option string;
  file_name : option string;
  created_at : string;
  updated_at : string;
  user_id : string
}.

(** What a request on table [notes] resolves to: [{ data, error }] with
    exactly one of the two set. *)
Inductive PostgrestResult (A : Type) : Type :=
  | PgData (data : A)
  | PgError (error : JsError).
Arguments PgData {A} data.
Arguments PgError {A} error.

(** What [supabase.functions.invoke] resolves to; [data] is the parsed
    response body of the function. *)
Inductive FunctionsResult : Type :=
  | FnData (data : JsVal)
  | FnError (error : JsError).

(** The object given to [.update(...)]. *)
Inductive Patch : Type :=
  | TextPatch (title content updated_at : string)
  | SummaryPatch (summary : JsVal) (updated_at : string).

(** The [body] given to [supabase.functions.invoke]. *)
Inductive InvokeBody : Type :=
  | ContentBody (body : SummarizeNote.Payload)
  | NotesBody (body : SummarizeNotes.Payload).

(** The calls the hook makes on the store and on the functions gateway:
    - [Select]: [.from('notes').select('*').order('created_at', { ascending: false })]
    - [Insert]: [.from('notes').insert([{ title, content, file_name, user_id }]).select().single()]
    - [Update]: [.from('notes').update(patch).eq('id', id).select().single()]
    - [Delete]: [.from('notes').delete().eq('id', id)]
    - [Invoke]: [supabase.functions.invoke(name, { body })] *)
Inductive GatewayE : Type -> Type :=
  | Select : GatewayE (PostgrestResult (option (list Note)))
  | Insert (title content : string) (file_name : option string) (user_id : string)
      : GatewayE (PostgrestResult Note)
  | Update (patch : Patch) (id : string) : GatewayE (PostgrestResult Note)
  | Delete (id : string) : GatewayE (PostgrestResult unit)
  | Invoke (name : string) (body : InvokeBody) : GatewayE FunctionsResult.

Inductive Toast : Type :=
  | toast_error (msg : string)
  | toast_success (msg : string).

(** The hook's React state, and the toasts shown so far. *)
Record State : Type := mkState {
  notes : list Note;
  loading : bool;
  toasts : list Toast
}.

(** [useState<Note[]>([])], [useState(true)]. *)
Definition initial : State := mkState [] true [].

Definition Op (R : Type) : Type := M GatewayE State R.

(** [setNotes(f)] with an updater function; [setNotes(v)] is [setNotes (fun _ => v)]. *)
Definition setNotes (f : list Note -> list Note) : Op unit :=
  modify (fun st => mkState (f (notes st)) (loading st) (toasts st)).

Definition setLoading (b : bool) : Op unit :=
  modify (fun st => mkState (notes st) b (toasts st)).

Definition toast (t : Toast) : Op unit :=
  modify (fun st => mkState (notes st) (loading st) (toasts st ++ [t])%list).

Definition fetchNotes (user : option Auth.User) : Op unit :=
  match user with
  | None => ret tt
  | Some _ =>
      try_finally
        (try_catch
           (r <- await Select ;;
            match r with
            | PgError error => toast (toast_error "Failed to fetch notes")
            | PgData data =>
                setNotes (fun _ => match data with Some rows => rows | None => [] end)
            end)
           (fun error => toast (toast_error "Failed to fetch notes")))
        (setLoading false)
  end.

(** The effect run when [user] changes. *)
Definition useEffect_user (user : option Auth.User) : Op unit :=
  match user with
  | Some _ => fetchNotes user
  | None => setNotes (fun _ => []) ;; setLoading false
  end.

Definition createNote (user : option Auth.User)
  (title content : string) (fileName : option string) : Op (option Note) :=
  match user with
  | None => ret None
  | Some u =>
      try_catch
        (r <- await (Insert title content fileName (Auth.id u)) ;;
         match r with
         | PgError error =>
             toast (toast_error "Failed to create note") ;;
             ret None
         | PgData data =>
             setNotes (fun prev => data :: prev) ;;
             toast (toast_success "Note created successfully!") ;;
             ret (Some data)
         end)
        (fun error =>
           toast (toast_error "Failed to create note") ;;
           ret None)
  end.

(** [now] is the value of [new Date().toISOString()] when the patch is built. *)
Definition updateNote (user : option Auth.User) (now : string)
  (id title content : string) : Op (option Note) :=
  match user with
  | None => ret None
  | Some _ =>
      try_catch
        (r <- await (Update (TextPatch title content now) id) ;;
         match r with
         | PgError error =>
             toast (toast_error "Failed to update note") ;;
             ret None
         | PgData data =>
             setNotes (fun prev =>
               map (fun note => if String.eqb (UseNotes.id note) id then data else note) prev) ;;
             toast (toast_success "Note updated successfully!") ;;
             ret (Some data)
         end)
        (fun error =>
           toast (toast_error "Failed to update note") ;;
           ret None)
  end.

Definition deleteNote (user : option Auth.User) (id : string) : Op bool :=
  match user with
  | None => ret false
  | Some _ =>
      try_catch
        (r <- await (Delete id) ;;
         match r with
         | PgError error =>
             toast (toast_error "Failed to delete note") ;;
             ret false
         | PgData _ =>
             setNotes (fun prev =>
               filter (fun note => negb (String.eqb (UseNotes.id note) id)) prev) ;;
             toast (toast_success "Note deleted successfully!") ;;
             ret true
         end)
        (fun error =>
           toast (toast_error "Failed to delete note") ;;
           ret false)
  end.

(** Returns the summary, or [null]. [notes] is the collection the callback
    closed over, read here as the state in which the operation starts. *)
Definition summarizeNote (user : option Auth.User) (now : string)
  (noteId : string) : Op JsVal :=
  st <- get ;;
  match find (fun n => String.eqb (id n) noteId) (notes st), user with
  | Some note, Some _ =>
      try_catch
        (r <- await (Invoke "summarize-note"
                       (ContentBody (SummarizeNote.mkPayload (content note)))) ;;
         match r with
         | FnError error =>
             toast (toast_error "Failed to summarize note") ;;
             ret JNull
         | FnData data =>
             summary <- lift (getProp data "summary") ;;
             r' <- await (Update (SummaryPatch summary now) noteId) ;;
             match r' with
             | PgError updateError =>
                 toast (toast_error "Failed to save summary") ;;
                 ret JNull
             | PgData updatedNote =>
                 setNotes (fun prev =>
                   map (fun note => if String.eqb (id note) noteId then updatedNote else note)
                       prev) ;;
                 toast (toast_success "Note summarized successfully!") ;;
                 ret summary
             end
         end)
        (fun error =>
           toast (toast_error "Failed to summarize note") ;;
           ret JNull)
  | _, _ => ret JNull
  end.

(** Returns the combined summary, or [null]. *)
Definition summarizeAllNotes (user : option Auth.User) : Op JsVal :=
  st <- get ;;
  match user, Nat.eqb (List.length (notes st)) 0 with
  | Some _, false =>
      try_catch
        (r <- await (Invoke "summarize-notes"
                       (NotesBody (SummarizeNotes.mkPayload
                          (map (fun note => SummarizeNotes.mkItem (title note) (content note))
                               (notes st))))) ;;
         match r with
         | FnError error =>
             toast (toast_error "Failed to summarize all notes") ;;
             ret JNull
         | FnData data =>
             toast (toast_success "All notes summarized successfully!") ;;
             lift (getProp data "summary")
         end)
        (fun error =>
           toast (toast_error "Failed to summarize all notes") ;;
           ret JNull)
  | _, _ => ret JNull
  end.

(** Runs one operation from state [st]: how it completes, the state it
    leaves, and the gateway calls it made, in order. *)
Definition run {R : Type} (op : Op R) (st : State) (env : Env GatewayE)
  : Completion R * State * list (Event GatewayE) :=
  exec env 0 (op st).

Definition outcome {R : Type} (op : Op R) (st : State) (env : Env GatewayE)
  : Completion R := fst (fst (run op st env)).
Definition after {R : Type} (op : Op R) (st : State) (env : Env GatewayE)
  : State := snd (fst (run op st env)).
Definition gateway_calls {R : Type} (op : Op R) (st : State) (env : Env GatewayE)
  : list (Event GatewayE) := snd (run op st env).

End UseNotes.

(** ** Vocabulary of the batch-mode properties *)

Module Batch.
Import SummarizeNotes.

(** The request sent for [note]. *)
Definition request (nvidiApiKey : option string) (note : NoteItem) : Event Http.NetE :=
  existT _ _ (Http.Fetch url (fetch_init nvidiApiKey note)).

(** How the request for [note] settles when it is call number [n]. *)
Definition reply (env : Env Http.NetE) (nvidiApiKey : option string)
  (n : nat) (note : NoteItem) : Settled Http.FetchResponse :=
  env _ n (Http.Fetch url (fetch_init nvidiApiKey note)).

(** The replies to the requests for [items], the first being call [n]. *)
Fixpoint replies (env : Env Http.NetE) (nvidiApiKey : option string)
  (n : nat) (items : list NoteItem) : list (Settled Http.FetchResponse) :=
  match items with
  | [] => []
  | note :: rest => reply env nvidiApiKey n note :: replies env nvidiApiKey (S n) rest
  end.

Definition fallback : string := "Unable to summarize this note.".

(** The text an exchange contributes to its line: the summary of a
    successful, well-formed response; the fallback for a response with a
    non-success status; nothing when the exchange throws (the request is
    rejected, the body is not JSON, reading
    [data.choices[0].message.content] throws, or what was read cannot be
    converted to text). *)
Definition summaryOrFallback (o : Settled Http.FetchResponse) : option string :=
  match o with
  | Rejected _ => None
  | Fulfilled response =>
      if Http.ok response then
        match Http.json response with
        | Rejected _ => None
        | Fulfilled data =>
            match Http.first_choice_content data with
            | Normal summary =>
                match toStr summary with
                | Normal text => Some text
                | Throw _ => None
                end
            | Throw _ => None
            end
        end
      else Some fallback
  end.

(** The spec's bullet line, ["• {title}: {summaryOrFallback}"]. *)
Definition bullet (title text : string) : string := "• " ++ title ++ ": " ++ text.

(** One bullet line per item, in input order. *)
Definition lines (items : list NoteItem) (texts : list string) : list string :=
  map (fun p => bullet (title (fst p)) (snd p)) (combine items texts).

(** The spec's combined text: the bullet lines joined by blank lines. *)
Definition combined (items : list NoteItem) (texts : list string) : string :=
  join (nl ++ nl) (lines items texts).

(** The two responses of the function. *)
Definition success (summary : string) : Serve.Response :=
  Serve.mkResponse 200
    (corsHeaders ++ [("Content-Type", "application/json")])%list
    (Some (JObj [("summary", JStr summary)])).

Definition failure (msg : string) : Serve.Response :=
  Serve.mkResponse 500
    (corsHeaders ++ [("Content-Type", "application/json")])%list
    (Some (JObj [("error", JStr msg)])).

(** Failure isolation for one run, as the specification words it: whatever
    goes wrong with individual items, the batch runs to its end, every item
    is requested, and the response is a success with one line per item. *)
Definition isolated (nvidiApiKey : option string) (items : list NoteItem)
  (env : Env Http.NetE) : Prop :=
  exists ls : list string,
    List.length ls = List.length items /\
    serve nvidiApiKey (post items) env =
    (Normal (success (join (nl ++ nl) ls)), map (request nvidiApiKey) items).

(** The generation parameters carried by a request. *)
Definition params (ev : Event Http.NetE) : Q * Q * Z :=
  match ev with
  | existT _ _ (Http.Fetch _ init) =>
      (Http.temperature (Http.body init), Http.top_p (Http.body init),
       Http.max_tokens (Http.body init))
  end.

(** Sample data: three notes, a well-formed completion, and worlds in
    which the request for the second note goes wrong in different ways. *)
Definition abc : list NoteItem :=
  [ mkItem "A" "first note"; mkItem "B" "second note"; mkItem "C" "third note" ].

Definition completion (text : string) : Http.FetchResponse :=
  Http.mkFetchResponse true "OK"
    (Fulfilled (JObj [ ("choices",
       JArr [ JObj [ ("index", JNum "0");
                     ("message", JObj [ ("role", JStr "assistant");
                                        ("content", JStr text) ]) ] ]) ])).

Definition second_is (o : Settled Http.FetchResponse) : Env Http.NetE :=
  fun A n e =>
    match e in Http.NetE T return Settled T with
    | Http.Fetch _ _ =>
        match n with
        | 1 => o
        | _ => Fulfilled (completion "ok")
        end
    end.

(** The second request is answered [429 Too Many Requests]. *)
Definition second_refused : Env Http.NetE :=
  second_is (Fulfilled (Http.mkFetchResponse false "Too Many Requests"
                          (Fulfilled (JObj [("error", JStr "rate limited")])))).

(** The second request times out: [fetch] rejects. *)
Definition second_times_out : Env Http.NetE :=
  second_is (Rejected (TypeError "request timed out")).

(** The second response has status 200 but no [choices]. *)
Definition second_malformed : Env Http.NetE :=
  second_is (Fulfilled (Http.mkFetchResponse true "OK"
                          (Fulfilled (JObj [("error", JStr "model overloaded")])))).

End Batch.

(** ** Vocabulary of the collection properties *)

Module Collection.
Import UseNotes.

(** Whether the store answered a request with data, that is, confirmed it.
    The alternatives are an [error] in the result and a rejected promise. *)
Definition confirmed {A : Type} (o : Settled (PostgrestResult A)) : bool :=
  match o with
  | Fulfilled (PgData _) => true
  | Fulfilled (PgError _) => false
  | Rejected _ => false
  end.

(** [Replaced id data before after]: going through [before] position by
    position, every entry whose id is [id] has been replaced by [data] and
    every other entry has been kept. *)
Inductive Replaced (id : string) (data : Note) : list Note -> list Note -> Prop :=
  | Replaced_nil : Replaced id data [] []
  | Replaced_here (n : Note) (before after : list Note) :
      UseNotes.id n = id ->
      Replaced id data before after ->
      Replaced id data (n :: before) (data :: after)
  | Replaced_keep (n : Note) (before after : list Note) :
      UseNotes.id n <> id ->
      Replaced id data before after ->
      Replaced id data (n :: before) (n :: after).

(** [Removed id before after]: going through [before] position by position,
    every entry whose id is [id] has been dropped and every other entry has
    been kept, in its place among the others. *)
Inductive Removed (id : string) : list Note -> list Note -> Prop :=
  | Removed_nil : Removed id [] []
  | Removed_here (n : Note) (before after : list Note) :
      UseNotes.id n = id ->
      Removed id before after ->
      Removed id (n :: before) after
  | Removed_keep (n : Note) (before after : list Note) :
      UseNotes.id n <> id ->
      Removed id before after ->
      Removed id (n :: before) (n :: after).

(** The [(title, content)] pairs of a collection, in collection order. *)
Definition pairs (ns : list Note) : list SummarizeNotes.NoteItem :=
  map (fun note => SummarizeNotes.mkItem (title note) (content note)) ns.

(** The one call [summarizeAllNotes] makes. *)
Definition invoke_all (ns : list Note) : Event GatewayE :=
  existT _ _ (Invoke "summarize-notes" (NotesBody (SummarizeNotes.mkPayload (pairs ns)))).

(** A world described by one reply per kind of call. *)
Record Replies : Type := mkReplies {
  on_select : Settled (PostgrestResult (option (list Note)));
  on_insert : Settled (PostgrestResult Note);
  on_update : Settled (PostgrestResult Note);
  on_delete : Settled (PostgrestResult unit);
  on_invoke : Settled FunctionsResult
}.

Definition world (r : Replies) : Env GatewayE :=
  fun A n e =>
    match e in GatewayE T return Settled T with
    | Select => on_select r
    | Insert _ _ _ _ => on_insert r
    | Update _ _ => on_update r
    | Delete _ => on_delete r
    | Invoke _ _ => on_invoke r
    end.

(** Sample data. *)
Definition alice : Auth.User := Auth.mkUser "u-1".

Definition groceries : Note :=
  mkNote "n-2" "Groceries" "milk, eggs, bread" None None
         "2024-05-02T09:00:00.000Z" "2024-05-02T09:00:00.000Z" "u-1".

Definition meeting : Note :=
  mkNote "n-1" "Meeting" "budget review on Friday" (Some "Budget review.") None
         "2024-05-01T09:00:00.000Z" "2024-05-01T10:00:00.000Z" "u-1".

Definition two_notes : State := mkState [groceries; meeting] false [].

Definition groceries_edited : Note :=
  mkNote "n-2" "Groceries" "milk, eggs, bread, tea" None None
         "2024-05-02T09:00:00.000Z" "2024-05-03T08:00:00.000Z" "u-1".

Definition store_error : JsError := mkError "PostgrestError" "permission denied".

(** The store refuses every request; the functions gateway answers with a summary. *)
Definition store_down : Env GatewayE :=
  world (mkReplies (Fulfilled (PgError store_error))
                   (Fulfilled (PgError store_error))
                   (Fulfilled (PgError store_error))
                   (Fulfilled (PgError store_error))
                   (Fulfilled (FnData (JObj [("summary", JStr "Shopping list.")])))).

(** Everything succeeds; updates return the edited groceries note. *)
Definition all_well : Env GatewayE :=
  world (mkReplies (Fulfilled (PgData (Some [groceries; meeting])))
                   (Fulfilled (PgData groceries))
                   (Fulfilled (PgData groceries_edited))
                   (Fulfilled (PgData tt))
                   (Fulfilled (FnData (JObj [("summary", JStr "Two notes.")])))).

End Collection.

(** ** The error of an exchange *)

Module BatchErrors.

(** The error an exchange of the batch loop throws, if it throws: the
    rejection of [fetch], the rejection of [response.json()], the
    [TypeError] of reading [data.choices[0].message.content], or the
    [TypeError] of converting what was read to text. *)
Definition thrown (o : Settled Http.FetchResponse) : option JsError :=
  match o with
  | Rejected err => Some err
  | Fulfilled response =>
      if Http.ok response then
        match Http.json response with
        | Rejected err => Some err
        | Fulfilled data =>
            match Http.first_choice_content data with
            | Throw err => Some err
            | Normal summary =>
                match toStr summary with
                | Throw err => Some err
                | Normal _ => None
                end
            end
        end
      else None
  end.

End BatchErrors.

(** ** Vocabulary of the single-note properties *)

Module Single.

(** How the request of the single-note function settles. *)
Definition single_reply (env : Env Http.NetE) (key : option string) (content : string)
  : Settled Http.FetchResponse :=
  env _ 0 (Http.Fetch SummarizeNote.url (SummarizeNote.fetch_init key content)).

(** A [POST] carrying the given content, as the client sends it. *)
Definition single_post (content : string) : Serve.Request JsVal :=
  Serve.mkRequest "POST"
    (Fulfilled (SummarizeNote.payload_json (SummarizeNote.mkPayload content))).

(** A world in which every request settles the same way. *)
Definition always (o : Settled Http.FetchResponse) : Env Http.NetE :=
  fun A n e =>
    match e in Http.NetE T return Settled T with
    | Http.Fetch _ _ => o
    end.

Definition too_many_requests : Http.FetchResponse :=
  Http.mkFetchResponse false "Too Many Requests"
    (Fulfilled (JObj [("error", JStr "rate limited")])).

(** A 200 response whose first choice has a message without [content]. *)
Definition without_content : Http.FetchResponse :=
  Http.mkFetchResponse true "OK"
    (Fulfilled (JObj [ ("choices",
       JArr [ JObj [ ("index", JNum "0");
                     ("message", JObj [ ("role", JStr "assistant") ]) ] ]) ])).

End Single.

(** ** Invariants of the collection *)

Module Invariants.

(** No two entries of the collection have the same id. *)
Definition distinct_ids (ns : list UseNotes.Note) : Prop :=
  NoDup (map UseNotes.id ns).

(** Whether some entry has the given id. *)
Definition listed (id : string) (ns : list UseNotes.Note) : bool :=
  existsb (fun n => String.eqb (UseNotes.id n) id) ns.

(** The summary the function invocation delivered, if it delivered one:
    the invocation resolved with data and [data.summary] could be read. *)
Definition summary_received (o : Settled UseNotes.FunctionsResult) : option JsVal :=
  match o with
  | Fulfilled (UseNotes.FnData data) =>
      match getProp data "summary" with
      | Normal summary => Some summary
      | Throw _ => None
      end
  | Fulfilled (UseNotes.FnError _) => None
  | Rejected _ => None
  end.

(** Whether an event is a request to the store (as opposed to a function
    invocation). *)
Definition is_store_call (ev : Event UseNotes.GatewayE) : bool :=
  match ev with
  | existT _ _ (UseNotes.Invoke _ _) => false
  | existT _ _ _ => true
  end.

End Invariants.

(** ** More of JavaScript: truthiness, [trim], [replace] *)

Module JsText.

(** [Boolean(v)], the test applied by [if (v)]. *)
Definition truthy (v : JsVal) : bool :=
  match v with
  | JUndefined | JNull => false
  | JBool b => b
  | JNum text => negb (String.eqb text "0")
  | JStr s => negb (String.eqb s "")
  | JArr _ | JObj _ => true
  end.

Definition byte (n : nat) (c : ascii) : bool := Ascii.eqb c (ascii_of_nat n).

(** The one-byte white space and line terminators: TAB, LF, VT, FF, CR, SP. *)
Definition ws1 (c : ascii) : bool :=
  byte 9 c || byte 10 c || byte 11 c || byte 12 c || byte 13 c || byte 32 c.

(** The third byte of the white space characters encoded [E2 80 xx]:
    U+2000 to U+200A, U+2028, U+2029, U+202F. *)
Definition ws_e2_80 (c : ascii) : bool :=
  (Nat.leb 128 (nat_of_ascii c) && Nat.leb (nat_of_ascii c) 138)
  || byte 168 c || byte 169 c || byte 175 c.

(** [s.trimStart()] on UTF-8 text: drops leading white space and line
    terminators (TAB, LF, VT, FF, CR, SP, U+00A0, U+1680, U+2000 to U+200A,
    U+2028, U+2029, U+202F, U+205F, U+3000, U+FEFF). *)
Fixpoint trimStart (s : string) : string :=
  match s with
  | EmptyString => EmptyString
  | String c1 r1 =>
      if ws1 c1 then trimStart r1
      else
        match r1 with
        | String c2 r2 =>
            if byte 194 c1 && byte 160 c2 then trimStart r2
            else
              match r2 with
              | String c3 r3 =>
                  if (byte 225 c1 && byte 154 c2 && byte 128 c3)
                     || (byte 226 c1 && byte 128 c2 && ws_e2_80 c3)
                     || (byte 226 c1 && byte 129 c2 && byte 159 c3)
                     || (byte 227 c1 && byte 128 c2 && byte 128 c3)
                     || (byte 239 c1 && byte 187 c2 && byte 191 c3)
                  then trimStart r3
                  else s
              | EmptyString => s
              end
        | EmptyString => s
        end
  end.

(** [!s.trim()]: the text is empty or white space only. *)
Definition blank (s : string) : bool := String.eqb (trimStart s) "".

(** [s.replace(pattern, replacement)] with a string pattern: the first
    occurrence only. *)
Fixpoint replace (pattern replacement s : string) : string :=
  if String.prefix pattern s then
    replacement ++ String.substring (String.length pattern)
                     (String.length s - String.length pattern) s
  else
    match s with
    | EmptyString => EmptyString
    | String c rest => String c (replace pattern replacement rest)
    end.

End JsText.

(** ** The [Index] page: its handlers *)

Module Index.
Import JsText.

Record Modal : Type := mkModal {
  isOpen : bool;
  title : string;
  summary : JsVal
}.

(** The selected note object: a note, whose [summary] property may have
    been overwritten by [{ ...prev, summary }] with any value. *)
Record Selected : Type := mkSelected {
  note : UseNotes.Note;
  summary_over : option JsVal
}.

(** The state of the page: what [useNotes()] holds and the page's own
    [useState] cells. Toasts go to the same list as the hook's. *)
Record Page : Type := mkPage {
  hook : UseNotes.State;
  selectedNote : option Selected;
  isCreating : bool;
  isEditing : bool;
  newNoteTitle : string;
  newNoteContent : string;
  isLoadingSummary : bool;
  isLoadingBulkSummary : bool;
  summaryModal : Modal
}.

Definition initial : Page :=
  mkPage UseNotes.initial None false false "" "" false false (mkModal false "" (JStr "")).

Definition Handler (R : Type) : Type := M UseNotes.GatewayE Page R.

(** Runs a computation on a part [S] of the state [T]. *)
Fixpoint zoomP {E : Type -> Type} {S T R : Type} (put : S -> T)
  (p : Prog E (Completion R * S)) : Prog E (Completion R * T) :=
  match p with
  | Ret (c, s) => Ret (c, put s)
  | Await e k => Await e (fun o => zoomP put (k o))
  end.

Definition with_hook (p : Page) (h : UseNotes.State) : Page :=
  mkPage h (selectedNote p) (isCreating p) (isEditing p) (newNoteTitle p)
         (newNoteContent p) (isLoadingSummary p) (isLoadingBulkSummary p) (summaryModal p).

(** A call of one of the functions returned by [useNotes()]. *)
Definition useNotes {R : Type} (op : UseNotes.Op R) : Handler R :=
  fun p => zoomP (with_hook p) (op (hook p)).

Section Setters.
Context {E : Type -> Type}.

(** [toast.error(...)] / [toast.success(...)] called by the page. *)
Definition toast (t : UseNotes.Toast) : M E Page unit :=
  modify (fun p =>
    with_hook p (UseNotes.mkState (UseNotes.notes (hook p)) (UseNotes.loading (hook p))
                                  (UseNotes.toasts (hook p) ++ [t])%list)).

Definition setSelectedNote (f : option Selected -> option Selected) : M E Page unit :=
  modify (fun p =>
    mkPage (hook p) (f (selectedNote p)) (isCreating p) (isEditing p) (newNoteTitle p)
           (newNoteContent p) (isLoadingSummary p) (isLoadingBulkSummary p) (summaryModal p)).

Definition setIsCreating (b : bool) : M E Page unit :=
  modify (fun p =>
    mkPage (hook p) (selectedNote p) b (isEditing p) (newNoteTitle p)
           (newNoteContent p) (isLoadingSummary p) (isLoadingBulkSummary p) (summaryModal p)).

Definition setIsEditing (b : bool) : M E Page unit :=
  modify (fun p =>
    mkPage (hook p) (selectedNote p) (isCreating p) b (newNoteTitle p)
           (newNoteContent p) (isLoadingSummary p) (isLoadingBulkSummary p) (summaryModal p)).

Definition setNewNoteTitle (s : string) : M E Page unit :=
  modify (fun p =>
    mkPage (hook p) (selectedNote p) (isCreating p) (isEditing p) s
           (newNoteContent p) (isLoadingSummary p) (isLoadingBulkSummary p) (summaryModal p)).

Definition setNewNoteContent (s : string) : M E Page unit :=
  modify (fun p =>
    mkPage (hook p) (selectedNote p) (isCreating p) (isEditing p) (newNoteTitle p)
           s (isLoadingSummary p) (isLoadingBulkSummary p) (summaryModal p)).

Definition setIsLoadingSummary (b : bool) : M E Page unit :=
  modify (fun p =>
    mkPage (hook p) (selectedNote p) (isCreating p) (isEditing p) (newNoteTitle p)
           (newNoteContent p) b (isLoadingBulkSummary p) (summaryModal p)).

Definition setIsLoadingBulkSummary (b : bool) : M E Page unit :=
  modify (fun p =>
    mkPage (hook p) (selectedNote p) (isCreating p) (isEditing p) (newNoteTitle p)
           (newNoteContent p) (isLoadingSummary p) b (summaryModal p)).

Definition setSummaryModal (m : Modal) : M E Page unit :=
  modify (fun p =>
    mkPage (hook p) (selectedNote p) (isCreating p) (isEditing p) (newNoteTitle p)
           (newNoteContent p) (isLoadingSummary p) (isLoadingBulkSummary p) m).

End Setters.

(** [selectedNote?.id === noteId]. *)
Definition selected_is (sel : option Selected) (noteId : string) : bool :=
  match sel with
  | Some s => String.eqb (UseNotes.id (note s)) noteId
  | None => false
  end.

(** The handlers exist only in a render with a user ([if (!user) return
    <AuthPage />] precedes them); [u] is that user. Values a handler reads
    from its closure ([notes], [selectedNote], the form fields) are those
    of the state in which it starts. *)
Definition handleCreateNote (u : Auth.User) : Handler unit :=
  page <- get ;;
  if blank (newNoteTitle page) || blank (newNoteContent page) then
    toast (UseNotes.toast_error "Please provide both title and content")
  else
    newNote <- useNotes (UseNotes.createNote (Some u)
                           (newNoteTitle page) (newNoteContent page) None) ;;
    match newNote with
    | Some created =>
        setSelectedNote (fun _ => Some (mkSelected created None)) ;;
        setNewNoteTitle "" ;;
        setNewNoteContent "" ;;
        setIsCreating false
    | None => ret tt
    end.

Definition handleDeleteNote (u : Auth.User) (noteId : string) : Handler unit :=
  page <- get ;;
  success <- useNotes (UseNotes.deleteNote (Some u) noteId) ;;
  if success && selected_is (selectedNote page) noteId then
    let notes := UseNotes.notes (hook page) in
    setSelectedNote (fun _ =>
      if Nat.ltb 1 (List.length notes) then
        match find (fun n => negb (String.eqb (UseNotes.id n) noteId)) notes with
        | Some n => Some (mkSelected n None)
        | None => None
        end
      else None)
  else ret tt.

Definition handleSummarizeNote (u : Auth.User) (now : string) (noteId : string)
  : Handler unit :=
  page <- get ;;
  setIsLoadingSummary true ;;
  try_finally
    (summary <- useNotes (UseNotes.summarizeNote (Some u) now noteId) ;;
     if truthy summary && selected_is (selectedNote page) noteId then
       setSelectedNote (fun prev =>
         match prev with
         | Some s => Some (mkSelected (note s) (Some summary))
         | None => None
         end) ;;
       setSummaryModal
         (mkModal true
            ("Summary: " ++ match selectedNote page with
                            | Some s => UseNotes.title (note s)
                            | None => "undefined"
                            end)
            summary)
     else ret tt)
    (setIsLoadingSummary false).

Definition handleBulkSummarize (u : Auth.User) : Handler unit :=
  setIsLoadingBulkSummary true ;;
  try_finally
    (summary <- useNotes (UseNotes.summarizeAllNotes (Some u)) ;;
     if truthy summary then
       setSummaryModal (mkModal true "Summary of All Notes" summary)
     else ret tt)
    (setIsLoadingBulkSummary false).

Definition handleUpdateNote (u : Auth.User) (now : string) : Handler unit :=
  page <- get ;;
  match selectedNote page with
  | Some sel =>
      if blank (newNoteTitle page) || blank (newNoteContent page) then
        toast (UseNotes.toast_error "Please provide both title and content")
      else
        updatedNote <- useNotes (UseNotes.updateNote (Some u) now
                                   (UseNotes.id (note sel))
                                   (newNoteTitle page) (newNoteContent page)) ;;
        match updatedNote with
        | Some updated =>
            setSelectedNote (fun _ => Some (mkSelected updated None)) ;;
            setIsEditing false ;;
            setNewNoteTitle "" ;;
            setNewNoteContent ""
        | None => ret tt
        end
  | None => toast (UseNotes.toast_error "Please provide both title and content")
  end.

Definition startEdit : Handler unit :=
  page <- get ;;
  match selectedNote page with
  | Some sel =>
      setNewNoteTitle (UseNotes.title (note sel)) ;;
      setNewNoteContent (UseNotes.content (note sel)) ;;
      setIsEditing true
  | None => ret tt
  end.

(** What the page asks of the browser: [FileReader.readAsText], whose
    load event delivers the text (no load event when the read fails), and
    [navigator.clipboard.readText()]. *)
Record File : Type := mkFile { name : string; type : string }.

Inductive BrowserE : Type -> Type :=
  | ReadAsText (file : File) : BrowserE string
  | ClipboardReadText : BrowserE string.

(** [file] is [event.target.files?.[0]]. *)
Definition handleFileUpload (file : option File) : M BrowserE Page unit :=
  match file with
  | Some f =>
      if String.eqb (type f) "text/plain" then
        fun p => Await (ReadAsText f) (fun o =>
          match o with
          | Fulfilled content =>
              (setNewNoteContent content ;;
               setNewNoteTitle (replace ".txt" "" (name f)) ;;
               setIsCreating true) p
          | Rejected _ => Ret (Normal tt, p)
          end)
      else toast (UseNotes.toast_error "Please upload a text file (.txt)")
  | None => toast (UseNotes.toast_error "Please upload a text file (.txt)")
  end.

(** [stamp] is the value of [new Date().toLocaleString()]. *)
Definition handlePasteContent (stamp : string) : M BrowserE Page unit :=
  try_catch
    (text <- await ClipboardReadText ;;
     if negb (String.eqb text "") then
       setNewNoteContent text ;;
       setNewNoteTitle ("Pasted Content - " ++ stamp) ;;
       setIsCreating true
     else ret tt)
    (fun err => toast (UseNotes.toast_error "Failed to read clipboard. Please paste manually.")).

(** The page with the draft fields set and the form opened, as the upload
    and paste handlers leave it. *)
Definition with_draft (p : Page) (title content : string) : Page :=
  mkPage (hook p) (selectedNote p) true (isEditing p) title content
         (isLoadingSummary p) (isLoadingBulkSummary p) (summaryModal p).

(** The page with one more toast. *)
Definition with_toast (p : Page) (t : UseNotes.Toast) : Page :=
  with_hook p (UseNotes.mkState (UseNotes.notes (hook p)) (UseNotes.loading (hook p))
                                (UseNotes.toasts (hook p) ++ [t])%list).

(** A world for the browser calls: the file read and the clipboard read
    settle as given. *)
Definition browser (read clip : Settled string) : Env BrowserE :=
  fun A n e =>
    match e in BrowserE T return Settled T with
    | ReadAsText _ => read
    | ClipboardReadText => clip
    end.

(** Runs one handler from page state [p]. *)
Definition run {R : Type} (h : Handler R) (p : Page) (env : Env UseNotes.GatewayE)
  : Completion R * Page * list (Event UseNotes.GatewayE) :=
  exec env 0 (h p).

Definition after {R : Type} (h : Handler R) (p : Page) (env : Env UseNotes.GatewayE)
  : Page := snd (fst (run h p env)).
Definition gateway_calls {R : Type} (h : Handler R) (p : Page)
  (env : Env UseNotes.GatewayE) : list (Event UseNotes.GatewayE) := snd (run h p env).

(** The selection points into the collection: some note there has its id. *)
Definition selection_listed (p : Page) : Prop :=
  match selectedNote p with
  | Some sel =>
      exists n, In n (UseNotes.notes (hook p)) /\
                UseNotes.id n = UseNotes.id (note sel)
  | None => True
  end.

(** Sample page: the two sample notes, the first one selected, and a draft. *)
Definition sample : Page :=
  mkPage Collection.two_notes (Some (mkSelected Collection.groceries None))
         false false "Tea" "buy tea" false false (mkModal false "" (JStr "")).

End Index.

(** * Properties *)

(** ** Running sequenced computations *)

Section ExecFacts.
Context {E : Type -> Type} {S : Type}.
Variable env : Env E.

(** Running [p] and then [f]: the calls of [f] are numbered after those of [p]. *)
Lemma exec_bindP {R Q} (p : Prog E (Completion R * S)) (f : R -> M E S Q) (n : nat) :
  exec env n (bindP p f) =
  match exec env n p with
  | (Normal r, s, tr) =>
      let '(res, tr') := exec env (n + List.length tr) (f r s) in (res, (tr ++ tr')%list)
  | (Throw err, s, tr) => (Throw err, s, tr)
  end.
Proof.
  revert n. induction p as [[c s] | A e k IH]; intro n.
  - destruct c as [r | err]; cbn.
    + rewrite Nat.add_0_r. destruct (exec env n (f r s)). reflexivity.
    + reflexivity.
  - cbn. rewrite IH.
    destruct (exec env (Datatypes.S n) (k (env A n e))) as [[c s] tr].
    destruct c as [r | err]; cbn; [ | reflexivity ].
    rewrite Nat.add_succ_r.
    destruct (exec env (Datatypes.S (n + List.length tr)) (f r s)). reflexivity.
Qed.

Lemma exec_catchP {R} (p : Prog E (Completion R * S)) (h : JsError -> M E S R) (n : nat) :
  exec env n (catchP p h) =
  match exec env n p with
  | (Normal r, s, tr) => (Normal r, s, tr)
  | (Throw err, s, tr) =>
      let '(res, tr') := exec env (n + List.length tr) (h err s) in (res, (tr ++ tr')%list)
  end.
Proof.
  revert n. induction p as [[c s] | A e k IH]; intro n.
  - destruct c as [r | err]; cbn.
    + reflexivity.
    + rewrite Nat.add_0_r. destruct (exec env n (h err s)). reflexivity.
  - cbn. rewrite IH.
    destruct (exec env (Datatypes.S n) (k (env A n e))) as [[c s] tr].
    destruct c as [r | err]; cbn; [ reflexivity | ].
    rewrite Nat.add_succ_r.
    destruct (exec env (Datatypes.S (n + List.length tr)) (h err s)). reflexivity.
Qed.

End ExecFacts.

(** ** The batch loop *)

Section BatchLoop.
Import SummarizeNotes Batch.
Variable env : Env Http.NetE.
Variable key : option string.

(** A note as the client sends it has its two texts. *)
Lemma texts_of_item_json (note : NoteItem) : texts_of (item_json note) = Normal note.
Proof. destruct note as [t c]. reflexivity. Qed.

Lemma title_text_item_json (note : NoteItem) :
  title_text (item_json note) = Normal (title note).
Proof. destruct note as [t c]. reflexivity. Qed.

(** An exchange that does not throw appends exactly its bullet line. *)
Lemma summarize_item_line (note : NoteItem) (n : nat) (acc : list string) (text : string) :
  summaryOrFallback (reply env key n note) = Some text ->
  exec env n (summarize_item key (item_json note) acc) =
  (Normal tt, (acc ++ [bullet (title note) text])%list, [request key note]).
Proof.
  unfold summaryOrFallback, reply, summarize_item, bind.
  rewrite texts_of_item_json. unfold await. cbn [lift ret bindP exec].
  destruct (env Http.FetchResponse n (Http.Fetch url (fetch_init key note)))
    as [response | err]; [ | discriminate ].
  cbn [bindP]. destruct (Http.ok response); cbn [bindP].
  - destruct (Http.json response) as [data | err]; [ | discriminate ].
    cbn [await_settled ret bindP].
    destruct (Http.first_choice_content data) as [summary | err]; [ | discriminate ].
    cbn [lift ret bindP]. rewrite title_text_item_json. cbn [lift ret bindP].
    destruct (toStr summary) as [converted | err]; [ | discriminate ].
    intros [= <-]. reflexivity.
  - rewrite title_text_item_json. intros [= <-]. reflexivity.
Qed.

(** An exchange that throws leaves [summaries] as it was. *)
Lemma summarize_item_throws (note : NoteItem) (n : nat) (acc : list string) :
  summaryOrFallback (reply env key n note) = None ->
  exists err, exec env n (summarize_item key (item_json note) acc) =
              (Throw err, acc, [request key note]).
Proof.
  unfold summaryOrFallback, reply, summarize_item, bind.
  rewrite texts_of_item_json. unfold await. cbn [lift ret bindP exec].
  destruct (env Http.FetchResponse n (Http.Fetch url (fetch_init key note)))
    as [response | err]; [ | intros _; exists err; reflexivity ].
  cbn [bindP]. destruct (Http.ok response); cbn [bindP]; [ | discriminate ].
  destruct (Http.json response) as [data | err]; [ | intros _; exists err; reflexivity ].
  cbn [await_settled ret bindP].
  destruct (Http.first_choice_content data) as [summary | err];
    [ | intros _; exists err; reflexivity ].
  cbn [lift ret bindP]. rewrite title_text_item_json. cbn [lift ret bindP].
  destruct (toStr summary) as [converted | err]; [ discriminate | ].
  intros _. exists err. reflexivity.
Qed.

(** When no exchange throws, the loop runs to its end: one request and one
    line per item, in input order. *)
Lemma for_of_lines (items : list NoteItem) :
  forall (texts : list string) (n : nat) (acc : list string),
  map summaryOrFallback (replies env key n items) = map Some texts ->
  exec env n (for_of (map item_json items) (summarize_item key) acc) =
  (Normal tt,
   (acc ++ lines items texts)%list,
   map (request key) items).
Proof.
  induction items as [ | note rest IH]; intros texts n acc H.
  - destruct texts; [ | discriminate ]. cbn. rewrite app_nil_r. reflexivity.
  - destruct texts as [ | text texts]; [ discriminate | ].
    cbn in H. injection H as Hhead Htail.
    cbn [map for_of]. unfold bind. rewrite exec_bindP.
    rewrite (summarize_item_line note n acc text Hhead).
    cbn [List.length]. rewrite Nat.add_1_r.
    rewrite (IH texts (S n) _ Htail).
    unfold lines. cbn. rewrite <- app_assoc. reflexivity.
Qed.

(** When some exchange throws, so does the loop. *)
Lemma for_of_throws (items : list NoteItem) :
  forall (n : nat) (acc : list string),
  In None (map summaryOrFallback (replies env key n items)) ->
  exists err s tr,
    exec env n (for_of (map item_json items) (summarize_item key) acc) = (Throw err, s, tr).
Proof.
  induction items as [ | note rest IH]; intros n acc H.
  - destruct H.
  - cbn [map for_of]. unfold bind. rewrite exec_bindP.
    destruct (summaryOrFallback (reply env key n note)) as [text | ] eqn:Hhead.
    + rewrite (summarize_item_line note n acc text Hhead).
      cbn [List.length]. rewrite Nat.add_1_r.
      cbn in H. destruct H as [H | H]; [ congruence | ].
      destruct (IH (S n) (acc ++ [bullet (title note) text])%list H) as (err & s & tr & ->).
      eauto.
    + destruct (summarize_item_throws note n acc Hhead) as [err ->]. eauto.
Qed.

(** The requests sent are always those of an initial segment of the items. *)
Lemma for_of_requests (items : list NoteItem) :
  forall (n : nat) (acc : list string),
  exists k, snd (exec env n (for_of (map item_json items) (summarize_item key) acc)) =
            map (request key) (firstn k items).
Proof.
  induction items as [ | note rest IH]; intros n acc.
  - exists 0. reflexivity.
  - cbn [map for_of]. unfold bind. rewrite exec_bindP.
    destruct (summaryOrFallback (reply env key n note)) as [text | ] eqn:Hhead.
    + rewrite (summarize_item_line note n acc text Hhead).
      cbn [List.length]. rewrite Nat.add_1_r.
      destruct (IH (S n) (acc ++ [bullet (title note) text])%list) as [k Hk].
      destruct (exec env (S n) (for_of (map item_json rest) (summarize_item key) _))
        as [res tr].
      cbn in Hk. subst tr. exists (S k). reflexivity.
    + destruct (summarize_item_throws note n acc Hhead) as [err ->].
      exists 1. reflexivity.
Qed.

(** Whatever value a note is, its turn of the loop sends no request or the
    one request built from its two texts. *)
Lemma summarize_item_calls (note : JsVal) (n : nat) (acc : list string) :
  snd (exec env n (summarize_item key note acc)) = [] \/
  exists item, snd (exec env n (summarize_item key note acc)) = [request key item].
Proof.
  unfold summarize_item, bind.
  destruct (texts_of note) as [item | err]; [ | left; reflexivity ].
  right. exists item. unfold await. cbn [lift ret bindP exec].
  destruct (env Http.FetchResponse n (Http.Fetch url (fetch_init key item)))
    as [response | err]; [ | reflexivity ].
  cbn [bindP]. destruct (Http.ok response); cbn [bindP].
  - destruct (Http.json response) as [data | err]; [ | reflexivity ].
    cbn [await_settled ret bindP].
    destruct (Http.first_choice_content data) as [summary | err]; [ | reflexivity ].
    cbn [lift ret bindP].
    destruct (title_text note) as [t | err]; [ | reflexivity ].
    cbn [lift ret bindP].
    destruct (toStr summary) as [converted | err]; reflexivity.
  - destruct (title_text note) as [t | err]; reflexivity.
Qed.

(** Whatever values the notes are, every request of the loop is the
    request of two texts. *)
Lemma for_of_calls (notes : list JsVal) :
  forall (n : nat) (acc : list string),
  exists items, snd (exec env n (for_of notes (summarize_item key) acc)) =
                map (request key) items.
Proof.
  induction notes as [ | note rest IH]; intros n acc.
  - exists []. reflexivity.
  - cbn [for_of]. unfold bind. rewrite exec_bindP.
    pose proof (summarize_item_calls note n acc) as Hitem.
    destruct (exec env n (summarize_item key note acc)) as [[c s] tr].
    cbn [snd] in Hitem.
    assert (Htr : exists items, tr = map (request key) items).
    { destruct Hitem as [-> | [item ->]]; [ exists [] | exists [item] ]; reflexivity. }
    destruct Htr as [items ->].
    destruct c as [[] | err].
    + destruct (IH (n + List.length (map (request key) items)) s) as [items' Hrest].
      destruct (exec env (n + List.length (map (request key) items))
                  (for_of rest (summarize_item key) s)) as [res tr'].
      cbn [snd] in Hrest. subst tr'. exists (items ++ items')%list.
      cbn [snd]. rewrite map_app. reflexivity.
    + exists items. reflexivity.
Qed.

(** What a request amounts to, for any method but [OPTIONS] and any body:
    the body is read, [notes] is taken from it, the key is checked, the
    notes are gone through, and whatever is thrown on the way becomes the
    500 response. *)
Lemma serve_run (m : string) (payload : Settled JsVal) :
  String.eqb m "OPTIONS" = false ->
  serve key (Serve.mkRequest m payload) env =
  match payload with
  | Rejected err => (Normal (failure (message err)), [])
  | Fulfilled body =>
      match destructure body "notes" with
      | Throw err => (Normal (failure (message err)), [])
      | Normal notes =>
          if not_str key then (Normal (failure "NVIDIA API key not configured"), [])
          else
            match iterate notes "notes" with
            | Throw err => (Normal (failure (message err)), [])
            | Normal items =>
                match exec env 0 (for_of items (summarize_item key) []) with
                | (Normal _, summaries, tr) =>
                    (Normal (success (join (nl ++ nl) summaries)), tr)
                | (Throw err, _, tr) => (Normal (failure (message err)), tr)
                end
            end
      end
  end.
Proof.
  intro Hm. unfold serve, handler. cbn [Serve.method Serve.json]. rewrite Hm.
  unfold try_catch. rewrite exec_catchP.
  destruct payload as [body | err]; [ | reflexivity ].
  cbn [await_settled]. unfold bind at 1. cbn [ret bindP].
  unfold bind at 1.
  destruct (destructure body "notes") as [notes | err]; [ | reflexivity ].
  cbn [lift ret bindP].
  destruct (not_str key); [ reflexivity | ].
  unfold bind at 1.
  destruct (iterate notes "notes") as [items | err]; [ | reflexivity ].
  cbn [lift ret bindP]. unfold bind at 1. rewrite exec_bindP.
  destruct (exec env 0 (for_of items (summarize_item key) [])) as [[c summaries] tr].
  destruct c as [[] | err]; cbn; rewrite app_nil_r; reflexivity.
Qed.

(** Without a key the request fails before the loop. *)
Lemma serve_absent_key (items : list NoteItem) :
  not_str key = true ->
  serve key (post items) env = (Normal (failure "NVIDIA API key not configured"), []).
Proof.
  intro Hkey. unfold post. rewrite (serve_run "POST" _ eq_refl).
  cbn [destructure payload_json getProp lookup String.eqb Ascii.eqb Bool.eqb].
  rewrite Hkey. reflexivity.
Qed.

(** What a [POST] of notes amounts to once the key is configured. *)
Lemma serve_configured (items : list NoteItem) :
  not_str key = false ->
  serve key (post items) env =
  match exec env 0 (for_of (map item_json items) (summarize_item key) []) with
  | (Normal _, summaries, tr) => (Normal (success (join (nl ++ nl) summaries)), tr)
  | (Throw err, _, tr) => (Normal (failure (message err)), tr)
  end.
Proof.
  intro Hkey. unfold post. rewrite (serve_run "POST" _ eq_refl).
  cbn [destructure payload_json getProp lookup String.eqb Ascii.eqb Bool.eqb notes iterate].
  rewrite Hkey. reflexivity.
Qed.

End BatchLoop.

(** ** The single-note function, step by step *)

Section SingleRun.
Import Batch.
Variable env : Env Http.NetE.
Variable key : option string.

(** What a request amounts to, for any method but [OPTIONS] and any body:
    the body is read, [content] is taken from it, the key is checked, the
    content is converted for the user message, the one request is sent,
    and whatever is thrown on the way becomes the 500 response. *)
Lemma single_serve_run (m : string) (payload : Settled JsVal) :
  String.eqb m "OPTIONS" = false ->
  SummarizeNote.serve key (Serve.mkRequest m payload) env =
  match payload with
  | Rejected err => (Normal (failure (message err)), [])
  | Fulfilled body =>
      match destructure body "content" with
      | Throw err => (Normal (failure (message err)), [])
      | Normal content =>
          if not_str key then (Normal (failure "NVIDIA API key not configured"), [])
          else
            match toStr content with
            | Throw err => (Normal (failure (message err)), [])
            | Normal text =>
                (Normal
                   match env _ 0 (Http.Fetch SummarizeNote.url
                                    (SummarizeNote.fetch_init key text)) with
                   | Rejected err => failure (message err)
                   | Fulfilled response =>
                       if Http.ok response then
                         match Http.json response with
                         | Rejected err => failure (message err)
                         | Fulfilled data =>
                             match Http.first_choice_content data with
                             | Throw err => failure (message err)
                             | Normal summary =>
                                 Serve.mkResponse 200
                                   (SummarizeNote.corsHeaders ++
                                    [("Content-Type", "application/json")])%list
                                   (Some (JObj [("summary", summary)]))
                             end
                         end
                       else failure ("NVIDIA API error: " ++ Http.statusText response)
                   end,
                 [existT _ _ (Http.Fetch SummarizeNote.url
                                (SummarizeNote.fetch_init key text))])
            end
      end
  end.
Proof.
  intro Hm. unfold SummarizeNote.serve, SummarizeNote.handler.
  cbn [Serve.method Serve.json]. rewrite Hm.
  unfold try_catch. rewrite exec_catchP.
  destruct payload as [body | err]; [ | reflexivity ].
  cbn [await_settled]. unfold bind at 1. cbn [ret bindP].
  unfold bind at 1.
  destruct (destructure body "content") as [content | err]; [ | reflexivity ].
  cbn [lift ret bindP].
  destruct (not_str key); [ reflexivity | ].
  unfold bind at 1.
  destruct (toStr content) as [text | err]; [ | reflexivity ].
  cbn [lift ret bindP]. unfold bind, await. cbn [bindP exec].
  destruct (env Http.FetchResponse 0
              (Http.Fetch SummarizeNote.url (SummarizeNote.fetch_init key text)))
    as [response | err]; [ | reflexivity ].
  cbn. destruct (Http.ok response); [ | reflexivity ].
  cbn. destruct (Http.json response) as [data | err]; [ | reflexivity ].
  cbn. destruct (Http.first_choice_content data); reflexivity.
Qed.

End SingleRun.

(** ** Lines and replies, position by position *)

Section BatchLists.
Import SummarizeNotes Batch.

Lemma replies_nth (env : Env Http.NetE) (key : option string) (items : list NoteItem) :
  forall (n i : nat) (note : NoteItem),
  nth_error items i = Some note ->
  nth_error (replies env key n items) i = Some (reply env key (n + i) note).
Proof.
  induction items as [ | x rest IH]; intros n i note H.
  - destruct i; discriminate.
  - destruct i as [ | i]; cbn in *.
    + injection H as ->. rewrite Nat.add_0_r. reflexivity.
    + rewrite Nat.add_succ_r. apply (IH (S n) i note H).
Qed.

Lemma texts_length (A : Type) (os : list (option A)) (xs : list A) :
  os = map Some xs -> List.length xs = List.length os.
Proof. intros ->. symmetry. apply length_map. Qed.

Lemma replies_length (env : Env Http.NetE) (key : option string) (items : list NoteItem) :
  forall n, List.length (replies env key n items) = List.length items.
Proof. induction items; intro n; cbn; auto. Qed.

Lemma lines_length (items : list NoteItem) (texts : list string) :
  List.length texts = List.length items ->
  List.length (lines items texts) = List.length items.
Proof.
  intro H. unfold lines. rewrite length_map, length_combine. lia.
Qed.

Lemma lines_nth (items : list NoteItem) :
  forall (texts : list string) (i : nat) (note : NoteItem) (text : string),
  nth_error items i = Some note ->
  nth_error texts i = Some text ->
  nth_error (lines items texts) i = Some (bullet (title note) text).
Proof.
  induction items as [ | x rest IH]; intros texts i note text Hi Ht.
  - destruct i; discriminate.
  - destruct texts as [ | t texts]; [ destruct i; discriminate | ].
    destruct i as [ | i]; cbn in *.
    + injection Hi as ->. injection Ht as ->. reflexivity.
    + apply (IH texts i note text Hi Ht).
Qed.

(** The text of the [i]-th exchange, when no exchange throws. *)
Lemma texts_nth (env : Env Http.NetE) (key : option string)
  (items : list NoteItem) (texts : list string) (i : nat) (note : NoteItem) :
  map summaryOrFallback (replies env key 0 items) = map Some texts ->
  nth_error items i = Some note ->
  summaryOrFallback (reply env key i note) = nth_error texts i.
Proof.
  intros H Hi.
  assert (Hn : nth_error (map summaryOrFallback (replies env key 0 items)) i =
               Some (summaryOrFallback (reply env key i note))).
  { rewrite nth_error_map, (replies_nth env key items 0 i note Hi). reflexivity. }
  rewrite H, nth_error_map in Hn.
  destruct (nth_error texts i); cbn in Hn; congruence.
Qed.

(** When no exchange throws, the [i]-th one does not. *)
Lemma texts_some (env : Env Http.NetE) (key : option string)
  (items : list NoteItem) (texts : list string) (i : nat) (note : NoteItem) :
  map summaryOrFallback (replies env key 0 items) = map Some texts ->
  nth_error items i = Some note ->
  summaryOrFallback (reply env key i note) <> None.
Proof.
  intros H Hi Hnone.
  assert (Hn : nth_error (map summaryOrFallback (replies env key 0 items)) i =
               Some (summaryOrFallback (reply env key i note))).
  { rewrite nth_error_map, (replies_nth env key items 0 i note Hi). reflexivity. }
  rewrite H, nth_error_map, Hnone in Hn.
  destruct (nth_error texts i); discriminate Hn.
Qed.

Lemma all_or_none (A : Type) (os : list (option A)) :
  (exists xs, os = map Some xs) \/ In None os.
Proof.
  induction os as [ | [x | ] os IH].
  - left. exists []. reflexivity.
  - destruct IH as [[xs ->] | H].
    + left. exists (x :: xs). reflexivity.
    + right. right. exact H.
  - right. left. reflexivity.
Qed.

End BatchLists.

(** ** Batch mode: failure isolation *)

Section BatchIsolation.
Import SummarizeNotes Batch.

(** C1. The loop has no handler of its own around an exchange, so a failure
    that is thrown is not isolated the way its [else] branch isolates a
    non-success status. With the key configured and the three notes A, B
    and C, a timeout of B's request, or a 200 response to it whose body has
    no [choices], ends the loop: C is never requested and the response is
    the 500 carrying the error message, not a summary with one line per
    item and the fallback line for B. *)
Lemma batch_not_isolated_from_thrown_failures :
  not_str (Some "nvapi-key") = false /\
  serve (Some "nvapi-key") (post abc) second_times_out =
    (Normal (failure "request timed out"),
     [ request (Some "nvapi-key") (mkItem "A" "first note");
       request (Some "nvapi-key") (mkItem "B" "second note") ]) /\
  serve (Some "nvapi-key") (post abc) second_malformed =
    (Normal (failure "Cannot read properties of undefined (reading '0')"),
     [ request (Some "nvapi-key") (mkItem "A" "first note");
       request (Some "nvapi-key") (mkItem "B" "second note") ]) /\
  ~ isolated (Some "nvapi-key") abc second_times_out /\
  ~ isolated (Some "nvapi-key") abc second_malformed.
Proof.
  repeat split; try reflexivity.
  - intros (ls & _ & H). vm_compute in H. discriminate H.
  - intros (ls & _ & H). vm_compute in H. discriminate H.
Qed.

(** X26. What the [else] branch of the loop does isolate. A missing (or
    empty) key fails the request before any item is requested. With the
    key configured, and for every pattern of non-success statuses among
    exchanges none of which throws, the batch runs to its end: every item
    is requested, in order, the response is a success carrying one line per
    item, and the line of each item whose response has a non-success status
    is the fallback line. With the key configured and some exchange
    throwing, the response is the 500 built by the handler's [catch]. *)
Theorem batch_isolates_status_failures
  (key : option string) (items : list NoteItem) (env : Env Http.NetE) :
  (not_str key = true ->
   serve key (post items) env = (Normal (failure "NVIDIA API key not configured"), [])) /\
  (not_str key = false ->
   forall texts : list string,
   map summaryOrFallback (replies env key 0 items) = map Some texts ->
   serve key (post items) env =
     (Normal (success (join (nl ++ nl) (lines items texts))), map (request key) items) /\
   List.length (lines items texts) = List.length items /\
   forall (i : nat) (note : NoteItem) (response : Http.FetchResponse),
     nth_error items i = Some note ->
     reply env key i note = Fulfilled response ->
     Http.ok response = false ->
     nth_error (lines items texts) i =
       Some ("• " ++ title note ++ ": Unable to summarize this note.")) /\
  (not_str key = false ->
   In None (map summaryOrFallback (replies env key 0 items)) ->
   exists (msg : string) (sent : list (Event Http.NetE)),
     serve key (post items) env = (Normal (failure msg), sent)).
Proof.
  split; [ | split ].
  - apply serve_absent_key.
  - intros Hkey texts Htexts. split; [ | split ].
    + rewrite (serve_configured env key items Hkey).
      rewrite (for_of_lines env key items texts 0 [] Htexts). reflexivity.
    + apply lines_length.
      rewrite (texts_length _ _ _ Htexts), length_map. apply replies_length.
    + intros i note response Hi Hreply Hok.
      apply lines_nth; [ exact Hi | ].
      rewrite <- (texts_nth env key items texts i note Htexts Hi).
      unfold summaryOrFallback. rewrite Hreply, Hok. reflexivity.
  - intros Hkey Hnone.
    rewrite (serve_configured env key items Hkey).
    destruct (for_of_throws env key items 0 [] Hnone) as (err & s & tr & ->).
    exists (message err), tr. reflexivity.
Qed.

Lemma batch_isolates_status_failures_witness :
  (not_str None = true /\
   serve None (post abc) second_refused =
     (Normal (failure "NVIDIA API key not configured"), [])) /\
  (not_str (Some "nvapi-key") = false /\
   map summaryOrFallback (replies second_refused (Some "nvapi-key") 0 abc) =
     map Some ["ok"; fallback; "ok"] /\
   serve (Some "nvapi-key") (post abc) second_refused =
     (Normal (success (join (nl ++ nl) (lines abc ["ok"; fallback; "ok"]))),
      map (request (Some "nvapi-key")) abc)) /\
  (In None (map summaryOrFallback (replies second_times_out (Some "nvapi-key") 0 abc)) /\
   exists (msg : string) (sent : list (Event Http.NetE)),
     serve (Some "nvapi-key") (post abc) second_times_out = (Normal (failure msg), sent)).
Proof.
  split; [ | split ].
  - split; [ reflexivity | ].
    exact (proj1 (batch_isolates_status_failures None abc second_refused) eq_refl).
  - split; [ reflexivity | split; [ reflexivity | ] ].
    exact (proj1 (proj1 (proj2 (batch_isolates_status_failures
                                  (Some "nvapi-key") abc second_refused))
                   eq_refl ["ok"; fallback; "ok"] eq_refl)).
  - assert (Hnone : In None (map summaryOrFallback
                               (replies second_times_out (Some "nvapi-key") 0 abc))).
    { right. left. reflexivity. }
    split; [ exact Hnone | ].
    exact (proj2 (proj2 (batch_isolates_status_failures
                           (Some "nvapi-key") abc second_times_out))
             eq_refl Hnone).
Defined.

End BatchIsolation.

(** ** Batch mode: the combined text *)

Section BatchText.
Import SummarizeNotes Batch.

(** C3. For the notes A, B and C with only B's request failing by
    rejection, the function produces no combined text at all, with or
    without a fallback line for B: the response is the 500 carrying the
    rejection's message. *)
Lemma batch_text_absent_when_request_rejected :
  reply second_times_out (Some "nvapi-key") 1 (mkItem "B" "second note") =
    Rejected (TypeError "request timed out") /\
  fst (serve (Some "nvapi-key") (post abc) second_times_out) =
    Normal (failure "request timed out") /\
  forall texts : list string,
    fst (serve (Some "nvapi-key") (post abc) second_times_out) <>
    Normal (success (combined abc texts)).
Proof.
  split; [ reflexivity | split; [ reflexivity | ] ].
  intros texts H. vm_compute in H. discriminate H.
Qed.

(** X27. With the key configured and no exchange throwing, the response
    carries the bullet lines ["• {title}: {summaryOrFallback}"], one per
    item, in input order, joined by blank lines; the line of an item
    answered with success carries its [choices[0].message.content] as
    [`${summary}`] converts it, and the line of an item whose response has
    a non-success status is ["• {title}: Unable to summarize this note."].
    Conversely every combined text the function returns has this form. *)
Theorem batch_text_is_ordered_bullets
  (key : option string) (items : list NoteItem) (env : Env Http.NetE) :
  (forall texts : list string,
   not_str key = false ->
   map summaryOrFallback (replies env key 0 items) = map Some texts ->
   fst (serve key (post items) env) = Normal (success (combined items texts)) /\
   List.length (lines items texts) = List.length items /\
   (forall (i : nat) (note : NoteItem) (response : Http.FetchResponse)
           (data summary : JsVal),
      nth_error items i = Some note ->
      reply env key i note = Fulfilled response ->
      Http.ok response = true ->
      Http.json response = Fulfilled data ->
      Http.first_choice_content data = Normal summary ->
      exists converted : string,
        toStr summary = Normal converted /\
        nth_error (lines items texts) i =
          Some ("• " ++ title note ++ ": " ++ converted)) /\
   (forall (i : nat) (note : NoteItem) (response : Http.FetchResponse),
      nth_error items i = Some note ->
      reply env key i note = Fulfilled response ->
      Http.ok response = false ->
      nth_error (lines items texts) i =
        Some ("• " ++ title note ++ ": Unable to summarize this note."))) /\
  (forall text : string,
   fst (serve key (post items) env) = Normal (success text) ->
   exists texts : list string,
     map summaryOrFallback (replies env key 0 items) = map Some texts /\
     text = combined items texts).
Proof.
  split.
  - intros texts Hkey Htexts.
    assert (Hline : forall i note text,
               nth_error items i = Some note ->
               summaryOrFallback (reply env key i note) = Some text ->
               nth_error (lines items texts) i = Some (bullet (title note) text)).
    { intros i note text Hi Ht. apply lines_nth; [ exact Hi | ].
      rewrite <- (texts_nth env key items texts i note Htexts Hi). exact Ht. }
    split; [ | split; [ | split ] ].
    + rewrite (serve_configured env key items Hkey).
      rewrite (for_of_lines env key items texts 0 [] Htexts). reflexivity.
    + apply lines_length.
      rewrite (texts_length _ _ _ Htexts), length_map. apply replies_length.
    + intros i note response data summary Hi Hreply Hok Hjson Hcontent.
      pose proof (texts_some env key items texts i note Htexts Hi) as Hsome.
      unfold summaryOrFallback in Hsome. rewrite Hreply, Hok, Hjson, Hcontent in Hsome.
      destruct (toStr summary) as [converted | err] eqn:Hconv.
      * exists converted. split; [ reflexivity | ].
        apply (Hline i note converted Hi).
        unfold summaryOrFallback. rewrite Hreply, Hok, Hjson, Hcontent, Hconv. reflexivity.
      * destruct (Hsome eq_refl).
    + intros i note response Hi Hreply Hok.
      apply (Hline i note fallback Hi).
      unfold summaryOrFallback. rewrite Hreply, Hok. reflexivity.
  - intros text H.
    destruct (not_str key) eqn:Hkey.
    + rewrite (serve_absent_key env key items Hkey) in H. discriminate H.
    + rewrite (serve_configured env key items Hkey) in H.
      destruct (all_or_none _ (map summaryOrFallback (replies env key 0 items)))
        as [[texts Htexts] | Hnone].
      * exists texts. split; [ exact Htexts | ].
        rewrite (for_of_lines env key items texts 0 [] Htexts) in H.
        cbn [fst] in H. injection H as <-. reflexivity.
      * destruct (for_of_throws env key items 0 [] Hnone) as (err & s & tr & Hthrow).
        rewrite Hthrow in H. discriminate H.
Qed.

Lemma batch_text_is_ordered_bullets_witness :
  not_str (Some "nvapi-key") = false /\
  map summaryOrFallback (replies second_refused (Some "nvapi-key") 0 abc) =
    map Some ["ok"; fallback; "ok"] /\
  fst (serve (Some "nvapi-key") (post abc) second_refused) =
    Normal (success ("• A: ok" ++ nl ++ nl ++
                     "• B: Unable to summarize this note." ++ nl ++ nl ++
                     "• C: ok")) /\
  nth_error (lines abc ["ok"; fallback; "ok"]) 0 = Some "• A: ok" /\
  nth_error (lines abc ["ok"; fallback; "ok"]) 1 =
    Some "• B: Unable to summarize this note.".
Proof.
  pose proof (proj1 (batch_text_is_ordered_bullets (Some "nvapi-key") abc second_refused)
                ["ok"; fallback; "ok"] eq_refl eq_refl)
    as (Htext & _ & Hsummary & Hfallback).
  split; [ reflexivity | split; [ reflexivity | ] ].
  split; [ exact Htext | split ].
  - destruct (Hsummary 0 (mkItem "A" "first note") (completion "ok") _ (JStr "ok")
                eq_refl eq_refl eq_refl eq_refl eq_refl) as (converted & Hconv & Hline).
    injection Hconv as <-. exact Hline.
  - exact (Hfallback 1 (mkItem "B" "second note") _ eq_refl eq_refl eq_refl).
Defined.

(** C10. With the key configured, an empty list of notes is answered with a
    success whose summary is the empty string, and the completion endpoint
    is not contacted. *)
Theorem batch_of_nothing (key : option string) (env : Env Http.NetE) :
  not_str key = false ->
  serve key (post []) env = (Normal (success ""), []).
Proof.
  intro Hkey. rewrite (serve_configured env key [] Hkey). reflexivity.
Qed.

Lemma batch_of_nothing_witness :
  not_str (Some "nvapi-key") = false /\
  serve (Some "nvapi-key") (post []) second_times_out = (Normal (success ""), []).
Proof.
  split; [ reflexivity | ].
  exact (batch_of_nothing (Some "nvapi-key") second_times_out eq_refl).
Defined.

End BatchText.

(** ** Generation parameters *)

Section GenerationParameters.
Import Batch.

(** In batch mode every request sent is the request of two texts. *)
Lemma batch_requests (key : option string)
  (req : Serve.Request JsVal) (env : Env Http.NetE) :
  exists items : list SummarizeNotes.NoteItem,
    snd (SummarizeNotes.serve key req env) = map (request key) items.
Proof.
  destruct req as [m payload].
  destruct (String.eqb m "OPTIONS") eqn:Hm.
  - exists []. unfold SummarizeNotes.serve, SummarizeNotes.handler.
    cbn [Serve.method]. rewrite Hm. reflexivity.
  - rewrite (serve_run env key m payload Hm).
    destruct payload as [body | err]; [ | exists []; reflexivity ].
    destruct (destructure body "notes") as [notes | err]; [ | exists []; reflexivity ].
    destruct (not_str key); [ exists []; reflexivity | ].
    destruct (iterate notes "notes") as [vs | err]; [ | exists []; reflexivity ].
    destruct (for_of_calls env key vs 0 []) as [items Hitems].
    destruct (exec env 0 (for_of vs (SummarizeNotes.summarize_item key) []))
      as [[c summaries] tr].
    cbn [snd] in Hitems. subst tr. exists items.
    destruct c as [[] | e]; reflexivity.
Qed.

(** In single-note mode at most one request is sent, for the content received. *)
Lemma single_requests (key : option string)
  (req : Serve.Request JsVal) (env : Env Http.NetE) :
  snd (SummarizeNote.serve key req env) = [] \/
  exists content : string,
    snd (SummarizeNote.serve key req env) =
    [ existT _ _ (Http.Fetch SummarizeNote.url (SummarizeNote.fetch_init key content)) ].
Proof.
  destruct req as [m payload].
  destruct (String.eqb m "OPTIONS") eqn:Hm.
  - left. unfold SummarizeNote.serve, SummarizeNote.handler.
    cbn [Serve.method]. rewrite Hm. reflexivity.
  - rewrite (single_serve_run env key m payload Hm).
    destruct payload as [body | err]; [ | left; reflexivity ].
    destruct (destructure body "content") as [content | err]; [ | left; reflexivity ].
    destruct (not_str key); [ left; reflexivity | ].
    destruct (toStr content) as [text | err]; [ | left; reflexivity ].
    right. exists text. reflexivity.
Qed.

(** C8. Every request either function sends to the completion endpoint
    carries temperature 0.2 and nucleus-sampling threshold 0.7; the maximum
    output length is 100 in every batch-mode request and 200 in every
    single-note request, so the single-note budget is strictly the greater. *)
Theorem generation_parameters_fixed :
  (forall key note,
     params (request key note) = (0.2%Q, 0.7%Q, 100%Z)) /\
  (forall key content,
     params (existT _ _ (Http.Fetch SummarizeNote.url (SummarizeNote.fetch_init key content))) =
     (0.2%Q, 0.7%Q, 200%Z)) /\
  (forall key req env,
     Forall (fun ev => params ev = (0.2%Q, 0.7%Q, 100%Z))
            (snd (SummarizeNotes.serve key req env))) /\
  (forall key req env,
     Forall (fun ev => params ev = (0.2%Q, 0.7%Q, 200%Z))
            (snd (SummarizeNote.serve key req env))) /\
  (forall key note key' content,
     (Http.max_tokens (Http.body (SummarizeNotes.fetch_init key note)) <
      Http.max_tokens (Http.body (SummarizeNote.fetch_init key' content)))%Z).
Proof.
  split; [ reflexivity | split; [ reflexivity | ] ].
  split; [ | split ].
  - intros key req env. destruct (batch_requests key req env) as [items ->].
    apply Forall_forall. intros ev Hev.
    apply in_map_iff in Hev. destruct Hev as (note & <- & _). reflexivity.
  - intros key req env.
    destruct (single_requests key req env) as [-> | [content ->]].
    + constructor.
    + constructor; [ reflexivity | constructor ].
  - intros key note key' content. reflexivity.
Qed.

End GenerationParameters.

(** ** The collection hook, operation by operation *)

Section HookRuns.
Import UseNotes Collection.
Variable env : Env GatewayE.
Variable st : State.
Variable u : Auth.User.

Lemma createNote_run (title content : string) (fileName : option string) :
  run (createNote (Some u) title content fileName) st env =
  match env _ 0 (Insert title content fileName (Auth.id u)) with
  | Fulfilled (PgData data) =>
      (Normal (Some data),
       mkState (data :: notes st) (loading st)
               (toasts st ++ [toast_success "Note created successfully!"])%list,
       [existT _ _ (Insert title content fileName (Auth.id u))])
  | _ =>
      (Normal None,
       mkState (notes st) (loading st)
               (toasts st ++ [toast_error "Failed to create note"])%list,
       [existT _ _ (Insert title content fileName (Auth.id u))])
  end.
Proof.
  unfold run, createNote, try_catch, bind, await. cbn.
  destruct (env _ 0 (Insert title content fileName (Auth.id u))) as [[data | err] | err];
    reflexivity.
Qed.

Lemma updateNote_run (now id title content : string) :
  run (updateNote (Some u) now id title content) st env =
  match env _ 0 (Update (TextPatch title content now) id) with
  | Fulfilled (PgData data) =>
      (Normal (Some data),
       mkState (map (fun note => if String.eqb (UseNotes.id note) id then data else note)
                    (notes st))
               (loading st)
               (toasts st ++ [toast_success "Note updated successfully!"])%list,
       [existT _ _ (Update (TextPatch title content now) id)])
  | _ =>
      (Normal None,
       mkState (notes st) (loading st)
               (toasts st ++ [toast_error "Failed to update note"])%list,
       [existT _ _ (Update (TextPatch title content now) id)])
  end.
Proof.
  unfold run, updateNote, try_catch, bind, await. cbn.
  destruct (env _ 0 (Update (TextPatch title content now) id)) as [[data | err] | err];
    reflexivity.
Qed.

Lemma deleteNote_run (id : string) :
  run (deleteNote (Some u) id) st env =
  match env _ 0 (Delete id) with
  | Fulfilled (PgData _) =>
      (Normal true,
       mkState (filter (fun note => negb (String.eqb (UseNotes.id note) id)) (notes st))
               (loading st)
               (toasts st ++ [toast_success "Note deleted successfully!"])%list,
       [existT _ _ (Delete id)])
  | _ =>
      (Normal false,
       mkState (notes st) (loading st)
               (toasts st ++ [toast_error "Failed to delete note"])%list,
       [existT _ _ (Delete id)])
  end.
Proof.
  unfold run, deleteNote, try_catch, bind, await. cbn.
  destruct (env _ 0 (Delete id)) as [[data | err] | err]; reflexivity.
Qed.

End HookRuns.

Section ListShapes.
Import UseNotes Collection.

Lemma map_Replaced (id : string) (data : Note) (ns : list Note) :
  Replaced id data ns
    (map (fun note => if String.eqb (UseNotes.id note) id then data else note) ns).
Proof.
  induction ns as [ | n ns IH]; cbn.
  - constructor.
  - destruct (String.eqb_spec (UseNotes.id n) id) as [Heq | Hne].
    + apply Replaced_here; assumption.
    + apply Replaced_keep; assumption.
Qed.

Lemma filter_Removed (id : string) (ns : list Note) :
  Removed id ns (filter (fun note => negb (String.eqb (UseNotes.id note) id)) ns).
Proof.
  induction ns as [ | n ns IH]; cbn.
  - constructor.
  - destruct (String.eqb_spec (UseNotes.id n) id) as [Heq | Hne]; cbn.
    + apply Removed_here; assumption.
    + apply Removed_keep; assumption.
Qed.

(** [Replaced] keeps the length and decides every position. *)
Lemma Replaced_positions (id : string) (data : Note) (before after : list Note) :
  Replaced id data before after ->
  List.length after = List.length before /\
  forall (i : nat) (n : Note),
    nth_error before i = Some n ->
    (UseNotes.id n = id -> nth_error after i = Some data) /\
    (UseNotes.id n <> id -> nth_error after i = Some n).
Proof.
  induction 1 as [ | n before after Hid _ [IHlen IHpos] | n before after Hid _ [IHlen IHpos]].
  - split; [ reflexivity | ]. intros [ | i] n H; discriminate.
  - split; [ cbn; congruence | ].
    intros [ | i] m H; cbn in *.
    + injection H as <-. split; [ reflexivity | contradiction ].
    + apply IHpos. exact H.
  - split; [ cbn; congruence | ].
    intros [ | i] m H; cbn in *.
    + injection H as <-. split; [ contradiction | reflexivity ].
    + apply IHpos. exact H.
Qed.

(** [Removed] keeps exactly the entries with another id. *)
Lemma Removed_members (id : string) (before after : list Note) :
  Removed id before after ->
  forall n : Note, In n after <-> In n before /\ UseNotes.id n <> id.
Proof.
  induction 1 as [ | n before after Hid _ IH | n before after Hid _ IH]; intro m.
  - cbn. tauto.
  - rewrite IH. cbn. split.
    + intros [Hin Hne]. auto.
    + intros [[-> | Hin] Hne]; [ contradiction | auto ].
  - cbn. rewrite IH. split.
    + intros [-> | [Hin Hne]]; auto.
    + intros [[-> | Hin] Hne]; auto.
Qed.

End ListShapes.

(** ** The collection under store failures *)

Section StoreFailures.
Import UseNotes Collection.

(** C4. With a user active, whenever the store does not confirm the request
    (it answers with an error, or the request is rejected), [createNote],
    [updateNote] and [deleteNote] leave the collection exactly as it was and
    report failure. A created note enters the collection only when the
    store has confirmed it, and then at the front. *)
Theorem failed_mutation_leaves_collection
  (u : Auth.User) (st : State) (env : Env GatewayE) :
  (forall title content fileName,
     confirmed (env _ 0 (Insert title content fileName (Auth.id u))) = false ->
     notes (after (createNote (Some u) title content fileName) st env) = notes st /\
     outcome (createNote (Some u) title content fileName) st env = Normal None) /\
  (forall title content fileName data,
     env _ 0 (Insert title content fileName (Auth.id u)) = Fulfilled (PgData data) ->
     notes (after (createNote (Some u) title content fileName) st env) = data :: notes st) /\
  (forall now id title content,
     confirmed (env _ 0 (Update (TextPatch title content now) id)) = false ->
     notes (after (updateNote (Some u) now id title content) st env) = notes st /\
     outcome (updateNote (Some u) now id title content) st env = Normal None) /\
  (forall id,
     confirmed (env _ 0 (Delete id)) = false ->
     notes (after (deleteNote (Some u) id) st env) = notes st /\
     outcome (deleteNote (Some u) id) st env = Normal false).
Proof.
  unfold after, outcome. split; [ | split; [ | split ] ].
  - intros title content fileName H. rewrite createNote_run.
    destruct (env _ 0 (Insert title content fileName (Auth.id u))) as [[data | err] | err];
      [ discriminate | split; reflexivity | split; reflexivity ].
  - intros title content fileName data H. rewrite createNote_run, H. reflexivity.
  - intros now id title content H. rewrite updateNote_run.
    destruct (env _ 0 (Update (TextPatch title content now) id)) as [[data | err] | err];
      [ discriminate | split; reflexivity | split; reflexivity ].
  - intros id H. rewrite deleteNote_run.
    destruct (env _ 0 (Delete id)) as [[data | err] | err];
      [ discriminate | split; reflexivity | split; reflexivity ].
Qed.

Lemma failed_mutation_leaves_collection_witness :
  (confirmed (store_down _ 0 (Insert "Tea" "buy tea" None (Auth.id alice))) = false /\
   notes (after (createNote (Some alice) "Tea" "buy tea" None) two_notes store_down) =
     [groceries; meeting]) /\
  (all_well _ 0 (Insert "Groceries" "milk, eggs, bread" None (Auth.id alice)) =
     Fulfilled (PgData groceries) /\
   notes (after (createNote (Some alice) "Groceries" "milk, eggs, bread" None)
                (mkState [meeting] false []) all_well) = [groceries; meeting]) /\
  (confirmed (store_down _ 0
     (Update (TextPatch "Groceries" "tea" "2024-05-03T08:00:00.000Z") "n-2")) = false /\
   notes (after (updateNote (Some alice) "2024-05-03T08:00:00.000Z" "n-2" "Groceries" "tea")
                two_notes store_down) = [groceries; meeting]) /\
  (confirmed (store_down _ 0 (Delete "n-2")) = false /\
   notes (after (deleteNote (Some alice) "n-2") two_notes store_down) =
     [groceries; meeting]).
Proof.
  pose proof (failed_mutation_leaves_collection alice two_notes store_down)
    as (Hcreate & _ & Hupdate & Hdelete).
  pose proof (failed_mutation_leaves_collection alice (mkState [meeting] false []) all_well)
    as (_ & Hcreated & _).
  split; [ | split; [ | split ] ].
  - split; [ reflexivity | ].
    exact (proj1 (Hcreate "Tea" "buy tea" None eq_refl)).
  - split; [ reflexivity | ].
    exact (Hcreated "Groceries" "milk, eggs, bread" None groceries eq_refl).
  - split; [ reflexivity | ].
    exact (proj1 (Hupdate "2024-05-03T08:00:00.000Z" "n-2" "Groceries" "tea" eq_refl)).
  - split; [ reflexivity | ].
    exact (proj1 (Hdelete "n-2" eq_refl)).
Defined.

(** C6. A confirmed update replaces, position by position, the entries
    whose id matches by the record the store returned and keeps every other
    entry, so order and length are unchanged; a confirmed delete drops the
    entries whose id matches and keeps the others in their order. When the
    store does not confirm, both leave the collection as it was. *)
Theorem update_and_delete_by_id
  (u : Auth.User) (st : State) (env : Env GatewayE) :
  (forall now id title content data,
     env _ 0 (Update (TextPatch title content now) id) = Fulfilled (PgData data) ->
     let after_update := notes (after (updateNote (Some u) now id title content) st env) in
     Replaced id data (notes st) after_update /\
     List.length after_update = List.length (notes st) /\
     (forall i n, nth_error (notes st) i = Some n ->
        (UseNotes.id n = id -> nth_error after_update i = Some data) /\
        (UseNotes.id n <> id -> nth_error after_update i = Some n)) /\
     outcome (updateNote (Some u) now id title content) st env = Normal (Some data)) /\
  (forall id,
     confirmed (env _ 0 (Delete id)) = true ->
     let after_delete := notes (after (deleteNote (Some u) id) st env) in
     Removed id (notes st) after_delete /\
     (forall n, In n after_delete <-> In n (notes st) /\ UseNotes.id n <> id) /\
     outcome (deleteNote (Some u) id) st env = Normal true) /\
  (forall now id title content,
     confirmed (env _ 0 (Update (TextPatch title content now) id)) = false ->
     notes (after (updateNote (Some u) now id title content) st env) = notes st) /\
  (forall id,
     confirmed (env _ 0 (Delete id)) = false ->
     notes (after (deleteNote (Some u) id) st env) = notes st).
Proof.
  split; [ | split; [ | split ] ].
  - intros now id title content data H after_update.
    assert (Hshape : Replaced id data (notes st) after_update).
    { subst after_update. unfold after. rewrite updateNote_run, H. apply map_Replaced. }
    destruct (Replaced_positions _ _ _ _ Hshape) as [Hlen Hpos].
    split; [ exact Hshape | split; [ exact Hlen | split; [ exact Hpos | ] ] ].
    unfold outcome. rewrite updateNote_run, H. reflexivity.
  - intros id H after_delete.
    assert (Hshape : Removed id (notes st) after_delete).
    { subst after_delete. unfold after. rewrite deleteNote_run.
      destruct (env _ 0 (Delete id)) as [[data | err] | err]; try discriminate.
      apply filter_Removed. }
    split; [ exact Hshape | split ].
    + apply Removed_members. exact Hshape.
    + unfold outcome. rewrite deleteNote_run.
      destruct (env _ 0 (Delete id)) as [[data | err] | err]; try discriminate.
      reflexivity.
  - intros now id title content H. unfold after. rewrite updateNote_run.
    destruct (env _ 0 (Update (TextPatch title content now) id)) as [[data | err] | err];
      [ discriminate | reflexivity | reflexivity ].
  - intros id H. unfold after. rewrite deleteNote_run.
    destruct (env _ 0 (Delete id)) as [[data | err] | err];
      [ discriminate | reflexivity | reflexivity ].
Qed.

Lemma update_and_delete_by_id_witness :
  (all_well _ 0 (Update (TextPatch "Groceries" "milk, eggs, bread, tea"
                                   "2024-05-03T08:00:00.000Z") "n-2") =
     Fulfilled (PgData groceries_edited) /\
   notes (after (updateNote (Some alice) "2024-05-03T08:00:00.000Z" "n-2"
                            "Groceries" "milk, eggs, bread, tea") two_notes all_well) =
     [groceries_edited; meeting] /\
   Replaced "n-2" groceries_edited [groceries; meeting]
     (notes (after (updateNote (Some alice) "2024-05-03T08:00:00.000Z" "n-2"
                               "Groceries" "milk, eggs, bread, tea") two_notes all_well))) /\
  (confirmed (all_well _ 0 (Delete "n-2")) = true /\
   notes (after (deleteNote (Some alice) "n-2") two_notes all_well) = [meeting] /\
   Removed "n-2" [groceries; meeting]
     (notes (after (deleteNote (Some alice) "n-2") two_notes all_well))) /\
  (confirmed (store_down _ 0 (Update (TextPatch "Groceries" "tea"
                                        "2024-05-03T08:00:00.000Z") "n-2")) = false /\
   notes (after (updateNote (Some alice) "2024-05-03T08:00:00.000Z" "n-2" "Groceries" "tea")
                two_notes store_down) = [groceries; meeting]) /\
  (confirmed (store_down _ 0 (Delete "n-2")) = false /\
   notes (after (deleteNote (Some alice) "n-2") two_notes store_down) =
     [groceries; meeting]).
Proof.
  pose proof (update_and_delete_by_id alice two_notes all_well) as (Hupdate & Hdelete & _).
  pose proof (update_and_delete_by_id alice two_notes store_down) as (_ & _ & Hkeep & Hstay).
  split; [ | split; [ | split ] ].
  - split; [ reflexivity | split; [ reflexivity | ] ].
    exact (proj1 (Hupdate "2024-05-03T08:00:00.000Z" "n-2" "Groceries"
                    "milk, eggs, bread, tea" groceries_edited eq_refl)).
  - split; [ reflexivity | split; [ reflexivity | ] ].
    exact (proj1 (Hdelete "n-2" eq_refl)).
  - split; [ reflexivity | ].
    exact (Hkeep "2024-05-03T08:00:00.000Z" "n-2" "Groceries" "tea" eq_refl).
  - split; [ reflexivity | ].
    exact (Hstay "n-2" eq_refl).
Defined.

End StoreFailures.

(** ** Summarizing one note *)

Section SummarizeOne.
Import UseNotes Collection.

(** The two calls of a summarization that reaches the store. *)
Lemma summarizeNote_run (u : Auth.User) (now noteId : string) (st : State)
  (env : Env GatewayE) (note : Note) (data summary : JsVal) :
  find (fun n => String.eqb (id n) noteId) (notes st) = Some note ->
  env _ 0 (Invoke "summarize-note" (ContentBody (SummarizeNote.mkPayload (content note)))) =
    Fulfilled (FnData data) ->
  getProp data "summary" = Normal summary ->
  run (summarizeNote (Some u) now noteId) st env =
  match env _ 1 (Update (SummaryPatch summary now) noteId) with
  | Fulfilled (PgData updatedNote) =>
      (Normal summary,
       mkState (map (fun note => if String.eqb (id note) noteId then updatedNote else note)
                    (notes st))
               (loading st)
               (toasts st ++ [toast_success "Note summarized successfully!"])%list,
       [ existT _ _ (Invoke "summarize-note"
                       (ContentBody (SummarizeNote.mkPayload (content note))));
         existT _ _ (Update (SummaryPatch summary now) noteId) ])
  | Fulfilled (PgError _) =>
      (Normal JNull,
       mkState (notes st) (loading st)
               (toasts st ++ [toast_error "Failed to save summary"])%list,
       [ existT _ _ (Invoke "summarize-note"
                       (ContentBody (SummarizeNote.mkPayload (content note))));
         existT _ _ (Update (SummaryPatch summary now) noteId) ])
  | Rejected _ =>
      (Normal JNull,
       mkState (notes st) (loading st)
               (toasts st ++ [toast_error "Failed to summarize note"])%list,
       [ existT _ _ (Invoke "summarize-note"
                       (ContentBody (SummarizeNote.mkPayload (content note))));
         existT _ _ (Update (SummaryPatch summary now) noteId) ])
  end.
Proof.
  intros Hfind Hinvoke Hsummary.
  unfold run, summarizeNote, bind at 1, get. cbn [bindP].
  rewrite Hfind. unfold try_catch, bind, await. cbn. rewrite Hinvoke. cbn.
  rewrite Hsummary. cbn.
  destruct (env _ 1 (Update (SummaryPatch summary now) noteId)) as [[updated | err] | err];
    reflexivity.
Qed.

(** C2. When the summarization call succeeds and the store then does not
    confirm the update that carries the summary, [summarizeNote] returns
    [null] and the collection is what it was: the note found under that id
    is still the same record, summary included. *)
Theorem unsaved_summary_is_discarded
  (u : Auth.User) (now noteId : string) (st : State) (env : Env GatewayE)
  (note : Note) (data summary : JsVal) :
  find (fun n => String.eqb (id n) noteId) (notes st) = Some note ->
  env _ 0 (Invoke "summarize-note" (ContentBody (SummarizeNote.mkPayload (content note)))) =
    Fulfilled (FnData data) ->
  getProp data "summary" = Normal summary ->
  confirmed (env _ 1 (Update (SummaryPatch summary now) noteId)) = false ->
  outcome (summarizeNote (Some u) now noteId) st env = Normal JNull /\
  notes (after (summarizeNote (Some u) now noteId) st env) = notes st /\
  find (fun n => String.eqb (id n) noteId)
       (notes (after (summarizeNote (Some u) now noteId) st env)) = Some note /\
  gateway_calls (summarizeNote (Some u) now noteId) st env =
    [ existT _ _ (Invoke "summarize-note"
                    (ContentBody (SummarizeNote.mkPayload (content note))));
      existT _ _ (Update (SummaryPatch summary now) noteId) ].
Proof.
  intros Hfind Hinvoke Hsummary Hstore.
  unfold outcome, after, gateway_calls.
  rewrite (summarizeNote_run u now noteId st env note data summary Hfind Hinvoke Hsummary).
  destruct (env _ 1 (Update (SummaryPatch summary now) noteId)) as [[updated | err] | err];
    [ discriminate | | ]; cbn; auto.
Qed.

Lemma unsaved_summary_is_discarded_witness :
  find (fun n => String.eqb (id n) "n-2") (notes two_notes) = Some groceries /\
  store_down _ 0 (Invoke "summarize-note"
                    (ContentBody (SummarizeNote.mkPayload (content groceries)))) =
    Fulfilled (FnData (JObj [("summary", JStr "Shopping list.")])) /\
  getProp (JObj [("summary", JStr "Shopping list.")]) "summary" =
    Normal (JStr "Shopping list.") /\
  confirmed (store_down _ 1
     (Update (SummaryPatch (JStr "Shopping list.") "2024-05-03T08:00:00.000Z") "n-2")) = false /\
  outcome (summarizeNote (Some alice) "2024-05-03T08:00:00.000Z" "n-2") two_notes store_down =
    Normal JNull /\
  notes (after (summarizeNote (Some alice) "2024-05-03T08:00:00.000Z" "n-2")
               two_notes store_down) = [groceries; meeting] /\
  summary groceries = None.
Proof.
  pose proof (unsaved_summary_is_discarded alice "2024-05-03T08:00:00.000Z" "n-2"
                two_notes store_down groceries
                (JObj [("summary", JStr "Shopping list.")]) (JStr "Shopping list.")
                eq_refl eq_refl eq_refl eq_refl) as (Hout & Hnotes & _).
  split; [ reflexivity | split; [ reflexivity | split; [ reflexivity | split; [ reflexivity | ] ] ] ].
  split; [ exact Hout | split; [ exact Hnotes | reflexivity ] ].
Defined.

End SummarizeOne.

(** ** Without a session *)

Section NoSession.
Import UseNotes Collection.

(** C5. With no user active, each of [createNote], [updateNote],
    [deleteNote], [summarizeNote] and [summarizeAllNotes] returns normally
    with [null] (or [false]), makes no gateway call, and leaves the whole
    state, collection included, as it was. *)
Theorem no_session_no_op (st : State) (env : Env GatewayE) :
  (forall title content fileName,
     run (createNote None title content fileName) st env = (Normal None, st, [])) /\
  (forall now id title content,
     run (updateNote None now id title content) st env = (Normal None, st, [])) /\
  (forall id,
     run (deleteNote None id) st env = (Normal false, st, [])) /\
  (forall now noteId,
     run (summarizeNote None now noteId) st env = (Normal JNull, st, [])) /\
  run (summarizeAllNotes None) st env = (Normal JNull, st, []).
Proof.
  split; [ | split; [ | split; [ | split ] ] ].
  - reflexivity.
  - reflexivity.
  - reflexivity.
  - intros now noteId. unfold run, summarizeNote, bind, get. cbn [bindP].
    destruct (find (fun n => String.eqb (id n) noteId) (notes st)); reflexivity.
  - reflexivity.
Qed.

(** C9. Without a user [fetchNotes] returns at once: no gateway call, and
    collection and loading flag are what they were, so a flag that was set
    stays set. With a user it makes the one [Select] call and, whether that
    succeeds, fails or is rejected, ends with the loading flag cleared. *)
Theorem refresh_without_session_keeps_loading (st : State) (env : Env GatewayE) :
  run (fetchNotes None) st env = (Normal tt, st, []) /\
  loading (after (fetchNotes None) initial env) = true /\
  (forall u : Auth.User,
     loading (after (fetchNotes (Some u)) st env) = false /\
     gateway_calls (fetchNotes (Some u)) st env = [existT _ _ Select]).
Proof.
  split; [ reflexivity | split; [ reflexivity | ] ].
  intro u. unfold after, gateway_calls, run, fetchNotes, try_finally, try_catch, bind, await.
  cbn. destruct (env _ 0 Select) as [[data | err] | err]; split; reflexivity.
Qed.

End NoSession.

(** ** Summarizing the whole collection *)

Section SummarizeAll.
Import UseNotes Collection.

(** A run of [summarizeAllNotes] that reaches the gateway. *)
Lemma summarizeAllNotes_run (u : Auth.User) (st : State) (env : Env GatewayE) :
  notes st <> [] ->
  run (summarizeAllNotes (Some u)) st env =
  match env _ 0 (Invoke "summarize-notes"
                   (NotesBody (SummarizeNotes.mkPayload (pairs (notes st))))) with
  | Fulfilled (FnData data) =>
      match getProp data "summary" with
      | Normal text =>
          (Normal text,
           mkState (notes st) (loading st)
                   (toasts st ++ [toast_success "All notes summarized successfully!"])%list,
           [invoke_all (notes st)])
      | Throw _ =>
          (Normal JNull,
           mkState (notes st) (loading st)
                   ((toasts st ++ [toast_success "All notes summarized successfully!"])
                      ++ [toast_error "Failed to summarize all notes"])%list,
           [invoke_all (notes st)])
      end
  | _ =>
      (Normal JNull,
       mkState (notes st) (loading st)
               (toasts st ++ [toast_error "Failed to summarize all notes"])%list,
       [invoke_all (notes st)])
  end.
Proof.
  intro Hnotes.
  assert (Hlen : Nat.eqb (List.length (notes st)) 0 = false).
  { destruct (notes st); [ contradiction | reflexivity ]. }
  unfold run, summarizeAllNotes, bind at 1, get. cbn [bindP].
  rewrite Hlen.
  unfold try_catch, bind, await, invoke_all, pairs. cbn.
  destruct (env _ 0 _) as [[data | err] | err]; cbn; try reflexivity.
  destruct (getProp data "summary") as [text | err]; reflexivity.
Qed.

(** C7. [summarizeAllNotes] returns [null] without any gateway call when
    there is no user or the collection is empty. Otherwise it makes exactly
    one call, the invocation of [summarize-notes] with the collection's
    (title, content) pairs in collection order; it makes no store call and
    leaves collection and loading flag as they were, whatever the reply;
    and when the reply carries data it returns that data's [summary]. *)
Theorem summarize_all_is_read_only
  (user : option Auth.User) (st : State) (env : Env GatewayE) :
  (user = None \/ notes st = [] ->
   run (summarizeAllNotes user) st env = (Normal JNull, st, [])) /\
  (user <> None -> notes st <> [] ->
   gateway_calls (summarizeAllNotes user) st env = [invoke_all (notes st)] /\
   notes (after (summarizeAllNotes user) st env) = notes st /\
   loading (after (summarizeAllNotes user) st env) = loading st /\
   forall data text,
     env _ 0 (Invoke "summarize-notes"
                (NotesBody (SummarizeNotes.mkPayload (pairs (notes st))))) =
       Fulfilled (FnData data) ->
     getProp data "summary" = Normal text ->
     outcome (summarizeAllNotes user) st env = Normal text).
Proof.
  split.
  - intros [-> | Hempty].
    + reflexivity.
    + unfold run, summarizeAllNotes, bind, get. cbn [bindP]. rewrite Hempty.
      destruct user; reflexivity.
  - intros Huser Hnotes.
    destruct user as [u | ]; [ | contradiction ].
    unfold gateway_calls, after, outcome.
    rewrite (summarizeAllNotes_run u st env Hnotes).
    destruct (env _ 0 _) as [[data | err] | err].
    + destruct (getProp data "summary") as [text | err] eqn:Htext.
      * split; [ reflexivity | split; [ reflexivity | split; [ reflexivity | ] ] ].
        intros data' text' [= <-] Htext'. cbn. congruence.
      * split; [ reflexivity | split; [ reflexivity | split; [ reflexivity | ] ] ].
        intros data' text' [= <-] Htext'. congruence.
    + split; [ reflexivity | split; [ reflexivity | split; [ reflexivity | ] ] ].
      intros data' text' [=].
    + split; [ reflexivity | split; [ reflexivity | split; [ reflexivity | ] ] ].
      intros data' text' [=].
Qed.

Lemma summarize_all_is_read_only_witness :
  (notes initial = [] /\
   run (summarizeAllNotes (Some alice)) initial all_well = (Normal JNull, initial, [])) /\
  (Some alice <> None /\ notes two_notes <> [] /\
   gateway_calls (summarizeAllNotes (Some alice)) two_notes all_well =
     [invoke_all [groceries; meeting]] /\
   notes (after (summarizeAllNotes (Some alice)) two_notes all_well) =
     [groceries; meeting] /\
   outcome (summarizeAllNotes (Some alice)) two_notes all_well = Normal (JStr "Two notes.")).
Proof.
  assert (Huser : Some alice <> None) by discriminate.
  assert (Hnotes : notes two_notes <> []) by discriminate.
  pose proof (proj2 (summarize_all_is_read_only (Some alice) two_notes all_well) Huser Hnotes)
    as (Hcalls & Hsame & _ & Htext).
  split.
  - split; [ reflexivity | ].
    exact (proj1 (summarize_all_is_read_only (Some alice) initial all_well)
             (or_intror eq_refl)).
  - split; [ exact Huser | split; [ exact Hnotes | ] ].
    split; [ exact Hcalls | split; [ exact Hsame | ] ].
    exact (Htext (JObj [("summary", JStr "Two notes.")]) (JStr "Two notes.") eq_refl eq_refl).
Defined.

End SummarizeAll.

(** * Further properties of the functions *)

Section FunctionsAnswer.
Import Batch.

(** The responses of the single-note function. *)
Lemma single_note_responses (key : option string)
  (req : Serve.Request JsVal) (env : Env Http.NetE) :
  fst (SummarizeNote.serve key req env) =
    Normal (Serve.mkResponse 200 SummarizeNote.corsHeaders None) \/
  (exists summary : JsVal,
     fst (SummarizeNote.serve key req env) =
     Normal (Serve.mkResponse 200
               (SummarizeNote.corsHeaders ++ [("Content-Type", "application/json")])%list
               (Some (JObj [("summary", summary)])))) \/
  (exists msg : string,
     fst (SummarizeNote.serve key req env) = Normal (failure msg)).
Proof.
  destruct req as [m payload].
  destruct (String.eqb m "OPTIONS") eqn:Hm.
  - left. unfold SummarizeNote.serve, SummarizeNote.handler.
    cbn [Serve.method]. rewrite Hm. reflexivity.
  - right. rewrite (single_serve_run env key m payload Hm).
    destruct payload as [body | err]; [ | right; eexists; reflexivity ].
    destruct (destructure body "content") as [content | err];
      [ | right; eexists; reflexivity ].
    destruct (not_str key); [ right; eexists; reflexivity | ].
    destruct (toStr content) as [text | err]; [ | right; eexists; reflexivity ].
    cbn [fst].
    destruct (env Http.FetchResponse 0
                (Http.Fetch SummarizeNote.url (SummarizeNote.fetch_init key text)))
      as [response | err]; [ | right; eexists; reflexivity ].
    destruct (Http.ok response); [ | right; eexists; reflexivity ].
    destruct (Http.json response) as [data | err]; [ | right; eexists; reflexivity ].
    destruct (Http.first_choice_content data) as [summary | err].
    + left. exists summary. reflexivity.
    + right. eexists. reflexivity.
Qed.

(** Only [OPTIONS] is told apart: any other method is treated as the [POST]
    of the body received. *)
Lemma serve_other_method (key : option string) (env : Env Http.NetE)
  (m : string) (payload : Settled JsVal) :
  String.eqb m "OPTIONS" = false ->
  SummarizeNotes.serve key (Serve.mkRequest m payload) env =
  SummarizeNotes.serve key (Serve.mkRequest "POST" payload) env.
Proof.
  intro Hm. rewrite (serve_run env key m payload Hm).
  rewrite (serve_run env key "POST" payload eq_refl). reflexivity.
Qed.

(** The responses of the batch function. *)
Lemma batch_responses (key : option string)
  (req : Serve.Request JsVal) (env : Env Http.NetE) :
  fst (SummarizeNotes.serve key req env) =
    Normal (Serve.mkResponse 200 SummarizeNotes.corsHeaders None) \/
  (exists text : string, fst (SummarizeNotes.serve key req env) = Normal (success text)) \/
  (exists msg : string, fst (SummarizeNotes.serve key req env) = Normal (failure msg)).
Proof.
  destruct req as [m payload].
  destruct (String.eqb m "OPTIONS") eqn:Hm.
  - left. unfold SummarizeNotes.serve, SummarizeNotes.handler.
    cbn [Serve.method]. rewrite Hm. reflexivity.
  - right. rewrite (serve_run env key m payload Hm).
    destruct payload as [body | err]; [ | right; eexists; reflexivity ].
    destruct (destructure body "notes") as [notes | err]; [ | right; eexists; reflexivity ].
    destruct (not_str key); [ right; eexists; reflexivity | ].
    destruct (iterate notes "notes") as [vs | err]; [ | right; eexists; reflexivity ].
    destruct (exec env 0 (for_of vs (SummarizeNotes.summarize_item key) []))
      as [[c summaries] tr].
    destruct c as [[] | e]; [ left | right ]; eexists; reflexivity.
Qed.

(** X1. Both functions answer every request, whatever its method, whatever
    its body (unreadable, or any JSON value), whatever the key and whatever
    the completion endpoint does: the callback never throws, the status is
    200 or 500, and the response, error responses included, carries the
    two CORS headers. *)
Theorem functions_always_answer_with_cors (key : option string) (env : Env Http.NetE) :
  (forall req : Serve.Request JsVal,
     exists r : Serve.Response,
       fst (SummarizeNotes.serve key req env) = Normal r /\
       (Serve.status r = 200%Z \/ Serve.status r = 500%Z) /\
       incl SummarizeNotes.corsHeaders (Serve.headers r)) /\
  (forall req : Serve.Request JsVal,
     exists r : Serve.Response,
       fst (SummarizeNote.serve key req env) = Normal r /\
       (Serve.status r = 200%Z \/ Serve.status r = 500%Z) /\
       incl SummarizeNote.corsHeaders (Serve.headers r)).
Proof.
  split; intro req.
  - destruct (batch_responses key req env) as [H | [[text H] | [msg H]]];
      rewrite H; eexists; (split; [ reflexivity | ]); cbn [Serve.status Serve.headers success failure].
    + split; [ left; reflexivity | apply incl_refl ].
    + split; [ left; reflexivity | apply incl_appl, incl_refl ].
    + split; [ right; reflexivity | apply incl_appl, incl_refl ].
  - destruct (single_note_responses key req env) as [H | [[summary H] | [msg H]]];
      rewrite H; eexists; (split; [ reflexivity | ]); cbn [Serve.status Serve.headers failure].
    + split; [ left; reflexivity | apply incl_refl ].
    + split; [ left; reflexivity | apply incl_appl, incl_refl ].
    + split; [ right; reflexivity | apply incl_appl, incl_refl ].
Qed.

(** The batch function at bodies a client need not send but [req.json()]
    can give: without [notes] there is nothing to go through; the body
    [null] cannot be destructured, which is found before the key is looked
    at; a note that is [null] has no title to read, which is found before
    any request for it; a [notes] that is a string is gone through
    character by character. *)
Lemma batch_at_other_bodies :
  SummarizeNotes.serve (Some "nvapi-key")
    (Serve.mkRequest "POST" (Fulfilled (JObj []))) second_refused =
    (Normal (failure "notes is not iterable"), []) /\
  SummarizeNotes.serve None
    (Serve.mkRequest "POST" (Fulfilled JNull)) second_refused =
    (Normal (failure
       "Cannot destructure property 'notes' of '(intermediate value)' as it is null."),
     []) /\
  SummarizeNotes.serve (Some "nvapi-key")
    (Serve.mkRequest "POST"
       (Fulfilled (JObj [("notes",
          JArr [SummarizeNotes.item_json (SummarizeNotes.mkItem "A" "first note");
                JNull])])))
    second_refused =
    (Normal (failure "Cannot read properties of null (reading 'title')"),
     [request (Some "nvapi-key") (SummarizeNotes.mkItem "A" "first note")]) /\
  SummarizeNotes.serve (Some "nvapi-key")
    (Serve.mkRequest "POST" (Fulfilled (JObj [("notes", JStr "a")]))) second_refused =
    (Normal (success "• undefined: ok"),
     [request (Some "nvapi-key") (SummarizeNotes.mkItem "undefined" "undefined")]).
Proof. split; [ | split; [ | split ] ]; reflexivity. Qed.

(** A preflight request is answered at once by both functions, with an
    empty 200 response carrying the CORS headers: the payload is not read,
    the key is not looked at, and the completion endpoint is not contacted. *)
Theorem preflight_is_answered_locally (key : option string) (env : Env Http.NetE) :
  (forall payload,
     SummarizeNotes.serve key (Serve.mkRequest "OPTIONS" payload) env =
     (Normal (Serve.mkResponse 200 SummarizeNotes.corsHeaders None), [])) /\
  (forall payload,
     SummarizeNote.serve key (Serve.mkRequest "OPTIONS" payload) env =
     (Normal (Serve.mkResponse 200 SummarizeNote.corsHeaders None), [])).
Proof. split; intro payload; reflexivity. Qed.

(** X2. A request whose body cannot be read as JSON is answered 500 with the
    parse error's message by both functions, without any call to the
    completion endpoint; since the body is read before the key is checked,
    this is also the answer when the key is missing. *)
Theorem unreadable_request_is_refused
  (key : option string) (env : Env Http.NetE) (m : string) (err : JsError) :
  String.eqb m "OPTIONS" = false ->
  SummarizeNotes.serve key (Serve.mkRequest m (Rejected err)) env =
    (Normal (failure (message err)), []) /\
  SummarizeNote.serve key (Serve.mkRequest m (Rejected err)) env =
    (Normal (failure (message err)), []).
Proof.
  intro Hm. unfold SummarizeNotes.serve, SummarizeNotes.handler,
    SummarizeNote.serve, SummarizeNote.handler.
  cbn [Serve.method Serve.json]. rewrite Hm. split; reflexivity.
Qed.

Lemma unreadable_request_is_refused_witness :
  String.eqb "POST" "OPTIONS" = false /\
  SummarizeNotes.serve None
    (Serve.mkRequest "POST" (Rejected (mkError "SyntaxError" "Unexpected end of JSON input")))
    second_refused =
    (Normal (failure "Unexpected end of JSON input"), []).
Proof.
  split; [ reflexivity | ].
  exact (proj1 (unreadable_request_is_refused None second_refused "POST"
                  (mkError "SyntaxError" "Unexpected end of JSON input") eq_refl)).
Defined.

End FunctionsAnswer.

Section SingleNote.
Import Batch Single.

(** A run of the single-note function on a readable [POST]. *)
Lemma single_note_run (key : option string) (content : string) (env : Env Http.NetE) :
  SummarizeNote.serve key (single_post content) env =
  if not_str key then (Normal (failure "NVIDIA API key not configured"), [])
  else
    (Normal
       match single_reply env key content with
       | Rejected err => failure (message err)
       | Fulfilled response =>
           if Http.ok response then
             match Http.json response with
             | Rejected err => failure (message err)
             | Fulfilled data =>
                 match Http.first_choice_content data with
                 | Throw err => failure (message err)
                 | Normal summary =>
                     Serve.mkResponse 200
                       (SummarizeNote.corsHeaders ++ [("Content-Type", "application/json")])%list
                       (Some (JObj [("summary", summary)]))
                 end
             end
           else failure ("NVIDIA API error: " ++ Http.statusText response)
       end,
     [existT _ _ (Http.Fetch SummarizeNote.url (SummarizeNote.fetch_init key content))]).
Proof.
  unfold SummarizeNote.serve, SummarizeNote.handler, single_post, single_reply.
  cbn [Serve.method Serve.json String.eqb Ascii.eqb Bool.eqb].
  unfold try_catch, bind. cbn.
  destruct (not_str key); [ reflexivity | ].
  cbn.
  destruct (env Http.FetchResponse 0
              (Http.Fetch SummarizeNote.url (SummarizeNote.fetch_init key content)))
    as [response | err]; [ | reflexivity ].
  cbn. destruct (Http.ok response); [ | reflexivity ].
  cbn. destruct (Http.json response) as [data | err]; [ | reflexivity ].
  cbn. destruct (Http.first_choice_content data); reflexivity.
Qed.



(** The single-note function at three bodies a client need not send but
    [req.json()] can give: a message without [content] is answered 200 with
    a summary that is [undefined]; the body [null] is answered 500 before
    the key is looked at; a content that cannot be converted to text is
    answered 500 without a request. *)
Lemma single_note_at_other_bodies :
  SummarizeNote.serve (Some "nvapi-key") (single_post "first note")
    (always (Fulfilled without_content)) =
    (Normal (Serve.mkResponse 200
               (SummarizeNote.corsHeaders ++ [("Content-Type", "application/json")])%list
               (Some (JObj [("summary", JUndefined)]))),
     [existT _ _ (Http.Fetch SummarizeNote.url
                    (SummarizeNote.fetch_init (Some "nvapi-key") "first note"))]) /\
  SummarizeNote.serve None (Serve.mkRequest "POST" (Fulfilled JNull))
    (always (Fulfilled without_content)) =
    (Normal (failure
       "Cannot destructure property 'content' of '(intermediate value)' as it is null."),
     []) /\
  SummarizeNote.serve (Some "nvapi-key")
    (Serve.mkRequest "POST"
       (Fulfilled (JObj [("content", JObj [("toString", JStr "x")])])))
    (always (Fulfilled without_content)) =
    (Normal (failure "Cannot convert object to primitive value"), []).
Proof. split; [ reflexivity | split; reflexivity ]. Qed.

(** X4. The two functions treat a non-success status of the completion
    endpoint differently: the single-note function answers 500 and names
    the status text, while the batch function, asked for that one note,
    answers 200 with the fallback line. *)
Theorem status_failure_single_versus_batch
  (key : option string) (env : Env Http.NetE)
  (title content : string) (response : Http.FetchResponse) :
  not_str key = false ->
  Http.ok response = false ->
  (single_reply env key content = Fulfilled response ->
   fst (SummarizeNote.serve key (single_post content) env) =
     Normal (failure ("NVIDIA API error: " ++ Http.statusText response))) /\
  (reply env key 0 (SummarizeNotes.mkItem title content) = Fulfilled response ->
   fst (SummarizeNotes.serve key
          (SummarizeNotes.post [SummarizeNotes.mkItem title content]) env) =
     Normal (success ("• " ++ title ++ ": Unable to summarize this note."))).
Proof.
  intros Hkey Hok. split; intro Hreply.
  - rewrite single_note_run, Hkey. cbn [fst]. rewrite Hreply, Hok. reflexivity.
  - rewrite (serve_configured env key _ Hkey).
    rewrite (for_of_lines env key [SummarizeNotes.mkItem title content] [fallback] 0 []).
    + reflexivity.
    + cbn. unfold summaryOrFallback. rewrite Hreply, Hok. reflexivity.
Qed.

Lemma status_failure_single_versus_batch_witness :
  not_str (Some "nvapi-key") = false /\
  Http.ok too_many_requests = false /\
  fst (SummarizeNote.serve (Some "nvapi-key") (single_post "second note")
         (always (Fulfilled too_many_requests))) =
    Normal (failure "NVIDIA API error: Too Many Requests") /\
  fst (SummarizeNotes.serve (Some "nvapi-key")
         (SummarizeNotes.post [SummarizeNotes.mkItem "B" "second note"])
         (always (Fulfilled too_many_requests))) =
    Normal (success "• B: Unable to summarize this note.").
Proof.
  pose proof (status_failure_single_versus_batch (Some "nvapi-key")
                (always (Fulfilled too_many_requests)) "B" "second note"
                too_many_requests eq_refl eq_refl) as [Hsingle Hbatch].
  split; [ reflexivity | split; [ reflexivity | ] ].
  split; [ exact (Hsingle eq_refl) | exact (Hbatch eq_refl) ].
Defined.

End SingleNote.

Section BatchOrder.
Import SummarizeNotes Batch BatchErrors.
Variable env : Env Http.NetE.
Variable key : option string.

Lemma summarize_item_thrown (note : NoteItem) (n : nat) (acc : list string) (err : JsError) :
  thrown (reply env key n note) = Some err ->
  exec env n (summarize_item key (item_json note) acc) =
  (Throw err, acc, [request key note]).
Proof.
  unfold thrown, reply, summarize_item, bind.
  rewrite texts_of_item_json. unfold await. cbn [lift ret bindP exec].
  destruct (env Http.FetchResponse n (Http.Fetch url (fetch_init key note)))
    as [response | e]; [ | intros [= <-]; reflexivity ].
  cbn [bindP]. destruct (Http.ok response); cbn [bindP]; [ | discriminate ].
  destruct (Http.json response) as [data | e]; [ | intros [= <-]; reflexivity ].
  cbn [await_settled ret bindP].
  destruct (Http.first_choice_content data) as [summary | e];
    [ | intros [= <-]; reflexivity ].
  cbn [lift ret bindP]. rewrite title_text_item_json. cbn [lift ret bindP].
  destruct (toStr summary) as [converted | e]; [ discriminate | ].
  intros [= <-]. reflexivity.
Qed.

(** The loop ends at the first exchange that throws. *)
Lemma for_of_stops (pre : list NoteItem) :
  forall (note : NoteItem) (rest : list NoteItem) (texts : list string)
         (err : JsError) (n : nat) (acc : list string),
  map summaryOrFallback (replies env key n pre) = map Some texts ->
  thrown (reply env key (n + List.length pre) note) = Some err ->
  exec env n (for_of (map item_json (pre ++ note :: rest)) (summarize_item key) acc) =
  (Throw err, (acc ++ lines pre texts)%list, map (request key) (pre ++ [note])).
Proof.
  induction pre as [ | x pre IH]; intros note rest texts err n acc Htexts Hthrown.
  - destruct texts; [ | discriminate ].
    cbn [app map for_of]. unfold bind. rewrite exec_bindP.
    cbn [List.length] in Hthrown. rewrite Nat.add_0_r in Hthrown.
    rewrite (summarize_item_thrown note n acc err Hthrown).
    cbn. rewrite app_nil_r. reflexivity.
  - destruct texts as [ | text texts]; [ discriminate | ].
    cbn in Htexts. injection Htexts as Hhead Htail.
    cbn [app map for_of]. unfold bind. rewrite exec_bindP.
    rewrite (summarize_item_line env key x n acc text Hhead).
    cbn [List.length]. rewrite Nat.add_1_r.
    cbn [List.length] in Hthrown. rewrite Nat.add_succ_r in Hthrown.
    rewrite (IH note rest texts err (S n) _ Htail Hthrown).
    cbn. rewrite <- app_assoc. reflexivity.
Qed.

(** X5. With the key configured and notes as the client sends them, when
    the exchange of some item is the first to throw (its request is
    rejected, its 200 response has a body that is not JSON, reading
    [choices[0].message.content] from that body throws, or the value read
    cannot be converted to text), the response is the 500 that carries
    that error's message; the requests sent are those of the items up to
    and including that one, so no later item is requested, and the lines
    gathered so far are dropped. *)
Theorem batch_stops_at_first_throw
  (pre : list NoteItem) (note : NoteItem) (rest : list NoteItem)
  (texts : list string) (err : JsError) :
  not_str key = false ->
  map summaryOrFallback (replies env key 0 pre) = map Some texts ->
  thrown (reply env key (List.length pre) note) = Some err ->
  serve key (post (pre ++ note :: rest)) env =
  (Normal (failure (message err)), map (request key) (pre ++ [note])).
Proof.
  intros Hkey Htexts Hthrown.
  rewrite (serve_configured env key _ Hkey).
  rewrite (for_of_stops pre note rest texts err 0 [] Htexts Hthrown).
  reflexivity.
Qed.

(** X6. Whatever the key and the replies, the requests sent are those of an
    initial segment of the notes, in the order of the notes: no note is
    requested twice, none is retried, none is requested before the one in
    front of it; and a success response means every note was requested. *)
Theorem batch_requests_follow_the_notes (items : list NoteItem) :
  exists k : nat,
    k <= List.length items /\
    snd (serve key (post items) env) = map (request key) (firstn k items) /\
    (forall text : string,
       fst (serve key (post items) env) = Normal (success text) ->
       k = List.length items).
Proof.
  destruct (not_str key) eqn:Hkey.
  - exists 0. rewrite (serve_absent_key env key items Hkey).
    split; [ lia | split; [ reflexivity | discriminate ] ].
  - rewrite (serve_configured env key items Hkey).
    destruct (all_or_none _ (map summaryOrFallback (replies env key 0 items)))
      as [[texts Htexts] | Hnone].
    + exists (List.length items).
      rewrite (for_of_lines env key items texts 0 [] Htexts), firstn_all.
      split; [ lia | split; reflexivity ].
    + destruct (for_of_requests env key items 0 []) as [k Hk].
      destruct (for_of_throws env key items 0 [] Hnone) as (err & s & tr & Hthrow).
      rewrite Hthrow in Hk |- *. cbn [snd] in Hk. subst tr.
      exists (Nat.min k (List.length items)).
      split; [ lia | split; [ | discriminate ] ].
      cbn [snd]. f_equal.
      destruct (Nat.le_ge_cases k (List.length items)) as [Hle | Hge].
      * rewrite Nat.min_l by exact Hle. reflexivity.
      * rewrite Nat.min_r by exact Hge.
        rewrite firstn_all. apply firstn_all2. exact Hge.
Qed.

End BatchOrder.

Section BatchOrderWitness.
Import SummarizeNotes Batch BatchErrors.

Lemma batch_stops_at_first_throw_witness :
  not_str (Some "nvapi-key") = false /\
  map summaryOrFallback (replies second_malformed (Some "nvapi-key") 0
                           [mkItem "A" "first note"]) = map Some ["ok"] /\
  thrown (reply second_malformed (Some "nvapi-key") 1 (mkItem "B" "second note")) =
    Some (TypeError "Cannot read properties of undefined (reading '0')") /\
  serve (Some "nvapi-key") (post abc) second_malformed =
    (Normal (failure "Cannot read properties of undefined (reading '0')"),
     map (request (Some "nvapi-key"))
         [mkItem "A" "first note"; mkItem "B" "second note"]).
Proof.
  split; [ reflexivity | split; [ reflexivity | split; [ reflexivity | ] ] ].
  exact (batch_stops_at_first_throw second_malformed (Some "nvapi-key")
           [mkItem "A" "first note"] (mkItem "B" "second note")
           [mkItem "C" "third note"] ["ok"]
           (TypeError "Cannot read properties of undefined (reading '0')")
           eq_refl eq_refl eq_refl).
Defined.

(** The batch function at two replies of the completion endpoint: a message
    without [content] gives the line of [undefined]; a [content] that
    cannot be converted to text throws, and the response is the 500. *)
Lemma batch_at_other_replies :
  serve (Some "nvapi-key") (post [mkItem "u" "first note"])
    (Single.always (Fulfilled Single.without_content)) =
    (Normal (success "• u: undefined"),
     [request (Some "nvapi-key") (mkItem "u" "first note")]) /\
  serve (Some "nvapi-key") (post [mkItem "u" "first note"])
    (Single.always (Fulfilled (Http.mkFetchResponse true "OK"
       (Fulfilled (JObj [ ("choices",
          JArr [ JObj [ ("message",
            JObj [ ("content", JObj [("toString", JNum "1")]) ]) ] ]) ]))))) =
    (Normal (failure "Cannot convert object to primitive value"),
     [request (Some "nvapi-key") (mkItem "u" "first note")]).
Proof. split; reflexivity. Qed.

End BatchOrderWitness.

(** * Further properties of the collection hook *)

Section HookResolves.
Import UseNotes Collection.

Lemma fetchNotes_run (u : Auth.User) (st : State) (env : Env GatewayE) :
  run (fetchNotes (Some u)) st env =
  match env _ 0 Select with
  | Fulfilled (PgData data) =>
      (Normal tt,
       mkState match data with Some rows => rows | None => [] end false (toasts st),
       [existT _ _ Select])
  | _ =>
      (Normal tt,
       mkState (notes st) false (toasts st ++ [toast_error "Failed to fetch notes"])%list,
       [existT _ _ Select])
  end.
Proof.
  unfold run, fetchNotes, try_finally, try_catch, bind, await. cbn.
  destruct (env _ 0 Select) as [[data | err] | err]; reflexivity.
Qed.

(** Every call of a run of [summarizeNote], whatever the replies. *)
Lemma summarizeNote_cases (u : Auth.User) (now noteId : string) (st : State)
  (env : Env GatewayE) (note : Note) :
  find (fun n => String.eqb (id n) noteId) (notes st) = Some note ->
  run (summarizeNote (Some u) now noteId) st env =
  match env _ 0 (Invoke "summarize-note"
                   (ContentBody (SummarizeNote.mkPayload (content note)))) with
  | Fulfilled (FnData data) =>
      match getProp data "summary" with
      | Normal summary =>
          match env _ 1 (Update (SummaryPatch summary now) noteId) with
          | Fulfilled (PgData updatedNote) =>
              (Normal summary,
               mkState (map (fun note => if String.eqb (id note) noteId
                                         then updatedNote else note) (notes st))
                       (loading st)
                       (toasts st ++ [toast_success "Note summarized successfully!"])%list,
               [ existT _ _ (Invoke "summarize-note"
                               (ContentBody (SummarizeNote.mkPayload (content note))));
                 existT _ _ (Update (SummaryPatch summary now) noteId) ])
          | Fulfilled (PgError _) =>
              (Normal JNull,
               mkState (notes st) (loading st)
                       (toasts st ++ [toast_error "Failed to save summary"])%list,
               [ existT _ _ (Invoke "summarize-note"
                               (ContentBody (SummarizeNote.mkPayload (content note))));
                 existT _ _ (Update (SummaryPatch summary now) noteId) ])
          | Rejected _ =>
              (Normal JNull,
               mkState (notes st) (loading st)
                       (toasts st ++ [toast_error "Failed to summarize note"])%list,
               [ existT _ _ (Invoke "summarize-note"
                               (ContentBody (SummarizeNote.mkPayload (content note))));
                 existT _ _ (Update (SummaryPatch summary now) noteId) ])
          end
      | Throw _ =>
          (Normal JNull,
           mkState (notes st) (loading st)
                   (toasts st ++ [toast_error "Failed to summarize note"])%list,
           [ existT _ _ (Invoke "summarize-note"
                           (ContentBody (SummarizeNote.mkPayload (content note)))) ])
      end
  | _ =>
      (Normal JNull,
       mkState (notes st) (loading st)
               (toasts st ++ [toast_error "Failed to summarize note"])%list,
       [ existT _ _ (Invoke "summarize-note"
                       (ContentBody (SummarizeNote.mkPayload (content note)))) ])
  end.
Proof.
  intro Hfind.
  unfold run, summarizeNote, bind at 1, get. cbn [bindP].
  rewrite Hfind. unfold try_catch, bind, await. cbn.
  destruct (env _ 0 _) as [[data | err] | err]; cbn; try reflexivity.
  destruct (getProp data "summary") as [summary | err]; cbn; [ | reflexivity ].
  destruct (env _ 1 (Update (SummaryPatch summary now) noteId)) as [[updated | err] | err];
    reflexivity.
Qed.

Lemma summarizeNote_unknown (user : option Auth.User) (now noteId : string) (st : State)
  (env : Env GatewayE) :
  find (fun n => String.eqb (id n) noteId) (notes st) = None ->
  run (summarizeNote user now noteId) st env = (Normal JNull, st, []).
Proof.
  intro Hfind. unfold run, summarizeNote, bind, get. cbn [bindP].
  rewrite Hfind. reflexivity.
Qed.

Lemma summarizeAllNotes_idle (user : option Auth.User) (st : State) (env : Env GatewayE) :
  user = None \/ notes st = [] ->
  run (summarizeAllNotes user) st env = (Normal JNull, st, []).
Proof.
  intros [-> | Hempty].
  - reflexivity.
  - unfold run, summarizeAllNotes, bind, get. cbn [bindP]. rewrite Hempty.
    destruct user; reflexivity.
Qed.

Lemma summarizeNote_resolves (user : option Auth.User) (now noteId : string)
  (st : State) (env : Env GatewayE) :
  exists r, outcome (summarizeNote user now noteId) st env = Normal r.
Proof.
  unfold outcome. destruct user as [u | ].
  - destruct (find (fun n => String.eqb (UseNotes.id n) noteId) (notes st))
      as [note | ] eqn:Hfind.
    + rewrite (summarizeNote_cases u now noteId st env note Hfind).
      destruct (env _ 0 _) as [[data | err] | err]; try (eexists; reflexivity).
      destruct (getProp data "summary") as [summary | err]; try (eexists; reflexivity).
      destruct (env _ 1 _) as [[updated | err] | err]; eexists; reflexivity.
    + rewrite (summarizeNote_unknown _ now noteId st env Hfind). eexists. reflexivity.
  - unfold run, summarizeNote, bind, get. cbn [bindP].
    destruct (find (fun n => String.eqb (id n) noteId) (notes st));
      eexists; reflexivity.
Qed.

Lemma summarizeAllNotes_resolves (user : option Auth.User) (st : State)
  (env : Env GatewayE) :
  exists r, outcome (summarizeAllNotes user) st env = Normal r.
Proof.
  unfold outcome. destruct user as [u | ]; [ | eexists; reflexivity ].
  assert (Hcase : notes st = [] \/ notes st <> []).
  { destruct (notes st); [ left; reflexivity | right; discriminate ]. }
  destruct Hcase as [Hns | Hne].
  - rewrite (summarizeAllNotes_idle _ st env (or_intror Hns)). eexists. reflexivity.
  - rewrite (summarizeAllNotes_run u st env Hne).
    destruct (env _ 0 _) as [[data | err] | err]; try (eexists; reflexivity).
    destruct (getProp data "summary"); eexists; reflexivity.
Qed.


End HookResolves.

Section HookRefresh.
Import UseNotes Collection.

(** X8. When the user changes: with a user the collection becomes exactly the
    rows the store returned, in the store's order, whatever it held before
    (empty when the store returned no data), or is kept with an error toast
    when the store does not confirm; without a user the collection is
    emptied without contacting the store. Either way the loading flag ends
    cleared. *)
Theorem session_change_reloads_or_clears (st : State) (env : Env GatewayE) :
  (forall u rows,
     env _ 0 Select = Fulfilled (PgData (Some rows)) ->
     run (useEffect_user (Some u)) st env =
       (Normal tt, mkState rows false (toasts st), [existT _ _ Select])) /\
  (forall u,
     env _ 0 Select = Fulfilled (PgData None) ->
     run (useEffect_user (Some u)) st env =
       (Normal tt, mkState [] false (toasts st), [existT _ _ Select])) /\
  (forall u,
     confirmed (env _ 0 Select) = false ->
     run (useEffect_user (Some u)) st env =
       (Normal tt,
        mkState (notes st) false (toasts st ++ [toast_error "Failed to fetch notes"])%list,
        [existT _ _ Select])) /\
  run (useEffect_user None) st env = (Normal tt, mkState [] false (toasts st), []).
Proof.
  split; [ | split; [ | split ] ].
  - intros u rows H. cbn [useEffect_user]. rewrite fetchNotes_run, H. reflexivity.
  - intros u H. cbn [useEffect_user]. rewrite fetchNotes_run, H. reflexivity.
  - intros u H. cbn [useEffect_user]. rewrite fetchNotes_run.
    destruct (env _ 0 Select) as [[data | err] | err];
      [ discriminate | reflexivity | reflexivity ].
  - reflexivity.
Qed.

Lemma session_change_reloads_or_clears_witness :
  all_well _ 0 Select = Fulfilled (PgData (Some [groceries; meeting])) /\
  run (useEffect_user (Some alice)) initial all_well =
    (Normal tt, mkState [groceries; meeting] false [], [existT _ _ Select]) /\
  confirmed (store_down _ 0 Select) = false /\
  notes (snd (fst (run (useEffect_user (Some alice)) two_notes store_down))) =
    [groceries; meeting].
Proof.
  pose proof (session_change_reloads_or_clears initial all_well) as (Hrows & _).
  pose proof (session_change_reloads_or_clears two_notes store_down) as (_ & _ & Hkeep & _).
  split; [ reflexivity | split; [ exact (Hrows alice _ eq_refl) | ] ].
  split; [ reflexivity | ].
  rewrite (Hkeep alice eq_refl). reflexivity.
Defined.

End HookRefresh.

Section HookSummarize.
Import UseNotes Collection Invariants.

(** X9. [summarizeNote] turns to the store only with a summary in hand. For an
    id that is not in the collection it makes no call at all, and leaves
    the state as it is, even with a user. For a listed note whose
    summarization delivers no summary (the invocation is rejected, returns
    an error, or returns data whose [summary] cannot be read), the
    invocation is its only call: nothing is sent to the store, the
    collection is unchanged and the result is [null]. *)
Theorem summary_is_saved_only_when_received
  (u : Auth.User) (now noteId : string) (st : State) (env : Env GatewayE) :
  (find (fun n => String.eqb (id n) noteId) (notes st) = None ->
   run (summarizeNote (Some u) now noteId) st env = (Normal JNull, st, [])) /\
  (forall note,
     find (fun n => String.eqb (id n) noteId) (notes st) = Some note ->
     summary_received
       (env _ 0 (Invoke "summarize-note"
                   (ContentBody (SummarizeNote.mkPayload (content note))))) = None ->
     outcome (summarizeNote (Some u) now noteId) st env = Normal JNull /\
     notes (after (summarizeNote (Some u) now noteId) st env) = notes st /\
     gateway_calls (summarizeNote (Some u) now noteId) st env =
       [existT _ _ (Invoke "summarize-note"
                      (ContentBody (SummarizeNote.mkPayload (content note))))] /\
     existsb is_store_call (gateway_calls (summarizeNote (Some u) now noteId) st env)
       = false).
Proof.
  split.
  - apply summarizeNote_unknown.
  - intros note Hfind Hnone. unfold outcome, after, gateway_calls.
    rewrite (summarizeNote_cases u now noteId st env note Hfind).
    unfold summary_received in Hnone.
    destruct (env _ 0 _) as [[data | err] | err].
    + destruct (getProp data "summary") as [summary | err]; [ discriminate | ].
      repeat split.
    + repeat split.
    + repeat split.
Qed.

Lemma summary_is_saved_only_when_received_witness :
  find (fun n => String.eqb (id n) "n-9") (notes two_notes) = None /\
  run (summarizeNote (Some alice) "2024-05-03T08:00:00.000Z" "n-9") two_notes all_well =
    (Normal JNull, two_notes, []) /\
  find (fun n => String.eqb (id n) "n-2") (notes two_notes) = Some groceries /\
  summary_received
    (world (mkReplies (Rejected store_error) (Rejected store_error) (Rejected store_error)
                      (Rejected store_error) (Fulfilled (FnData JNull)))
       _ 0 (Invoke "summarize-note"
              (ContentBody (SummarizeNote.mkPayload (content groceries))))) = None /\
  gateway_calls (summarizeNote (Some alice) "2024-05-03T08:00:00.000Z" "n-2") two_notes
    (world (mkReplies (Rejected store_error) (Rejected store_error) (Rejected store_error)
                      (Rejected store_error) (Fulfilled (FnData JNull)))) =
    [existT _ _ (Invoke "summarize-note"
                   (ContentBody (SummarizeNote.mkPayload (content groceries))))].
Proof.
  pose proof (summary_is_saved_only_when_received alice "2024-05-03T08:00:00.000Z" "n-9"
                two_notes all_well) as [Hunknown _].
  pose proof (summary_is_saved_only_when_received alice "2024-05-03T08:00:00.000Z" "n-2"
                two_notes
                (world (mkReplies (Rejected store_error) (Rejected store_error)
                                  (Rejected store_error) (Rejected store_error)
                                  (Fulfilled (FnData JNull)))))
    as [_ Hnone].
  split; [ reflexivity | split; [ exact (Hunknown eq_refl) | ] ].
  split; [ reflexivity | split; [ reflexivity | ] ].
  exact (proj1 (proj2 (proj2 (Hnone groceries eq_refl eq_refl)))).
Defined.

(** X10. A summarization that goes through: the text sent is the content of the
    first entry with the given id; the summary received is sent on to the
    store as the patch of that id; and when the store confirms, the entries
    with that id are replaced, in place, by the record the store returned,
    and the summary received is returned as it is. *)
Theorem summarize_one_saves_then_replaces
  (u : Auth.User) (now noteId : string) (st : State) (env : Env GatewayE)
  (note updatedNote : Note) (summary : JsVal) :
  find (fun n => String.eqb (id n) noteId) (notes st) = Some note ->
  summary_received
    (env _ 0 (Invoke "summarize-note"
                (ContentBody (SummarizeNote.mkPayload (content note))))) = Some summary ->
  env _ 1 (Update (SummaryPatch summary now) noteId) = Fulfilled (PgData updatedNote) ->
  outcome (summarizeNote (Some u) now noteId) st env = Normal summary /\
  Replaced noteId updatedNote (notes st)
    (notes (after (summarizeNote (Some u) now noteId) st env)) /\
  List.length (notes (after (summarizeNote (Some u) now noteId) st env)) =
    List.length (notes st) /\
  gateway_calls (summarizeNote (Some u) now noteId) st env =
    [ existT _ _ (Invoke "summarize-note"
                    (ContentBody (SummarizeNote.mkPayload (content note))));
      existT _ _ (Update (SummaryPatch summary now) noteId) ].
Proof.
  intros Hfind Hsummary Hupdate. unfold outcome, after, gateway_calls.
  rewrite (summarizeNote_cases u now noteId st env note Hfind).
  unfold summary_received in Hsummary.
  destruct (env _ 0 _) as [[data | err] | err]; try discriminate.
  destruct (getProp data "summary") as [summary' | err]; [ | discriminate ].
  injection Hsummary as ->. rewrite Hupdate. cbn.
  split; [ reflexivity | split; [ apply map_Replaced | split; [ apply length_map | reflexivity ] ] ].
Qed.

Lemma summarize_one_saves_then_replaces_witness :
  find (fun n => String.eqb (id n) "n-2") (notes two_notes) = Some groceries /\
  summary_received
    (all_well _ 0 (Invoke "summarize-note"
                     (ContentBody (SummarizeNote.mkPayload (content groceries))))) =
    Some (JStr "Two notes.") /\
  all_well _ 1 (Update (SummaryPatch (JStr "Two notes.") "2024-05-03T08:00:00.000Z") "n-2") =
    Fulfilled (PgData groceries_edited) /\
  outcome (summarizeNote (Some alice) "2024-05-03T08:00:00.000Z" "n-2") two_notes all_well =
    Normal (JStr "Two notes.").
Proof.
  split; [ reflexivity | split; [ reflexivity | split; [ reflexivity | ] ] ].
  exact (proj1 (summarize_one_saves_then_replaces alice "2024-05-03T08:00:00.000Z" "n-2"
                  two_notes all_well groceries groceries_edited (JStr "Two notes.")
                  eq_refl eq_refl eq_refl)).
Defined.

End HookSummarize.

Section HookInvariants.
Import UseNotes Collection Invariants.

Lemma unlisted_not_in (id : string) (ns : list Note) :
  listed id ns = false -> ~ In id (map UseNotes.id ns).
Proof.
  induction ns as [ | n ns IH]; cbn; intro H.
  - tauto.
  - apply orb_false_iff in H. destruct H as [Hn Hns].
    intros [Heq | Hin].
    + rewrite Heq, String.eqb_refl in Hn. discriminate.
    + exact (IH Hns Hin).
Qed.

Lemma filter_unlisted (id : string) (ns : list Note) :
  listed id ns = false ->
  filter (fun note => negb (String.eqb (UseNotes.id note) id)) ns = ns.
Proof.
  induction ns as [ | n ns IH]; cbn; intro H.
  - reflexivity.
  - apply orb_false_iff in H. destruct H as [Hn Hns].
    rewrite Hn. cbn. rewrite (IH Hns). reflexivity.
Qed.

Lemma map_unlisted (id : string) (data : Note) (ns : list Note) :
  listed id ns = false ->
  map (fun note => if String.eqb (UseNotes.id note) id then data else note) ns = ns.
Proof.
  induction ns as [ | n ns IH]; cbn; intro H.
  - reflexivity.
  - apply orb_false_iff in H. destruct H as [Hn Hns].
    rewrite Hn, (IH Hns). reflexivity.
Qed.

Lemma filter_listed (id : string) (ns : list Note) :
  listed id (filter (fun note => negb (String.eqb (UseNotes.id note) id)) ns) = false.
Proof.
  unfold listed. induction ns as [ | n ns IH]; cbn.
  - reflexivity.
  - destruct (String.eqb (UseNotes.id n) id) eqn:Hn; cbn.
    + exact IH.
    + rewrite Hn. exact IH.
Qed.

Lemma filter_distinct (id : string) (ns : list Note) :
  distinct_ids ns ->
  distinct_ids (filter (fun note => negb (String.eqb (UseNotes.id note) id)) ns).
Proof.
  unfold distinct_ids. induction ns as [ | n ns IH]; cbn; intro H.
  - constructor.
  - inversion H as [ | x xs Hnotin Hrest]; subst.
    destruct (String.eqb (UseNotes.id n) id); cbn.
    + exact (IH Hrest).
    + constructor; [ | exact (IH Hrest) ].
      intro Hin. apply Hnotin.
      apply in_map_iff in Hin. destruct Hin as (m & Hm & Hmin).
      apply filter_In in Hmin. apply in_map_iff. exists m. tauto.
Qed.

Lemma map_same_ids (id : string) (data : Note) (ns : list Note) :
  UseNotes.id data = id ->
  map UseNotes.id
      (map (fun note => if String.eqb (UseNotes.id note) id then data else note) ns) =
  map UseNotes.id ns.
Proof.
  intro Hdata. induction ns as [ | n ns IH]; cbn.
  - reflexivity.
  - rewrite IH. destruct (String.eqb_spec (UseNotes.id n) id) as [Heq | Hne].
    + rewrite Hdata, Heq. reflexivity.
    + reflexivity.
Qed.

(** X11. The ids of the collection stay pairwise distinct. Deleting keeps them
    distinct whatever the store answers. Creating, updating and summarizing
    keep them distinct as long as the store returns, on confirmation, the
    record that was asked for: a created record whose id is new to the
    collection, an updated record that has the id that was updated. *)
Theorem distinct_ids_are_kept (u : Auth.User) (st : State) (env : Env GatewayE) :
  distinct_ids (notes st) ->
  (forall id, distinct_ids (notes (after (deleteNote (Some u) id) st env))) /\
  (forall title content fileName,
     (forall data, env _ 0 (Insert title content fileName (Auth.id u)) =
                     Fulfilled (PgData data) ->
                   listed (UseNotes.id data) (notes st) = false) ->
     distinct_ids (notes (after (createNote (Some u) title content fileName) st env))) /\
  (forall now id title content,
     (forall data, env _ 0 (Update (TextPatch title content now) id) =
                     Fulfilled (PgData data) ->
                   UseNotes.id data = id) ->
     distinct_ids (notes (after (updateNote (Some u) now id title content) st env))) /\
  (forall now noteId,
     (forall summary updated,
        env _ 1 (Update (SummaryPatch summary now) noteId) = Fulfilled (PgData updated) ->
        UseNotes.id updated = noteId) ->
     distinct_ids (notes (after (summarizeNote (Some u) now noteId) st env))) /\
  distinct_ids (notes (after (summarizeAllNotes (Some u)) st env)).
Proof.
  intro Hst. unfold after.
  split; [ | split; [ | split; [ | split ] ] ].
  - intro id. rewrite deleteNote_run.
    destruct (env _ 0 _) as [[data | err] | err]; cbn;
      [ apply filter_distinct | | ]; exact Hst.
  - intros title content fileName Hfresh. rewrite createNote_run.
    destruct (env _ 0 _) as [[data | err] | err] eqn:Hreply; cbn; [ | exact Hst | exact Hst ].
    unfold distinct_ids. cbn. constructor; [ | exact Hst ].
    apply unlisted_not_in. apply Hfresh. reflexivity.
  - intros now id title content Hsame. rewrite updateNote_run.
    destruct (env _ 0 _) as [[data | err] | err] eqn:Hreply; cbn; [ | exact Hst | exact Hst ].
    unfold distinct_ids. rewrite (map_same_ids id data (notes st) (Hsame data eq_refl)).
    exact Hst.
  - intros now noteId Hsame.
    destruct (find (fun n => String.eqb (UseNotes.id n) noteId) (notes st))
      as [note | ] eqn:Hfind.
    + rewrite (summarizeNote_cases u now noteId st env note Hfind).
      destruct (env _ 0 _) as [[data | err] | err]; cbn; try exact Hst.
      destruct (getProp data "summary") as [summary | err]; cbn; try exact Hst.
      destruct (env _ 1 _) as [[updated | err] | err] eqn:Hreply; cbn; try exact Hst.
      unfold distinct_ids.
      rewrite (map_same_ids noteId updated (notes st) (Hsame summary updated Hreply)).
      exact Hst.
    + rewrite (summarizeNote_unknown _ now noteId st env Hfind). exact Hst.
  - destruct (notes st) as [ | n ns] eqn:Hns.
    + rewrite (summarizeAllNotes_idle _ st env (or_intror Hns)). cbn. rewrite Hns. exact Hst.
    + assert (Hne : notes st <> []) by (rewrite Hns; discriminate).
      rewrite (summarizeAllNotes_run u st env Hne).
      destruct (env _ 0 _) as [[data | err] | err]; cbn; try (rewrite Hns; exact Hst).
      destruct (getProp data "summary"); cbn; rewrite Hns; exact Hst.
Qed.

Lemma distinct_ids_are_kept_witness :
  distinct_ids (notes two_notes) /\
  distinct_ids (notes (after (deleteNote (Some alice) "n-2") two_notes all_well)) /\
  distinct_ids (notes (after (updateNote (Some alice) "2024-05-03T08:00:00.000Z" "n-2"
                                "Groceries" "milk, eggs, bread, tea") two_notes all_well)) /\
  distinct_ids (notes (after (createNote (Some alice) "Groceries" "milk, eggs, bread" None)
                             (mkState [meeting] false []) all_well)).
Proof.
  assert (Htwo : distinct_ids (notes two_notes)).
  { unfold distinct_ids. cbn.
    constructor; [ intros [H | []]; discriminate H | ].
    constructor; [ intros [] | constructor ]. }
  assert (Hone : distinct_ids (notes (mkState [meeting] false []))).
  { unfold distinct_ids. cbn. constructor; [ intros [] | constructor ]. }
  pose proof (distinct_ids_are_kept alice two_notes all_well Htwo) as (Hdel & _ & Hupd & _).
  pose proof (distinct_ids_are_kept alice (mkState [meeting] false []) all_well Hone)
    as (_ & Hcreate & _).
  split; [ exact Htwo | split; [ exact (Hdel "n-2") | split ] ].
  - apply Hupd. intros data [= <-]. reflexivity.
  - apply Hcreate. intros data [= <-]. reflexivity.
Defined.

End HookInvariants.

Section HookComposition.
Import UseNotes Collection Invariants.

(** X12. Creating a note and then deleting it by the id the store gave it, both
    confirmed, brings the collection back to what it was, provided no entry
    already had that id. *)
Theorem create_then_delete_restores
  (u : Auth.User) (st : State) (env1 env2 : Env GatewayE)
  (title content : string) (fileName : option string) (data : Note) :
  env1 _ 0 (Insert title content fileName (Auth.id u)) = Fulfilled (PgData data) ->
  confirmed (env2 _ 0 (Delete (UseNotes.id data))) = true ->
  listed (UseNotes.id data) (notes st) = false ->
  notes (after (deleteNote (Some u) (UseNotes.id data))
               (after (createNote (Some u) title content fileName) st env1) env2) =
  notes st.
Proof.
  intros Hcreate Hdelete Hfresh. unfold after.
  rewrite createNote_run, Hcreate. cbn [fst snd].
  rewrite deleteNote_run.
  destruct (env2 _ 0 _) as [[[] | err] | err]; try discriminate.
  cbn. rewrite String.eqb_refl. cbn.
  apply filter_unlisted. exact Hfresh.
Qed.

Lemma create_then_delete_restores_witness :
  all_well _ 0 (Insert "Groceries" "milk, eggs, bread" None (Auth.id alice)) =
    Fulfilled (PgData groceries) /\
  confirmed (all_well _ 0 (Delete (UseNotes.id groceries))) = true /\
  listed (UseNotes.id groceries) [meeting] = false /\
  notes (after (deleteNote (Some alice) (UseNotes.id groceries))
               (after (createNote (Some alice) "Groceries" "milk, eggs, bread" None)
                      (mkState [meeting] false []) all_well) all_well) = [meeting].
Proof.
  split; [ reflexivity | split; [ reflexivity | split; [ reflexivity | ] ] ].
  exact (create_then_delete_restores alice (mkState [meeting] false []) all_well all_well
           "Groceries" "milk, eggs, bread" None groceries eq_refl eq_refl eq_refl).
Defined.

(** X13. After a confirmed delete no entry with that id is left, and deleting
    the same id again changes nothing, whether or not the store confirms
    the second request. *)
Theorem delete_is_idempotent
  (u : Auth.User) (st : State) (env1 env2 : Env GatewayE) (id : string) :
  confirmed (env1 _ 0 (Delete id)) = true ->
  listed id (notes (after (deleteNote (Some u) id) st env1)) = false /\
  notes (after (deleteNote (Some u) id) (after (deleteNote (Some u) id) st env1) env2) =
  notes (after (deleteNote (Some u) id) st env1).
Proof.
  intro Hfirst. unfold after.
  rewrite (deleteNote_run env1 st u id).
  destruct (env1 _ 0 _) as [[[] | err] | err]; try discriminate.
  cbn [fst snd notes]. split; [ apply filter_listed | ].
  rewrite deleteNote_run.
  destruct (env2 _ 0 _) as [[[] | err] | err]; cbn; try reflexivity.
  apply filter_unlisted. apply filter_listed.
Qed.

Lemma delete_is_idempotent_witness :
  confirmed (all_well _ 0 (Delete "n-2")) = true /\
  notes (after (deleteNote (Some alice) "n-2")
               (after (deleteNote (Some alice) "n-2") two_notes all_well) all_well) =
  [meeting].
Proof.
  split; [ reflexivity | ].
  rewrite (proj2 (delete_is_idempotent alice two_notes all_well all_well "n-2" eq_refl)).
  reflexivity.
Defined.

(** X14. An update or a delete of an id that no entry has leaves the collection
    as it is, whatever the store answers, although the request is still
    sent to the store. *)
Theorem unlisted_id_changes_nothing
  (u : Auth.User) (st : State) (env : Env GatewayE) (id : string) :
  listed id (notes st) = false ->
  (forall now title content,
     notes (after (updateNote (Some u) now id title content) st env) = notes st /\
     gateway_calls (updateNote (Some u) now id title content) st env =
       [existT _ _ (Update (TextPatch title content now) id)]) /\
  notes (after (deleteNote (Some u) id) st env) = notes st /\
  gateway_calls (deleteNote (Some u) id) st env = [existT _ _ (Delete id)].
Proof.
  intro Hun. unfold after, gateway_calls. split; [ | split ].
  - intros now title content. rewrite updateNote_run.
    destruct (env _ 0 _) as [[data | err] | err]; cbn; split; try reflexivity.
    apply map_unlisted. exact Hun.
  - rewrite deleteNote_run.
    destruct (env _ 0 _) as [[data | err] | err]; cbn; try reflexivity.
    apply filter_unlisted. exact Hun.
  - rewrite deleteNote_run.
    destruct (env _ 0 _) as [[data | err] | err]; reflexivity.
Qed.

Lemma unlisted_id_changes_nothing_witness :
  listed "n-9" (notes two_notes) = false /\
  notes (after (deleteNote (Some alice) "n-9") two_notes all_well) = [groceries; meeting] /\
  notes (after (updateNote (Some alice) "2024-05-03T08:00:00.000Z" "n-9" "Tea" "buy tea")
               two_notes all_well) = [groceries; meeting].
Proof.
  pose proof (unlisted_id_changes_nothing alice two_notes all_well "n-9" eq_refl)
    as (Hupd & Hdel & _).
  split; [ reflexivity | split; [ exact Hdel | ] ].
  exact (proj1 (Hupd "2024-05-03T08:00:00.000Z" "Tea" "buy tea")).
Defined.

(** X15. Of two confirmed updates of the same id the later one wins: when the
    first record the store returned has the id that was updated, the
    collection after both is the collection after the second alone. *)
Theorem later_update_wins
  (u : Auth.User) (st : State) (env1 env2 : Env GatewayE)
  (id now1 title1 content1 now2 title2 content2 : string) (data1 data2 : Note) :
  env1 _ 0 (Update (TextPatch title1 content1 now1) id) = Fulfilled (PgData data1) ->
  env2 _ 0 (Update (TextPatch title2 content2 now2) id) = Fulfilled (PgData data2) ->
  UseNotes.id data1 = id ->
  notes (after (updateNote (Some u) now2 id title2 content2)
               (after (updateNote (Some u) now1 id title1 content1) st env1) env2) =
  notes (after (updateNote (Some u) now2 id title2 content2) st env2).
Proof.
  intros H1 H2 Hid. unfold after.
  rewrite (updateNote_run env1 st u now1 id title1 content1), H1. cbn [fst snd].
  rewrite !updateNote_run, H2. cbn [fst snd notes].
  rewrite map_map. apply map_ext. intro n.
  destruct (String.eqb (UseNotes.id n) id) eqn:Hn.
  - rewrite Hid, String.eqb_refl. reflexivity.
  - rewrite Hn. reflexivity.
Qed.

Lemma later_update_wins_witness :
  all_well _ 0 (Update (TextPatch "Groceries" "tea" "2024-05-03T08:00:00.000Z") "n-2") =
    Fulfilled (PgData groceries_edited) /\
  UseNotes.id groceries_edited = "n-2" /\
  notes (after (updateNote (Some alice) "2024-05-03T08:00:00.000Z" "n-2" "Groceries" "tea")
               (after (updateNote (Some alice) "2024-05-03T08:00:00.000Z" "n-2"
                                  "Groceries" "tea") two_notes all_well) all_well) =
  [groceries_edited; meeting].
Proof.
  split; [ reflexivity | split; [ reflexivity | ] ].
  rewrite (later_update_wins alice two_notes all_well all_well "n-2"
             "2024-05-03T08:00:00.000Z" "Groceries" "tea"
             "2024-05-03T08:00:00.000Z" "Groceries" "tea"
             groceries_edited groceries_edited eq_refl eq_refl eq_refl).
  reflexivity.
Defined.

(** X16. The operations, whoever the user is and whatever the gateways answer,
    never touch the loading flag; updating, summarizing one note and
    summarizing all keep the number of entries; deleting never adds an
    entry; creating adds at most one. *)
Theorem mutations_keep_flag_and_bound_size
  (user : option Auth.User) (st : State) (env : Env GatewayE) :
  (forall title content fileName,
     let st' := after (createNote user title content fileName) st env in
     loading st' = loading st /\
     List.length (notes st) <= List.length (notes st') <= S (List.length (notes st))) /\
  (forall now id title content,
     let st' := after (updateNote user now id title content) st env in
     loading st' = loading st /\ List.length (notes st') = List.length (notes st)) /\
  (forall id,
     let st' := after (deleteNote user id) st env in
     loading st' = loading st /\ List.length (notes st') <= List.length (notes st)) /\
  (forall now noteId,
     let st' := after (summarizeNote user now noteId) st env in
     loading st' = loading st /\ List.length (notes st') = List.length (notes st)) /\
  (let st' := after (summarizeAllNotes user) st env in
   loading st' = loading st /\ notes st' = notes st).
Proof.
  unfold after.
  destruct user as [u | ].
  - split; [ | split; [ | split; [ | split ] ] ].
    + intros title content fileName. rewrite createNote_run.
      destruct (env _ 0 _) as [[data | err] | err]; cbn; split; try reflexivity; lia.
    + intros now id title content. rewrite updateNote_run.
      destruct (env _ 0 _) as [[data | err] | err]; cbn; split; try reflexivity.
      apply length_map.
    + intro id. rewrite deleteNote_run.
      destruct (env _ 0 _) as [[data | err] | err]; cbn; split; try reflexivity; try lia.
      apply filter_length_le.
    + intros now noteId.
      destruct (find (fun n => String.eqb (UseNotes.id n) noteId) (notes st))
        as [note | ] eqn:Hfind.
      * rewrite (summarizeNote_cases u now noteId st env note Hfind).
        destruct (env _ 0 _) as [[data | err] | err]; cbn; try (split; reflexivity).
        destruct (getProp data "summary") as [summary | err]; cbn; try (split; reflexivity).
        destruct (env _ 1 _) as [[updated | err] | err]; cbn; split; try reflexivity.
        apply length_map.
      * rewrite (summarizeNote_unknown _ now noteId st env Hfind). split; reflexivity.
    + assert (Hcase : notes st = [] \/ notes st <> []).
      { destruct (notes st); [ left; reflexivity | right; discriminate ]. }
      destruct Hcase as [Hns | Hne].
      * rewrite (summarizeAllNotes_idle _ st env (or_intror Hns)). cbn. split; reflexivity.
      * rewrite (summarizeAllNotes_run u st env Hne).
        destruct (env _ 0 _) as [[data | err] | err]; cbn; try (split; reflexivity).
        destruct (getProp data "summary"); cbn; split; reflexivity.
  - split; [ | split; [ | split; [ | split ] ] ].
    + intros. cbn. split; [ reflexivity | lia ].
    + intros. cbn. split; reflexivity.
    + intros. cbn. split; [ reflexivity | lia ].
    + intros now noteId. unfold run, summarizeNote, bind, get. cbn [bindP].
      destruct (find (fun n => String.eqb (id n) noteId) (notes st)); cbn; split; reflexivity.
    + cbn. split; reflexivity.
Qed.

End HookComposition.

Section HookFeedback.
Import UseNotes Collection Invariants.

(** X17. With a user, [createNote], [updateNote] and [deleteNote] each show
    exactly one toast per call, after the toasts already shown: the success
    toast when the store confirmed the request, the error toast when it
    answered with an error or the request was rejected; and they report
    failure ([null], [false]) exactly when the store did not confirm. *)
Theorem store_mutations_show_one_toast
  (u : Auth.User) (st : State) (env : Env GatewayE) :
  (forall title content fileName,
     let reply := env _ 0 (Insert title content fileName (Auth.id u)) in
     toasts (after (createNote (Some u) title content fileName) st env) =
       (toasts st ++ [if confirmed reply then toast_success "Note created successfully!"
                      else toast_error "Failed to create note"])%list /\
     (outcome (createNote (Some u) title content fileName) st env = Normal None <->
      confirmed reply = false)) /\
  (forall now id title content,
     let reply := env _ 0 (Update (TextPatch title content now) id) in
     toasts (after (updateNote (Some u) now id title content) st env) =
       (toasts st ++ [if confirmed reply then toast_success "Note updated successfully!"
                      else toast_error "Failed to update note"])%list /\
     (outcome (updateNote (Some u) now id title content) st env = Normal None <->
      confirmed reply = false)) /\
  (forall id,
     let reply := env _ 0 (Delete id) in
     toasts (after (deleteNote (Some u) id) st env) =
       (toasts st ++ [if confirmed reply then toast_success "Note deleted successfully!"
                      else toast_error "Failed to delete note"])%list /\
     (outcome (deleteNote (Some u) id) st env = Normal false <->
      confirmed reply = false)).
Proof.
  unfold after, outcome. split; [ | split ].
  - intros title content fileName. cbv zeta. rewrite createNote_run.
    destruct (env _ 0 _) as [[data | err] | err]; cbn; split; try reflexivity;
      split; intro H; try reflexivity; discriminate H.
  - intros now id title content. cbv zeta. rewrite updateNote_run.
    destruct (env _ 0 _) as [[data | err] | err]; cbn; split; try reflexivity;
      split; intro H; try reflexivity; discriminate H.
  - intros id. cbv zeta. rewrite deleteNote_run.
    destruct (env _ 0 _) as [[data | err] | err]; cbn; split; try reflexivity;
      split; intro H; try reflexivity; discriminate H.
Qed.

(** X18. [summarizeAllNotes] shows its success toast as soon as the invocation
    resolves with data, before it reads [data.summary]: when that data is
    [null] or [undefined], the read throws, the error toast follows the
    success toast, and the result is [null]. *)
Theorem summarize_all_toasts_before_reading
  (u : Auth.User) (st : State) (env : Env GatewayE) (data : JsVal) :
  notes st <> [] ->
  env _ 0 (Invoke "summarize-notes"
             (NotesBody (SummarizeNotes.mkPayload (pairs (notes st))))) =
    Fulfilled (FnData data) ->
  data = JNull \/ data = JUndefined ->
  outcome (summarizeAllNotes (Some u)) st env = Normal JNull /\
  toasts (after (summarizeAllNotes (Some u)) st env) =
    (toasts st ++ [ toast_success "All notes summarized successfully!";
                    toast_error "Failed to summarize all notes" ])%list.
Proof.
  intros Hne Hreply Hdata. unfold outcome, after.
  rewrite (summarizeAllNotes_run u st env Hne), Hreply.
  destruct Hdata as [-> | ->]; cbn; rewrite <- app_assoc; split; reflexivity.
Qed.

Lemma summarize_all_toasts_before_reading_witness :
  notes two_notes <> [] /\
  toasts (after (summarizeAllNotes (Some alice)) two_notes
            (world (mkReplies (Rejected store_error) (Rejected store_error)
                              (Rejected store_error) (Rejected store_error)
                              (Fulfilled (FnData JNull))))) =
    [ toast_success "All notes summarized successfully!";
      toast_error "Failed to summarize all notes" ].
Proof.
  assert (Hne : notes two_notes <> []) by discriminate.
  split; [ exact Hne | ].
  exact (proj2 (summarize_all_toasts_before_reading alice two_notes
                  (world (mkReplies (Rejected store_error) (Rejected store_error)
                                    (Rejected store_error) (Rejected store_error)
                                    (Fulfilled (FnData JNull))))
                  JNull Hne eq_refl (or_introl eq_refl))).
Defined.

End HookFeedback.

(** * Properties of the page handlers *)

Section PageRuns.
Import JsText Index.
Variable env : Env UseNotes.GatewayE.
Variable u : Auth.User.
Variable p : Page.

Lemma exec_zoomP {S T R : Type} (put : S -> T)
  (q : Prog UseNotes.GatewayE (Completion R * S)) (n : nat) :
  exec env n (zoomP put q) =
  let '(c, s, tr) := exec env n q in (c, put s, tr).
Proof.
  revert n. induction q as [[c s] | A e k IH]; intro n.
  - reflexivity.
  - cbn. rewrite IH.
    destruct (exec env (Datatypes.S n) (k (env A n e))) as [[c s] tr]. reflexivity.
Qed.

Lemma handleCreateNote_run :
  run (handleCreateNote u) p env =
  if blank (newNoteTitle p) || blank (newNoteContent p) then
    (Normal tt,
     with_hook p (UseNotes.mkState (UseNotes.notes (hook p)) (UseNotes.loading (hook p))
                    (UseNotes.toasts (hook p) ++
                     [UseNotes.toast_error "Please provide both title and content"])%list),
     [])
  else
    match env _ 0 (UseNotes.Insert (newNoteTitle p) (newNoteContent p) None (Auth.id u)) with
    | Fulfilled (UseNotes.PgData data) =>
        (Normal tt,
         mkPage (UseNotes.mkState (data :: UseNotes.notes (hook p))
                   (UseNotes.loading (hook p))
                   (UseNotes.toasts (hook p) ++
                    [UseNotes.toast_success "Note created successfully!"])%list)
                (Some (mkSelected data None)) false (isEditing p) "" ""
                (isLoadingSummary p) (isLoadingBulkSummary p) (summaryModal p),
         [existT _ _ (UseNotes.Insert (newNoteTitle p) (newNoteContent p) None (Auth.id u))])
    | _ =>
        (Normal tt,
         with_hook p (UseNotes.mkState (UseNotes.notes (hook p)) (UseNotes.loading (hook p))
                        (UseNotes.toasts (hook p) ++
                         [UseNotes.toast_error "Failed to create note"])%list),
         [existT _ _ (UseNotes.Insert (newNoteTitle p) (newNoteContent p) None (Auth.id u))])
    end.
Proof.
  unfold run, handleCreateNote, bind at 1, get. cbn [bindP].
  destruct (blank (newNoteTitle p) || blank (newNoteContent p)); [ reflexivity | ].
  unfold bind at 1. rewrite exec_bindP. unfold useNotes. rewrite exec_zoomP.
  change (exec env 0 (UseNotes.createNote (Some u) (newNoteTitle p) (newNoteContent p) None
                        (hook p)))
    with (UseNotes.run (UseNotes.createNote (Some u) (newNoteTitle p) (newNoteContent p) None)
            (hook p) env).
  rewrite createNote_run.
  destruct (env _ 0 _) as [[data | err] | err]; reflexivity.
Qed.

Lemma handleUpdateNote_run (now : string) (sel : Selected) :
  selectedNote p = Some sel ->
  blank (newNoteTitle p) || blank (newNoteContent p) = false ->
  run (handleUpdateNote u now) p env =
  match env _ 0 (UseNotes.Update
                   (UseNotes.TextPatch (newNoteTitle p) (newNoteContent p) now)
                   (UseNotes.id (note sel))) with
  | Fulfilled (UseNotes.PgData data) =>
      (Normal tt,
       mkPage (UseNotes.mkState
                 (map (fun n => if String.eqb (UseNotes.id n) (UseNotes.id (note sel))
                                then data else n) (UseNotes.notes (hook p)))
                 (UseNotes.loading (hook p))
                 (UseNotes.toasts (hook p) ++
                  [UseNotes.toast_success "Note updated successfully!"])%list)
              (Some (mkSelected data None)) (isCreating p) false "" ""
              (isLoadingSummary p) (isLoadingBulkSummary p) (summaryModal p),
       [existT _ _ (UseNotes.Update
                      (UseNotes.TextPatch (newNoteTitle p) (newNoteContent p) now)
                      (UseNotes.id (note sel)))])
  | _ =>
      (Normal tt,
       with_hook p (UseNotes.mkState (UseNotes.notes (hook p)) (UseNotes.loading (hook p))
                      (UseNotes.toasts (hook p) ++
                       [UseNotes.toast_error "Failed to update note"])%list),
       [existT _ _ (UseNotes.Update
                      (UseNotes.TextPatch (newNoteTitle p) (newNoteContent p) now)
                      (UseNotes.id (note sel)))])
  end.
Proof.
  intros Hsel Hblank.
  unfold run, handleUpdateNote, bind at 1, get. cbn [bindP].
  rewrite Hsel, Hblank.
  unfold bind at 1. rewrite exec_bindP. unfold useNotes. rewrite exec_zoomP.
  change (exec env 0 (UseNotes.updateNote (Some u) now (UseNotes.id (note sel))
                        (newNoteTitle p) (newNoteContent p) (hook p)))
    with (UseNotes.run (UseNotes.updateNote (Some u) now (UseNotes.id (note sel))
                          (newNoteTitle p) (newNoteContent p)) (hook p) env).
  rewrite updateNote_run.
  destruct (env _ 0 _) as [[data | err] | err]; reflexivity.
Qed.

Lemma handleDeleteNote_run (noteId : string) :
  run (handleDeleteNote u noteId) p env =
  match env _ 0 (UseNotes.Delete noteId) with
  | Fulfilled (UseNotes.PgData _) =>
      (Normal tt,
       mkPage (UseNotes.mkState
                 (filter (fun n => negb (String.eqb (UseNotes.id n) noteId))
                         (UseNotes.notes (hook p)))
                 (UseNotes.loading (hook p))
                 (UseNotes.toasts (hook p) ++
                  [UseNotes.toast_success "Note deleted successfully!"])%list)
              (if selected_is (selectedNote p) noteId then
                 if Nat.ltb 1 (List.length (UseNotes.notes (hook p))) then
                   match find (fun n => negb (String.eqb (UseNotes.id n) noteId))
                              (UseNotes.notes (hook p)) with
                   | Some n => Some (mkSelected n None)
                   | None => None
                   end
                 else None
               else selectedNote p)
              (isCreating p) (isEditing p) (newNoteTitle p) (newNoteContent p)
              (isLoadingSummary p) (isLoadingBulkSummary p) (summaryModal p),
       [existT _ _ (UseNotes.Delete noteId)])
  | _ =>
      (Normal tt,
       with_hook p (UseNotes.mkState (UseNotes.notes (hook p)) (UseNotes.loading (hook p))
                      (UseNotes.toasts (hook p) ++
                       [UseNotes.toast_error "Failed to delete note"])%list),
       [existT _ _ (UseNotes.Delete noteId)])
  end.
Proof.
  unfold run, handleDeleteNote, bind at 1, get. cbn [bindP].
  unfold bind at 1. rewrite exec_bindP. unfold useNotes. rewrite exec_zoomP.
  change (exec env 0 (UseNotes.deleteNote (Some u) noteId (hook p)))
    with (UseNotes.run (UseNotes.deleteNote (Some u) noteId) (hook p) env).
  rewrite deleteNote_run.
  destruct (env _ 0 _) as [[data | err] | err]; try reflexivity.
  cbn [andb]. destruct (selected_is (selectedNote p) noteId); reflexivity.
Qed.

End PageRuns.

Section FinallyFacts.
Context {E : Type -> Type} {S : Type}.
Variable env : Env E.

(** Running [try { p } finally { fin }]: [fin] runs in the state [p] left. *)
Lemma exec_finallyP {R} (p : Prog E (Completion R * S)) (fin : M E S unit) (n : nat) :
  exec env n (finallyP p fin) =
  let '(c, s, tr) := exec env n p in
  let '(res, tr') :=
    exec env (n + List.length tr) (bindP (fin s) (fun _ s' => Ret (c, s'))) in
  (res, (tr ++ tr')%list).
Proof.
  revert n. induction p as [[c s] | A e k IH]; intro n.
  - cbn. rewrite Nat.add_0_r.
    destruct (exec env n (bindP (fin s) (fun _ s' => Ret (c, s')))). reflexivity.
  - cbn. rewrite IH.
    destruct (exec env (Datatypes.S n) (k (env A n e))) as [[c s] tr].
    cbn [List.length]. rewrite Nat.add_succ_r. cbn [Nat.add].
    destruct (exec env (Datatypes.S (n + List.length tr))
                (bindP (fin s) (fun _ s' => Ret (c, s')))). reflexivity.
Qed.

End FinallyFacts.

Section PageSummaries.
Import JsText Index.
Variable env : Env UseNotes.GatewayE.
Variable u : Auth.User.

(** The hook's functions, called from the page, resolve with the result
    they have on the hook's state and change nothing else of the page. *)
Lemma useNotes_run {R : Type} (op : UseNotes.Op R) (p : Page) (r : R) :
  UseNotes.outcome op (hook p) env = Normal r ->
  exec env 0 (useNotes op p) =
  (Normal r, with_hook p (UseNotes.after op (hook p) env),
   UseNotes.gateway_calls op (hook p) env).
Proof.
  unfold UseNotes.outcome, UseNotes.after, UseNotes.gateway_calls, UseNotes.run.
  intro H. unfold useNotes. rewrite exec_zoomP.
  destruct (exec env 0 (op (hook p))) as [[c s] tr]. cbn in H. subst c. reflexivity.
Qed.

Lemma handleBulkSummarize_run (p : Page) (v : JsVal) :
  UseNotes.outcome (UseNotes.summarizeAllNotes (Some u)) (hook p) env = Normal v ->
  run (handleBulkSummarize u) p env =
  (Normal tt,
   mkPage (UseNotes.after (UseNotes.summarizeAllNotes (Some u)) (hook p) env)
          (selectedNote p) (isCreating p) (isEditing p) (newNoteTitle p) (newNoteContent p)
          (isLoadingSummary p) false
          (if truthy v then mkModal true "Summary of All Notes" v else summaryModal p),
   UseNotes.gateway_calls (UseNotes.summarizeAllNotes (Some u)) (hook p) env).
Proof.
  intro Hv.
  unfold run, handleBulkSummarize, setIsLoadingBulkSummary, bind at 1, modify.
  cbn [bindP]. unfold try_finally. rewrite exec_finallyP.
  unfold bind at 1. rewrite exec_bindP.
  rewrite (useNotes_run (UseNotes.summarizeAllNotes (Some u))
             (mkPage (hook p) (selectedNote p) (isCreating p) (isEditing p)
                     (newNoteTitle p) (newNoteContent p) (isLoadingSummary p) true
                     (summaryModal p)) v Hv).
  cbn [hook]. destruct (truthy v); cbn; rewrite !app_nil_r; reflexivity.
Qed.

Lemma handleSummarizeNote_run (p : Page) (now noteId : string) (v : JsVal) :
  UseNotes.outcome (UseNotes.summarizeNote (Some u) now noteId) (hook p) env = Normal v ->
  run (handleSummarizeNote u now noteId) p env =
  (Normal tt,
   mkPage (UseNotes.after (UseNotes.summarizeNote (Some u) now noteId) (hook p) env)
          (if truthy v && selected_is (selectedNote p) noteId then
             match selectedNote p with
             | Some s => Some (mkSelected (note s) (Some v))
             | None => None
             end
           else selectedNote p)
          (isCreating p) (isEditing p) (newNoteTitle p) (newNoteContent p)
          false (isLoadingBulkSummary p)
          (if truthy v && selected_is (selectedNote p) noteId then
             mkModal true
               ("Summary: " ++ match selectedNote p with
                               | Some s => UseNotes.title (note s)
                               | None => "undefined"
                               end) v
           else summaryModal p),
   UseNotes.gateway_calls (UseNotes.summarizeNote (Some u) now noteId) (hook p) env).
Proof.
  intro Hv.
  unfold run, handleSummarizeNote, bind at 1, get. cbn [bindP].
  unfold setIsLoadingSummary at 1, bind at 1, modify. cbn [bindP].
  unfold try_finally. rewrite exec_finallyP.
  unfold bind at 1. rewrite exec_bindP.
  rewrite (useNotes_run (UseNotes.summarizeNote (Some u) now noteId)
             (mkPage (hook p) (selectedNote p) (isCreating p) (isEditing p)
                     (newNoteTitle p) (newNoteContent p) true (isLoadingBulkSummary p)
                     (summaryModal p)) v Hv).
  cbn [hook selectedNote].
  destruct (truthy v && selected_is (selectedNote p) noteId); cbn; rewrite !app_nil_r;
    reflexivity.
Qed.

End PageSummaries.

Section PageDrafts.
Import JsText Index.

(** X19. A draft whose title or content is empty or white space only is not
    sent: [handleCreateNote] and [handleUpdateNote] make no gateway call and
    change nothing but the toasts, to which they add the error toast.
    [handleUpdateNote] does the same when no note is selected. *)
Theorem blank_draft_is_not_sent (u : Auth.User) (p : Page) (env : Env UseNotes.GatewayE) :
  let refused :=
    (Normal tt,
     with_hook p (UseNotes.mkState (UseNotes.notes (hook p)) (UseNotes.loading (hook p))
                    (UseNotes.toasts (hook p) ++
                     [UseNotes.toast_error "Please provide both title and content"])%list),
     @nil (Event UseNotes.GatewayE)) in
  (blank (newNoteTitle p) = true \/ blank (newNoteContent p) = true ->
   run (handleCreateNote u) p env = refused /\
   forall now, run (handleUpdateNote u now) p env = refused) /\
  (selectedNote p = None -> forall now, run (handleUpdateNote u now) p env = refused).
Proof.
  cbv zeta. split.
  - intro Hblank.
    assert (H : blank (newNoteTitle p) || blank (newNoteContent p) = true).
    { apply orb_true_iff. exact Hblank. }
    split.
    + rewrite handleCreateNote_run, H. reflexivity.
    + intro now. unfold run, handleUpdateNote, bind, get. cbn [bindP].
      rewrite H. destruct (selectedNote p); reflexivity.
  - intros Hsel now. unfold run, handleUpdateNote, bind, get. cbn [bindP].
    rewrite Hsel. reflexivity.
Qed.

Lemma blank_draft_is_not_sent_witness :
  blank (newNoteTitle (mkPage Collection.two_notes None true false "  " "buy tea"
                              false false (mkModal false "" (JStr "")))) = true /\
  gateway_calls (handleCreateNote Collection.alice)
    (mkPage Collection.two_notes None true false "  " "buy tea"
            false false (mkModal false "" (JStr ""))) Collection.all_well = [].
Proof.
  split; [ reflexivity | ].
  unfold gateway_calls.
  rewrite (proj1 (proj1 (blank_draft_is_not_sent Collection.alice
                           (mkPage Collection.two_notes None true false "  " "buy tea"
                                   false false (mkModal false "" (JStr "")))
                           Collection.all_well) (or_introl eq_refl))).
  reflexivity.
Defined.

(** X20. When the store does not confirm, the draft survives: after
    [handleCreateNote] or [handleUpdateNote] the title and content fields,
    the creating and editing flags and the selection are what they were.
    When the store confirms, the fields are emptied, the form is closed and
    the record the store returned becomes the selection. *)
Theorem draft_survives_a_failed_save
  (u : Auth.User) (p : Page) (env : Env UseNotes.GatewayE) :
  blank (newNoteTitle p) || blank (newNoteContent p) = false ->
  (let p' := after (handleCreateNote u) p env in
   let reply := env _ 0 (UseNotes.Insert (newNoteTitle p) (newNoteContent p) None
                                          (Auth.id u)) in
   (Collection.confirmed reply = false ->
    newNoteTitle p' = newNoteTitle p /\ newNoteContent p' = newNoteContent p /\
    isCreating p' = isCreating p /\ selectedNote p' = selectedNote p) /\
   (forall data, reply = Fulfilled (UseNotes.PgData data) ->
    newNoteTitle p' = "" /\ newNoteContent p' = "" /\ isCreating p' = false /\
    selectedNote p' = Some (mkSelected data None))) /\
  (forall now sel,
   selectedNote p = Some sel ->
   let p' := after (handleUpdateNote u now) p env in
   let reply := env _ 0 (UseNotes.Update
                           (UseNotes.TextPatch (newNoteTitle p) (newNoteContent p) now)
                           (UseNotes.id (note sel))) in
   (Collection.confirmed reply = false ->
    newNoteTitle p' = newNoteTitle p /\ newNoteContent p' = newNoteContent p /\
    isEditing p' = isEditing p /\ selectedNote p' = selectedNote p) /\
   (forall data, reply = Fulfilled (UseNotes.PgData data) ->
    newNoteTitle p' = "" /\ newNoteContent p' = "" /\ isEditing p' = false /\
    selectedNote p' = Some (mkSelected data None))).
Proof.
  intro Hdraft. cbv zeta. unfold after. split.
  - rewrite handleCreateNote_run, Hdraft. split.
    + intro Hreply.
      destruct (env _ 0 _) as [[data | err] | err]; [ discriminate | | ];
        cbn; repeat split.
    + intros data ->. cbn. repeat split.
  - intros now sel Hsel. rewrite (handleUpdateNote_run env u p now sel Hsel Hdraft). split.
    + intro Hreply.
      destruct (env _ 0 _) as [[data | err] | err]; [ discriminate | | ];
        cbn; repeat split.
    + intros data ->. cbn. repeat split.
Qed.

Lemma draft_survives_a_failed_save_witness :
  blank (newNoteTitle sample) || blank (newNoteContent sample) = false /\
  Collection.confirmed
    (Collection.store_down _ 0
       (UseNotes.Insert (newNoteTitle sample) (newNoteContent sample) None
                        (Auth.id Collection.alice))) = false /\
  newNoteTitle (after (handleCreateNote Collection.alice) sample Collection.store_down) =
    "Tea" /\
  newNoteContent (after (handleCreateNote Collection.alice) sample Collection.store_down) =
    "buy tea".
Proof.
  pose proof (proj1 (draft_survives_a_failed_save Collection.alice sample
                       Collection.store_down eq_refl)) as [Hfail _].
  split; [ reflexivity | split; [ reflexivity | ] ].
  destruct (Hfail eq_refl) as (Ht & Hc & _).
  split; [ exact Ht | exact Hc ].
Defined.

End PageDrafts.

Section PageSelection.
Import JsText Index.

Lemma find_other_listed (noteId : string) (ns : list UseNotes.Note) (n : UseNotes.Note) :
  find (fun m => negb (String.eqb (UseNotes.id m) noteId)) ns = Some n ->
  In n (filter (fun m => negb (String.eqb (UseNotes.id m) noteId)) ns).
Proof.
  intro H. apply find_some in H. apply filter_In. exact H.
Qed.

(** X21. The selection keeps pointing into the collection. If, before
    [handleCreateNote], [handleUpdateNote] or [handleDeleteNote], the
    selected note (when there is one) has the id of some entry, then so it
    has afterwards, whatever the store answers. And after a confirmed
    [handleDeleteNote] the selection never has the deleted id. *)
Theorem selection_stays_listed
  (u : Auth.User) (p : Page) (env : Env UseNotes.GatewayE) :
  selection_listed p ->
  selection_listed (after (handleCreateNote u) p env) /\
  (forall now, selection_listed (after (handleUpdateNote u now) p env)) /\
  (forall noteId,
     selection_listed (after (handleDeleteNote u noteId) p env) /\
     (Collection.confirmed (env _ 0 (UseNotes.Delete noteId)) = true ->
      selected_is (selectedNote (after (handleDeleteNote u noteId) p env)) noteId = false)).
Proof.
  intro Hp. unfold after. split; [ | split ].
  - rewrite handleCreateNote_run.
    destruct (blank (newNoteTitle p) || blank (newNoteContent p)); [ exact Hp | ].
    destruct (env _ 0 _) as [[data | err] | err]; [ | exact Hp | exact Hp ].
    unfold selection_listed. cbn. exists data. split; [ left; reflexivity | reflexivity ].
  - intro now. unfold run, handleUpdateNote, bind at 1, get. cbn [bindP].
    destruct (selectedNote p) as [sel | ] eqn:Hsel.
    + destruct (blank (newNoteTitle p) || blank (newNoteContent p)) eqn:Hdraft.
      * unfold selection_listed in *. cbn. rewrite Hsel in *. exact Hp.
      * pose proof (handleUpdateNote_run env u p now sel Hsel Hdraft) as Hrun.
        unfold run, handleUpdateNote, bind at 1, get in Hrun. cbn [bindP] in Hrun.
        rewrite Hsel, Hdraft in Hrun. rewrite Hrun. clear Hrun.
        destruct (env _ 0 _) as [[data | err] | err].
        -- unfold selection_listed in *. rewrite Hsel in Hp. cbn.
           destruct Hp as (n & Hin & Hid).
           exists data. split; [ | reflexivity ].
           apply in_map_iff. exists n. split; [ | exact Hin ].
           rewrite Hid, String.eqb_refl. reflexivity.
        -- unfold selection_listed in *. cbn. rewrite Hsel in *. exact Hp.
        -- unfold selection_listed in *. cbn. rewrite Hsel in *. exact Hp.
    + unfold selection_listed. cbn. rewrite Hsel. exact I.
  - intro noteId. rewrite handleDeleteNote_run.
    destruct (env _ 0 _) as [[data | err] | err]; cbn [fst snd].
    + unfold selection_listed in *. cbn [selectedNote hook UseNotes.notes].
      destruct (selected_is (selectedNote p) noteId) eqn:Hsel.
      * destruct (Nat.ltb 1 (List.length (UseNotes.notes (hook p)))).
        -- destruct (find (fun n => negb (String.eqb (UseNotes.id n) noteId))
                          (UseNotes.notes (hook p))) as [n | ] eqn:Hfind.
           ++ split.
              ** exists n. split; [ exact (find_other_listed _ _ _ Hfind) | reflexivity ].
              ** intros _. cbn. apply find_some in Hfind.
                 destruct Hfind as [_ Hne]. apply negb_true_iff in Hne. exact Hne.
           ++ split; [ exact I | reflexivity ].
        -- split; [ exact I | reflexivity ].
      * split; [ | intros _; exact Hsel ].
        destruct (selectedNote p) as [sel | ]; [ | exact I ].
        destruct Hp as (n & Hin & Hid). exists n. split; [ | exact Hid ].
        apply filter_In. split; [ exact Hin | ].
        cbn in Hsel. rewrite Hid, Hsel. reflexivity.
    + split; [ | discriminate ].
      unfold selection_listed in *. cbn. exact Hp.
    + split; [ | discriminate ].
      unfold selection_listed in *. cbn. exact Hp.
Qed.

Lemma selection_stays_listed_witness :
  selection_listed sample /\
  selectedNote (after (handleDeleteNote Collection.alice "n-2") sample Collection.all_well) =
    Some (mkSelected Collection.meeting None) /\
  selection_listed (after (handleDeleteNote Collection.alice "n-2") sample Collection.all_well).
Proof.
  assert (Hsample : selection_listed sample).
  { exists Collection.groceries. split; [ left; reflexivity | reflexivity ]. }
  split; [ exact Hsample | split; [ reflexivity | ] ].
  exact (proj1 (proj2 (proj2 (selection_stays_listed Collection.alice sample
                                Collection.all_well Hsample)) "n-2")).
Defined.

End PageSelection.

Section PageFlags.
Import JsText Index.

(** X22. [handleSummarizeNote] and [handleBulkSummarize] end with their loading
    flag cleared, whatever the gateways answer and whatever the flag was;
    they open the summary modal exactly when the hook returned a truthy
    summary (and, for one note, that note is the selected one), showing
    that summary; otherwise, in particular for [null] and for an empty
    summary, the modal stays as it was. *)
Theorem summaries_clear_flag_and_open_modal
  (u : Auth.User) (p : Page) (env : Env UseNotes.GatewayE) :
  (isLoadingBulkSummary (after (handleBulkSummarize u) p env) = false /\
   forall v,
     UseNotes.outcome (UseNotes.summarizeAllNotes (Some u)) (hook p) env = Normal v ->
     summaryModal (after (handleBulkSummarize u) p env) =
       if truthy v then mkModal true "Summary of All Notes" v else summaryModal p) /\
  (forall now noteId,
     isLoadingSummary (after (handleSummarizeNote u now noteId) p env) = false /\
     forall v,
       UseNotes.outcome (UseNotes.summarizeNote (Some u) now noteId) (hook p) env =
         Normal v ->
       summaryModal (after (handleSummarizeNote u now noteId) p env) =
         if truthy v && selected_is (selectedNote p) noteId then
           mkModal true
             ("Summary: " ++ match selectedNote p with
                             | Some s => UseNotes.title (note s)
                             | None => "undefined"
                             end) v
         else summaryModal p).
Proof.
  unfold after. split.
  - destruct (summarizeAllNotes_resolves (Some u) (hook p) env) as [v0 Hv0].
    split.
    + rewrite (handleBulkSummarize_run env u p v0 Hv0). reflexivity.
    + intros v Hv. rewrite (handleBulkSummarize_run env u p v Hv). reflexivity.
  - intros now noteId.
    destruct (summarizeNote_resolves (Some u) now noteId (hook p) env) as [v0 Hv0].
    split.
    + rewrite (handleSummarizeNote_run env u p now noteId v0 Hv0). reflexivity.
    + intros v Hv. rewrite (handleSummarizeNote_run env u p now noteId v Hv). reflexivity.
Qed.

Lemma summaries_clear_flag_and_open_modal_witness :
  UseNotes.outcome (UseNotes.summarizeAllNotes (Some Collection.alice)) (hook sample)
    Collection.all_well = Normal (JStr "Two notes.") /\
  summaryModal (after (handleBulkSummarize Collection.alice) sample Collection.all_well) =
    mkModal true "Summary of All Notes" (JStr "Two notes.").
Proof.
  split; [ reflexivity | ].
  exact (proj2 (proj1 (summaries_clear_flag_and_open_modal Collection.alice sample
                         Collection.all_well)) (JStr "Two notes.") eq_refl).
Defined.

End PageFlags.

Section PageBrowserInput.
Import JsText Index.

Lemma substring_all (s : string) : String.substring 0 (String.length s) s = s.
Proof. induction s as [ | c s IH]; cbn; [ reflexivity | rewrite IH; reflexivity ]. Qed.

Lemma prefix_split (pattern : string) :
  forall s : string, String.prefix pattern s = true -> exists rest, s = pattern ++ rest.
Proof.
  induction pattern as [ | a pattern IH]; intros s H.
  - exists s. reflexivity.
  - destruct s as [ | b s]; [ discriminate H | ].
    cbn in H. destruct (ascii_dec a b) as [<- | Hne]; [ | discriminate H ].
    destruct (IH s H) as [rest ->]. exists rest. reflexivity.
Qed.

Lemma prefix_append (pattern rest : string) : String.prefix pattern (pattern ++ rest) = true.
Proof.
  induction pattern as [ | a pattern IH].
  - destruct rest; reflexivity.
  - cbn. destruct (ascii_dec a a) as [_ | Hne]; [ exact IH | destruct (Hne eq_refl) ].
Qed.

Lemma substring_after (pattern rest : string) :
  String.substring (String.length pattern)
    (String.length (pattern ++ rest) - String.length pattern) (pattern ++ rest) = rest.
Proof.
  induction pattern as [ | a pattern IH].
  - cbn. rewrite Nat.sub_0_r. apply substring_all.
  - cbn. exact IH.
Qed.

(** [replace] removes the occurrence of the pattern that starts first. *)
Lemma replace_first (pattern : string) (pre : string) :
  forall post : string,
  (forall pre' post', pre ++ pattern ++ post = pre' ++ pattern ++ post' ->
                      String.length pre <= String.length pre') ->
  replace pattern "" (pre ++ pattern ++ post) = pre ++ post.
Proof.
  induction pre as [ | c pre IH]; intros post Hfirst.
  - cbn [append]. destruct (pattern ++ post) as [ | c s] eqn:Hs.
    + destruct pattern; [ | discriminate Hs ]. cbn in Hs. subst post. reflexivity.
    + cbn [replace]. rewrite <- Hs. rewrite prefix_append.
      cbn [append]. apply substring_after.
  - cbn [append replace].
    destruct (String.prefix pattern (String c (pre ++ pattern ++ post))) eqn:Hp.
    + destruct (prefix_split _ _ Hp) as [rest Hrest].
      pose proof (Hfirst "" rest Hrest) as Hle. cbn in Hle. lia.
    + f_equal. apply IH. intros pre' post' H.
      assert (Hle : String.length (String c pre) <= String.length (String c pre')).
      { apply (Hfirst (String c pre') post'). cbn [append]. rewrite H. reflexivity. }
      cbn in Hle. lia.
Qed.

(** [replace] leaves a text without the pattern as it is. *)
Lemma replace_absent (pattern : string) (s : string) :
  (forall pre post, s <> pre ++ pattern ++ post) ->
  replace pattern "" s = s.
Proof.
  induction s as [ | c s IH]; intro Habsent.
  - cbn [replace]. destruct (String.prefix pattern "") eqn:Hp; [ | reflexivity ].
    destruct (prefix_split _ _ Hp) as [rest Hrest].
    destruct (Habsent "" rest Hrest).
  - cbn [replace]. destruct (String.prefix pattern (String c s)) eqn:Hp.
    + destruct (prefix_split _ _ Hp) as [rest Hrest].
      destruct (Habsent "" rest Hrest).
    + f_equal. apply IH. intros pre post H.
      apply (Habsent (String c pre) post). cbn [append]. rewrite H. reflexivity.
Qed.

(** X23. Upload and paste only fill the draft. [handleFileUpload] reads a file
    only when there is one and its type is [text/plain]; otherwise it shows
    the error toast and reads nothing. When the read delivers the text, the
    draft gets that text as content and the file name without its first
    [.txt] as title, and the form opens; when the read fails nothing
    changes. [handlePasteContent] does the same with the clipboard text and
    a dated title, does nothing at all for an empty clipboard, and shows
    the error toast when the clipboard cannot be read. In no case is the
    collection or the selection touched. *)
Theorem browser_input_only_fills_the_draft (p : Page) (env : Env BrowserE) :
  (exec env 0 (handleFileUpload None p) =
     (Normal tt, with_toast p (UseNotes.toast_error "Please upload a text file (.txt)"), [])) /\
  (forall f,
     String.eqb (type f) "text/plain" = false ->
     exec env 0 (handleFileUpload (Some f) p) =
       (Normal tt, with_toast p (UseNotes.toast_error "Please upload a text file (.txt)"),
        [])) /\
  (forall f,
     String.eqb (type f) "text/plain" = true ->
     exec env 0 (handleFileUpload (Some f) p) =
       (Normal tt,
        match env _ 0 (ReadAsText f) with
        | Fulfilled content => with_draft p (replace ".txt" "" (name f)) content
        | Rejected _ => p
        end,
        [existT _ _ (ReadAsText f)])) /\
  (forall stamp,
     exec env 0 (handlePasteContent stamp p) =
       (Normal tt,
        match env _ 0 ClipboardReadText with
        | Fulfilled text =>
            if String.eqb text "" then p
            else with_draft p ("Pasted Content - " ++ stamp) text
        | Rejected _ =>
            with_toast p
              (UseNotes.toast_error "Failed to read clipboard. Please paste manually.")
        end,
        [existT _ _ ClipboardReadText])).
Proof.
  split; [ reflexivity | split; [ | split ] ].
  - intros f Htype. unfold handleFileUpload. rewrite Htype. reflexivity.
  - intros f Htype. unfold handleFileUpload. rewrite Htype. cbn.
    destruct (env _ 0 (ReadAsText f)) as [content | err]; reflexivity.
  - intro stamp. unfold handlePasteContent, try_catch, bind, await. cbn.
    destruct (env _ 0 ClipboardReadText) as [text | err]; [ | reflexivity ].
    cbn. destruct (String.eqb text ""); reflexivity.
Qed.

Lemma browser_input_only_fills_the_draft_witness :
  String.eqb (type (mkFile "notes.txt" "text/plain")) "text/plain" = true /\
  String.eqb (type (mkFile "photo.png" "image/png")) "text/plain" = false /\
  exec (browser (Fulfilled "milk") (Fulfilled "")) 0
       (handleFileUpload (Some (mkFile "notes.txt" "text/plain")) sample) =
    (Normal tt, with_draft sample "notes" "milk",
     [existT _ _ (ReadAsText (mkFile "notes.txt" "text/plain"))]) /\
  exec (browser (Fulfilled "milk") (Fulfilled "")) 0
       (handleFileUpload (Some (mkFile "photo.png" "image/png")) sample) =
    (Normal tt, with_toast sample (UseNotes.toast_error "Please upload a text file (.txt)"),
     []).
Proof.
  pose proof (browser_input_only_fills_the_draft sample
                (browser (Fulfilled "milk") (Fulfilled ""))) as (_ & Hother & Htext & _).
  split; [ reflexivity | split; [ reflexivity | split ] ].
  - exact (Htext (mkFile "notes.txt" "text/plain") eq_refl).
  - exact (Hother (mkFile "photo.png" "image/png") eq_refl).
Defined.

(** X24. The title an upload gives the draft is the file name with its first
    [.txt] removed, wherever that is: when the name is [pre.txt post] and no
    [.txt] starts earlier in it, the title is [pre] followed by [post], so a
    dot before it, a second [.txt] or another suffix after it all stay; a
    name in which [.txt] does not occur is taken as it is. *)
Theorem upload_title_drops_first_txt
  (p : Page) (env : Env BrowserE) (f : File) (content : string) :
  String.eqb (type f) "text/plain" = true ->
  env _ 0 (ReadAsText f) = Fulfilled content ->
  (forall pre post : string,
     name f = pre ++ ".txt" ++ post ->
     (forall pre' post' : string,
        name f = pre' ++ ".txt" ++ post' -> String.length pre <= String.length pre') ->
     newNoteTitle (snd (fst (exec env 0 (handleFileUpload (Some f) p)))) = pre ++ post) /\
  ((forall pre post : string, name f <> pre ++ ".txt" ++ post) ->
   newNoteTitle (snd (fst (exec env 0 (handleFileUpload (Some f) p)))) = name f).
Proof.
  intros Htype Hread.
  unfold handleFileUpload. rewrite Htype. cbn [exec]. rewrite Hread.
  change (newNoteTitle (snd (fst (exec env 1
            ((setNewNoteContent content ;;
              setNewNoteTitle (replace ".txt" "" (name f)) ;;
              setIsCreating true)%async p)))))
    with (replace ".txt" "" (name f)).
  split.
  - intros pre post Hname Hfirst. rewrite Hname. apply replace_first.
    rewrite <- Hname. exact Hfirst.
  - intro Habsent. apply replace_absent. exact Habsent.
Qed.

Lemma upload_title_drops_first_txt_witness :
  String.eqb (type (mkFile "my.notes.txt.txt" "text/plain")) "text/plain" = true /\
  newNoteTitle (snd (fst (exec (browser (Fulfilled "milk") (Fulfilled "")) 0
                            (handleFileUpload (Some (mkFile "my.notes.txt.txt" "text/plain"))
                                              sample)))) = "my.notes.txt" /\
  newNoteTitle (snd (fst (exec (browser (Fulfilled "milk") (Fulfilled "")) 0
                            (handleFileUpload (Some (mkFile "a.b" "text/plain"))
                                              sample)))) = "a.b".
Proof.
  split; [ reflexivity | split ].
  - apply (proj1 (upload_title_drops_first_txt sample
                    (browser (Fulfilled "milk") (Fulfilled ""))
                    (mkFile "my.notes.txt.txt" "text/plain") "milk" eq_refl eq_refl)
             "my.notes" ".txt" eq_refl).
    intros pre' post' H. cbn [name] in H.
    do 8 (destruct pre' as [ | ? pre']; [ discriminate H | injection H as _ H ]).
    cbn. lia.
  - apply (proj2 (upload_title_drops_first_txt sample
                    (browser (Fulfilled "milk") (Fulfilled ""))
                    (mkFile "a.b" "text/plain") "milk" eq_refl eq_refl)).
    intros pre post H. cbn [name] in H.
    do 3 (destruct pre as [ | ? pre]; [ discriminate H | injection H as _ H ]).
    destruct pre; discriminate H.
Defined.

End PageBrowserInput.

Section PageEdit.
Import JsText Index.

(** X25. [startEdit] opens the editor on the selected note, whatever that
    note holds: the draft is that note's title and content, the selection
    stays, and no gateway call is made. A save made without touching the
    draft asks the store, once, to update that note's id with that title
    and content when neither is blank, and asks nothing when one of them
    is blank; so it never names another id. Without a selection
    [startEdit] does nothing. *)
Theorem edit_then_save_targets_the_selection
  (u : Auth.User) (p : Page) (env env' : Env UseNotes.GatewayE) :
  (selectedNote p = None -> run startEdit p env = (Normal tt, p, [])) /\
  (forall sel now,
     selectedNote p = Some sel ->
     let editing := after startEdit p env in
     let save :=
       existT _ _ (UseNotes.Update
                     (UseNotes.TextPatch (UseNotes.title (note sel))
                                         (UseNotes.content (note sel)) now)
                     (UseNotes.id (note sel))) in
     isEditing editing = true /\
     newNoteTitle editing = UseNotes.title (note sel) /\
     newNoteContent editing = UseNotes.content (note sel) /\
     selectedNote editing = Some sel /\
     gateway_calls startEdit p env = [] /\
     (blank (UseNotes.title (note sel)) || blank (UseNotes.content (note sel)) = false ->
      gateway_calls (handleUpdateNote u now) editing env' = [save]) /\
     (blank (UseNotes.title (note sel)) || blank (UseNotes.content (note sel)) = true ->
      gateway_calls (handleUpdateNote u now) editing env' = []) /\
     (forall ev, In ev (gateway_calls (handleUpdateNote u now) editing env') -> ev = save)).
Proof.
  split.
  - intro Hsel. unfold run, startEdit, bind, get. cbn [bindP]. rewrite Hsel. reflexivity.
  - intros sel now Hsel. cbv zeta.
    assert (Hedit : run startEdit p env =
                    (Normal tt,
                     mkPage (hook p) (Some sel) (isCreating p) true
                            (UseNotes.title (note sel)) (UseNotes.content (note sel))
                            (isLoadingSummary p) (isLoadingBulkSummary p) (summaryModal p),
                     [])).
    { unfold run, startEdit, bind, get. cbn [bindP]. rewrite Hsel. cbn.
      rewrite Hsel. reflexivity. }
    unfold after, gateway_calls. rewrite Hedit. cbn [fst snd].
    assert (Hsent : blank (UseNotes.title (note sel)) ||
                    blank (UseNotes.content (note sel)) = false ->
                    snd (run (handleUpdateNote u now)
                           (mkPage (hook p) (Some sel) (isCreating p) true
                              (UseNotes.title (note sel)) (UseNotes.content (note sel))
                              (isLoadingSummary p) (isLoadingBulkSummary p)
                              (summaryModal p)) env') =
                    [existT _ _ (UseNotes.Update
                                   (UseNotes.TextPatch (UseNotes.title (note sel))
                                                       (UseNotes.content (note sel)) now)
                                   (UseNotes.id (note sel)))]).
    { intro Hdraft.
      rewrite (handleUpdateNote_run env' u
                 (mkPage (hook p) (Some sel) (isCreating p) true
                         (UseNotes.title (note sel)) (UseNotes.content (note sel))
                         (isLoadingSummary p) (isLoadingBulkSummary p) (summaryModal p))
                 now sel eq_refl Hdraft).
      cbn [newNoteTitle newNoteContent].
      destruct (env' _ 0 _) as [[data | err] | err]; reflexivity. }
    assert (Hkept : blank (UseNotes.title (note sel)) ||
                    blank (UseNotes.content (note sel)) = true ->
                    snd (run (handleUpdateNote u now)
                           (mkPage (hook p) (Some sel) (isCreating p) true
                              (UseNotes.title (note sel)) (UseNotes.content (note sel))
                              (isLoadingSummary p) (isLoadingBulkSummary p)
                              (summaryModal p)) env') = []).
    { intro Hdraft. unfold run, handleUpdateNote, bind, get.
      cbn [bindP selectedNote newNoteTitle newNoteContent].
      rewrite Hdraft. reflexivity. }
    split; [ reflexivity | split; [ reflexivity | split; [ reflexivity | ] ] ].
    split; [ reflexivity | split; [ reflexivity | ] ].
    split; [ exact Hsent | split; [ exact Hkept | ] ].
    intros ev Hev.
    destruct (blank (UseNotes.title (note sel)) || blank (UseNotes.content (note sel)))
      eqn:Hdraft.
    + rewrite (Hkept eq_refl) in Hev. destruct Hev.
    + rewrite (Hsent eq_refl) in Hev. destruct Hev as [<- | []]. reflexivity.
Qed.

Lemma edit_then_save_targets_the_selection_witness :
  selectedNote sample = Some (mkSelected Collection.groceries None) /\
  blank (UseNotes.title Collection.groceries) ||
    blank (UseNotes.content Collection.groceries) = false /\
  gateway_calls (handleUpdateNote Collection.alice "2024-05-03T08:00:00.000Z")
    (after startEdit sample Collection.all_well) Collection.store_down =
    [existT _ _ (UseNotes.Update
                   (UseNotes.TextPatch "Groceries" "milk, eggs, bread"
                                       "2024-05-03T08:00:00.000Z") "n-2")].
Proof.
  split; [ reflexivity | split; [ reflexivity | ] ].
  pose proof (proj2 (edit_then_save_targets_the_selection Collection.alice sample
                       Collection.all_well Collection.store_down)
                (mkSelected Collection.groceries None) "2024-05-03T08:00:00.000Z"
                eq_refl) as (_ & _ & _ & _ & _ & Hsent & _).
  exact (Hsent eq_refl).
Defined.

End PageEdit.

Section MoreWitnesses.
Import SummarizeNotes Batch UseNotes Collection.

Lemma batch_requests_follow_the_notes_witness :
  fst (serve (Some "nvapi-key") (post abc) second_refused) =
    Normal (success (combined abc ["ok"; fallback; "ok"])) /\
  List.length (snd (serve (Some "nvapi-key") (post abc) second_refused)) = 3.
Proof.
  split; [ reflexivity | ].
  destruct (batch_requests_follow_the_notes second_refused (Some "nvapi-key") abc)
    as (k & _ & Hsent & Hall).
  rewrite Hsent, (Hall _ eq_refl). reflexivity.
Defined.

Lemma store_mutations_show_one_toast_witness :
  confirmed (store_down _ 0 (Delete "n-2")) = false /\
  outcome (deleteNote (Some alice) "n-2") two_notes store_down = Normal false /\
  toasts (after (deleteNote (Some alice) "n-2") two_notes store_down) =
    [toast_error "Failed to delete note"].
Proof.
  pose proof (store_mutations_show_one_toast alice two_notes store_down) as (_ & _ & Hdel).
  destruct (Hdel "n-2") as [Htoast Hiff].
  split; [ reflexivity | split; [ exact (proj2 Hiff eq_refl) | exact Htoast ] ].
Defined.

End MoreWitnesses.
